(** * eeg_models.transforms: a shallow embedding and its properties

    The module [src/eeg_models/transforms.py] defines four scikit-learn style
    transformers ([ButterFilter], [Decimator], [ChannellwiseScaler],
    [MarkersTransformer]) over a base class [Transform].  Every method is
    embedded below as a function of the same name; Python exceptions are the
    [Raise] results of an error monad, and object fields are record fields.

    NumPy, SciPy and scikit-learn are not part of the repository.  The three
    [scipy.signal] functions and the injected scaler are interfaces (type
    classes) whose instances are arbitrary; what a statement relies on about
    them (argument validation, result lengths and shapes) is a named contract
    among its hypotheses, and Part 9 gives instances that meet the contracts.
    NumPy's array creation and assignment are modelled in Parts 1 and 2. *)

From Stdlib Require Import ZArith QArith Qabs Qround Lia List Sorted Ascii String.
From stdpp Require Import base tactics option list gmap strings.

Local Open Scope Z_scope.

(* ===================================================================== *)
(** * Part 1.  Python values, exceptions, and the error monad            *)
(* ===================================================================== *)

(** The exceptions the module can surface. *)
Inductive exn : Type :=
| ZeroDivisionError
| KeyError (key : Z)
| ValueError
| OverflowError.

(** The outcome of a Python call: a value, or a raised exception. *)
Inductive result (A : Type) : Type :=
| Ok (a : A)
| Raise (e : exn).
Arguments Ok {A} a.
Arguments Raise {A} e.

#[global] Instance result_ret : MRet result := fun A a => Ok a.
#[global] Instance result_bind : MBind result := fun A B f m =>
  match m with
  | Ok a => f a
  | Raise e => Raise e
  end.
#[global] Instance result_fmap : FMap result := fun A B f m =>
  match m with
  | Ok a => Ok (f a)
  | Raise e => Raise e
  end.

Definition is_Ok {A} (r : result A) : Prop := exists a, r = Ok a.

(** A list comprehension [[f item for item in items]] whose body may raise:
    the items are visited left to right and the first exception aborts. *)
Fixpoint comprehension {A B} (f : A -> result B) (items : list A) : result (list B) :=
  match items with
  | [] => Ok []
  | item :: rest =>
      y ← f item;
      ys ← comprehension f rest;
      Ok (y :: ys)
  end.

(** [enumerate(xs)], counting from [start]. *)
Fixpoint enumerate_from {A} (start : Z) (xs : list A) : list (Z * A) :=
  match xs with
  | [] => []
  | x :: rest => (start, x) :: enumerate_from (start + 1) rest
  end.

Definition enumerate {A} (xs : list A) : list (Z * A) := enumerate_from 0 xs.

(** Python's [a // b] on integers: floor division, [ZeroDivisionError] on a
    zero divisor.  [Z.div] rounds towards minus infinity like Python. *)
Definition floordiv (a b : Z) : result Z :=
  if decide (b = 0) then Raise ZeroDivisionError else Ok (a / b).

(** Python's [a / b] on numbers (true division).  Finite floats are modelled
    by exact rationals. *)
Definition truediv (a b : Q) : result Q :=
  if Qeq_bool b 0 then Raise ZeroDivisionError else Ok (a / b)%Q.

(** ** Label values and their conversion to a NumPy integer

    The values of [labels_mapping] are Python objects.  Two kinds are
    modelled: integers and strings. *)
Inductive pyobj : Type :=
| PyInt (z : Z)
| PyStr (s : string).

(** The range of NumPy's default integer ([np.int] is Python's [int], stored
    as a 64-bit C long). *)
Definition int64_min : Z := - 2 ^ 63.
Definition int64_max : Z := 2 ^ 63 - 1.
Definition in_int64 (z : Z) : bool := (int64_min <=? z) && (z <=? int64_max).

(** Python's [int(s)] for a base-10 literal, on ASCII text: optional
    surrounding whitespace, an optional sign, then digits, where single
    underscores may separate digits.  The whitespace [int] skips in an ASCII
    string is the tab, the line feed, the vertical tab, the form feed, the
    carriage return and the space (bytes 9 to 13, and 32); the separators 28
    to 31 are no whitespace there. *)
Definition is_space (c : ascii) : bool :=
  let n := N_of_ascii c in
  (((9 <=? n) && (n <=? 13)) || (n =? 32))%N.

Definition digit_of (c : ascii) : option Z :=
  let n := N_of_ascii c in
  if ((48 <=? n) && (n <=? 57))%N then Some (Z.of_N n - 48) else None.

Fixpoint lstrip (cs : list ascii) : list ascii :=
  match cs with
  | c :: rest => if is_space c then lstrip rest else cs
  | [] => []
  end.

Definition strip (cs : list ascii) : list ascii := rev (lstrip (rev (lstrip cs))).

(** [digits acc after_digit cs]: [after_digit] tells whether the previous
    character was a digit (an underscore is only legal there, and the text
    may only end there). *)
Fixpoint digits (acc : Z) (after_digit : bool) (cs : list ascii) : option Z :=
  match cs with
  | [] => if after_digit then Some acc else None
  | c :: rest =>
      match digit_of c with
      | Some d => digits (10 * acc + d) true rest
      | None =>
          if (N_of_ascii c =? 95)%N && after_digit
          then match rest with
               | [] => None
               | c' :: _ => if is_Some_dec (digit_of c') then digits acc false rest else None
               end
          else None
      end
  end.

Definition py_int_of_str (s : string) : option Z :=
  match strip (list_ascii_of_string s) with
  | [] => None
  | c :: rest =>
      if (N_of_ascii c =? 45)%N then Z.opp <$> digits 0 false rest
      else if (N_of_ascii c =? 43)%N then digits 0 false rest
      else digits 0 false (c :: rest)
  end.

(** Storing one Python object into an array of dtype [np.int]:
    an integer must fit the 64-bit range ([OverflowError] otherwise), a string
    goes through [int()] ([ValueError] when it is no integer literal). *)
Definition as_np_int (v : pyobj) : result Z :=
  match v with
  | PyInt z => if in_int64 z then Ok z else Raise OverflowError
  | PyStr s =>
      match py_int_of_str s with
      | Some z => if in_int64 z then Ok z else Raise OverflowError
      | None => Raise ValueError
      end
  end.

(** [np.array(index_label, dtype=np.int)] on a list of [(index, label)]
    tuples: an integer array with one row [[index, label]] per tuple (shape
    [(n, 2)], or [(0,)] for the empty list).  Labels are converted in order.
    An index is the quotient of a position in a Python list, a machine
    integer already, so only the label can fail to convert. *)
Definition np_array_int (index_label : list (Z * pyobj)) : result (list (Z * Z)) :=
  comprehension (fun '(i, l) => l' ← as_np_int l; Ok (i, l')) index_label.

(* ===================================================================== *)
(** * Part 2.  NumPy arrays: dtype, shape, iteration, assignment          *)
(* ===================================================================== *)

(** The element types of the numeric arrays that reach the transforms: the
    signed and the unsigned integers of 8 to 64 bits, and the double
    precision floats.  A finite float is modelled by the rational it denotes;
    an element of an integer array is a rational with denominator one. *)
Inductive dtype : Type :=
| int8 | int16 | int32 | int64
| uint8 | uint16 | uint32 | uint64
| float64.

#[global] Instance dtype_eq_dec : EqDecision dtype.
Proof. solve_decision. Defined.

(** Rounding towards zero: the C cast applied when a float is stored into an
    integer array. *)
Definition Qtrunc (x : Q) : Z := Z.quot (Qnum x) (Zpos (Qden x)).

(** The lowest and the highest value of an integer dtype; [None] for a
    float dtype. *)
Definition int_range (d : dtype) : option (Z * Z) :=
  match d with
  | int8 => Some (- 2 ^ 7, 2 ^ 7 - 1)
  | int16 => Some (- 2 ^ 15, 2 ^ 15 - 1)
  | int32 => Some (- 2 ^ 31, 2 ^ 31 - 1)
  | int64 => Some (- 2 ^ 63, 2 ^ 63 - 1)
  | uint8 => Some (0, 2 ^ 8 - 1)
  | uint16 => Some (0, 2 ^ 16 - 1)
  | uint32 => Some (0, 2 ^ 32 - 1)
  | uint64 => Some (0, 2 ^ 64 - 1)
  | float64 => None
  end.

(** [value.astype(d)] on one element, as done by an assignment into an array
    of dtype [d]: a float that goes into an integer array is rounded towards
    zero.  When the rounded value is no value of [d], the C conversion NumPy
    performs is undefined and what the array holds depends on the machine (on
    x86-64 an [int64] array holds its lowest value then).  The model stores
    the lowest value of [d]; what the theorems say about stored values is
    said with [stored] below, which leaves that value open. *)
Definition cast (d : dtype) (x : Q) : Q :=
  match int_range d with
  | Some (lo, hi) =>
      if (lo <=? Qtrunc x) && (Qtrunc x <=? hi) then inject_Z (Qtrunc x)
      else inject_Z lo
  | None => x
  end.

(** [y] is what an array of dtype [d] may hold after [x] was assigned to one
    of its elements: [x] itself in a float array; in an integer array a value
    of the dtype, which is [x] rounded towards zero whenever that is a value
    of the dtype. *)
Definition stored (d : dtype) (x y : Q) : Prop :=
  match int_range d with
  | Some (lo, hi) =>
      exists z : Z, y = inject_Z z /\ lo <= z <= hi /\
                    (lo <= Qtrunc x <= hi -> z = Qtrunc x)
  | None => y = x
  end.

(** A 1-D array of shape [(length data1,)]. *)
Record array1 : Type := {
  dtype1 : dtype;
  data1 : list Q
}.

(** A 2-D array of shape [(length rows2, ncols2)]. *)
Record array2 : Type := {
  dtype2 : dtype;
  ncols2 : nat;
  rows2 : list (list Q)
}.

(** A 3-D array of shape [(length recs3, nrows3, ncols3)]. *)
Record array3 : Type := {
  dtype3 : dtype;
  nrows3 : nat;
  ncols3 : nat;
  recs3 : list (list (list Q))
}.

Definition shape1 (a : array1) : nat := length (data1 a).
Definition shape2 (a : array2) : nat * nat := (length (rows2 a), ncols2 a).
Definition shape3 (a : array3) : nat * nat * nat := (length (recs3 a), nrows3 a, ncols3 a).

(** Well-formed arrays are rectangular. *)
Definition rect (r c : nat) (rows : list (list Q)) : Prop :=
  length rows = r /\ Forall (fun row => length row = c) rows.
Definition wf2 (a : array2) : Prop :=
  Forall (fun row => length row = ncols2 a) (rows2 a).
Definition wf3 (a : array3) : Prop :=
  Forall (rect (nrows3 a) (ncols3 a)) (recs3 a).

(** What [for item in a] yields: the sub-arrays along the first axis. *)
Definition iter2 (a : array2) : list array1 :=
  map (fun row => {| dtype1 := dtype2 a; data1 := row |}) (rows2 a).
Definition iter3 (a : array3) : list array2 :=
  map (fun rec => {| dtype2 := dtype3 a; ncols2 := ncols3 a; rows2 := rec |}) (recs3 a).

(** [a.T] of a 2-D array; of a 1-D array it is the array itself. *)
Definition column (j : nat) (rows : list (list Q)) : list Q :=
  map (fun row => nth j row 0%Q) rows.
Definition transpose (a : array2) : array2 :=
  {| dtype2 := dtype2 a;
     ncols2 := length (rows2 a);
     rows2 := map (fun j => column j (rows2 a)) (seq 0 (ncols2 a)) |}.

(** The argument of a scaler call: a 1-D or a 2-D array. *)
Inductive ndarray : Type :=
| Nd1 (a : array1)
| Nd2 (a : array2).

Definition ndT (x : ndarray) : ndarray :=
  match x with
  | Nd1 a => Nd1 a
  | Nd2 a => Nd2 (transpose a)
  end.

(** ** Broadcasting assignment

    [bcast n l] is [l] stretched to length [n] under NumPy's rule: equal
    length, or length one repeated. *)
Definition bcast {A} (n : nat) (l : list A) : result (list A) :=
  if decide (length l = n) then Ok l
  else match l with
       | [x] => Ok (repeat x n)
       | _ => Raise ValueError
       end.

(** Assigning a 2-D value to a slot of shape [(r, c)] and dtype [d]
    ([scaled[i] = value] in a 3-D array). *)
Definition setitem_2d (d : dtype) (r c : nat) (value : array2) : result (list (list Q)) :=
  rows ← bcast r (rows2 value);
  rows' ← comprehension (bcast c) rows;
  Ok (map (map (cast d)) rows').

(** Assigning a 2-D value to a slot of shape [(c,)] and dtype [d]
    ([scaled[i] = value] in a 2-D array): the value's leading axis must have
    length one. *)
Definition setitem_1d (d : dtype) (c : nat) (value : array2) : result (list Q) :=
  match rows2 value with
  | [row] => row' ← bcast c row; Ok (map (cast d) row')
  | _ => Raise ValueError
  end.

(** [out[:] = values] for a 2-D [out] of shape [(n, c)], dtype [d], and a
    list [values] of [n] float vectors: NumPy first makes one array of the
    list (which must not be ragged), then broadcasts it to [out]'s shape. *)
Definition setitem_all_2d (d : dtype) (c : nat) (values : list (list Q))
    : result (list (list Q)) :=
  match values with
  | [] => if decide (c = 0%nat) then Ok [] else Raise ValueError
  | v :: _ =>
      if forallb (fun w => length w =? length v)%nat values then
        rows ← comprehension (bcast c) values;
        Ok (map (map (cast d)) rows)
      else Raise ValueError
  end.

(** ** Batches

    A batch of 1-D records is a 2-D numeric array (one record per row) or a
    1-D array of dtype [object] whose items are 1-D arrays. *)
Inductive batch1d : Type :=
| Batch2D (a : array2)
| BatchObj (items : list array1).

Definition iter_batch1d (batch : batch1d) : list array1 :=
  match batch with
  | Batch2D a => iter2 a
  | BatchObj items => items
  end.

(** A batch for [ChannellwiseScaler] (docstrings, lines 78-79 and 89-91):
    one record as a 2-D array, many records as a 3-D array, or many records
    as a 1-D [object] array of 2-D arrays. *)
Inductive batch2d : Type :=
| Single (a : array2)
| Many (a : array3)
| ManyObj (items : list array2).

Definition iter_batch2d (batch : batch2d) : list ndarray :=
  match batch with
  | Single a => map Nd1 (iter2 a)
  | Many a => map Nd2 (iter3 a)
  | ManyObj items => map Nd2 items
  end.

(* ===================================================================== *)
(** * Part 3.  The external capabilities                                  *)
(* ===================================================================== *)

(** Filter coefficients [(b, a)]: numerator and denominator. *)
Definition coeffs : Type := list Q * list Q.

(** The three [scipy.signal] functions the module calls, each on the
    arguments the module passes:
    - [butter N Wn] is [signal.butter(N, Wn, btype="bandpass")], the band
      edges reaching SciPy as the doubles nearest to [Wn] (each edge is the
      result of one float division, that is the exact quotient, rounded);
    - [filtfilt ba x] is [signal.filtfilt(b, a, x)];
    - [decimate x q] is [signal.decimate(x, q)]. *)
Class SciPySignal : Type := {
  butter : Z -> Q * Q -> result coeffs;
  filtfilt : coeffs -> list Q -> result (list Q);
  decimate : list Q -> Z -> result (list Q)
}.

(** The padding of [filtfilt].  Called as [filtfilt(b, a, x)] it pads
    [x] at both ends by [padlen] samples, the default being
    [3 * max(len(a), len(b))], and raises [ValueError] ("The length of the
    input vector x must be greater than padlen") unless [x] is longer. *)
Definition padlen (ba : coeffs) : nat := 3 * Nat.max (length (fst ba)) (length (snd ba)).

(** The padding [decimate] ends up with.  Called as [decimate(x, q)] it
    designs its default anti-aliasing filter, a Chebyshev type I filter of
    order 8 (nine coefficients), and applies it forward and backward
    ([zero_phase=True]) with the default padding of three times nine
    samples, before keeping every [q]-th sample. *)
Definition decimate_padlen : nat := 27.

(** [ceil(n / q)] for a positive [q]. *)
Definition ceil_div (n q : Z) : Z := (n + q - 1) / q.

(** What the embedding relies on about [signal.butter] with
    [btype="bandpass"]. *)
Record ButterContract (S : SciPySignal) : Prop := {
  (** each band edge must lie strictly between 0 and 1 ("Digital filter
      critical frequencies must be 0 < Wn < 1") *)
  butter_range : forall N w0 w1,
    ~ ((0 < w0 /\ w0 < 1) /\ (0 < w1 /\ w1 < 1))%Q -> butter N (w0, w1) = Raise ValueError;
  (** a band-pass design of order [N] has [2 N + 1] coefficients each *)
  butter_lengths : forall N Wn b a,
    butter N Wn = Ok (b, a) ->
    Z.of_nat (length b) = 2 * N + 1 /\ Z.of_nat (length a) = 2 * N + 1
}.

(** A design routine that also refuses band edges that are not in increasing
    order ("Wn[0] must be less than Wn[1]").  Recent releases of SciPy do;
    SciPy 1.6.1 does not, and designs a filter for such a band. *)
Definition ChecksOrder (S : SciPySignal) : Prop :=
  forall N w0 w1, (w1 <= w0)%Q -> butter N (w0, w1) = Raise ValueError.

(** What it relies on about [signal.filtfilt]. *)
Record FiltfiltContract (S : SciPySignal) : Prop := {
  (** input no longer than the padding is refused *)
  filtfilt_short : forall ba x,
    (length x <= padlen ba)%nat -> filtfilt ba x = Raise ValueError;
  (** with designed coefficients, longer input is filtered *)
  filtfilt_long : forall N Wn ba x,
    butter N Wn = Ok ba -> (padlen ba < length x)%nat -> is_Ok (filtfilt ba x);
  (** the result has the length of the input *)
  filtfilt_length : forall ba x y,
    filtfilt ba x = Ok y -> length y = length x
}.

(** What it relies on about [signal.decimate]. *)
Record DecimateContract (S : SciPySignal) : Prop := {
  (** for a factor of at least one, input no longer than the padding is
      refused (the factor is looked at first: a factor of zero raises
      [ZeroDivisionError] when the cutoff [0.8 / q] is computed) *)
  decimate_short : forall x q,
    1 <= q -> (length x <= decimate_padlen)%nat -> decimate x q = Raise ValueError;
  (** longer input is filtered and every [q]-th sample kept *)
  decimate_long : forall x q,
    1 <= q -> (decimate_padlen < length x)%nat ->
    exists y, decimate x q = Ok y /\
              Z.of_nat (length y) = ceil_div (Z.of_nat (length x)) q
}.

(** The injected scaler ([sklearn.preprocessing.StandardScaler],
    [MinMaxScaler] "or analogue", line 70): an object with state [St] and the
    two methods the module calls, each with the array the module hands over.
    [partial_fit] returns the state it leaves behind, also when it raises; the
    result of [transform] is a 2-D array. *)
Class Scaler (St : Type) : Type := {
  partial_fit : St -> ndarray -> St * result unit;
  scaler_transform : St -> ndarray -> result array2
}.

(** The scikit-learn scalers work on 2-D matrices of shape (samples,
    features): they validate their argument and raise [ValueError]
    ("Expected 2D array, got 1D array instead") on a 1-D array, before
    touching their state. *)
Record ExpectsMatrix (St : Type) {Sc : Scaler St} : Prop := {
  transform_1d : forall (s : St) (v : array1), scaler_transform s (Nd1 v) = Raise ValueError;
  partial_fit_1d : forall (s : St) (v : array1), partial_fit s (Nd1 v) = (s, Raise ValueError)
}.

(* ===================================================================== *)
(** * Part 4.  Transform, ButterFilter, Decimator                         *)
(* ===================================================================== *)

(** Every method is a function from the object (and its arguments) to the
    object it leaves behind and the outcome of the call. *)
Definition method (Self Out : Type) : Type := Self * result Out.

(** [Transform.fit] (lines 14-15): [return self]. *)
Definition Transform_fit {Self Batch : Type} (self : Self) (batch : Batch)
    : method Self Self :=
  (self, Ok self).

(** ** ButterFilter *)
Record ButterFilter : Type := {
  sampling_rate : Z;
  order : Z;
  highpass : Q;
  lowpass : Q;
  filter : coeffs
}.

(** [0.5 * self.sampling_rate], the Nyquist frequency. *)
Definition nyquist (sampling_rate : Z) : Q := ((1 # 2) * inject_Z sampling_rate)%Q.

(** The integers Python converts to a float: those that round to a finite
    double.  The largest double is [2^1024 - 2^971]; an integer of magnitude
    [2^1024 - 2^970] or more raises [OverflowError] ("int too large to
    convert to float"). *)
Definition float_int_limit : Z := 2 ^ 1024 - 2 ^ 970.

(** [0.5 * self.sampling_rate] as Python evaluates it. *)
Definition half_rate (sampling_rate : Z) : result Q :=
  if Z.abs sampling_rate <? float_int_limit then Ok (nyquist sampling_rate)
  else Raise OverflowError.

(** The numbers that are, or convert to, a float. *)
Definition fits_float (a : Q) : Prop := (Qabs a < inject_Z float_int_limit)%Q.

(** [a / n] for a number [a] and a float [n].  A float has a magnitude below
    [float_int_limit]; a number of that magnitude or more is an integer, which
    Python fails to convert to a float before it looks at the divisor. *)
Definition float_truediv (a n : Q) : result Q :=
  if Qle_bool (inject_Z float_int_limit) (Qabs a) then Raise OverflowError
  else truediv a n.

(** [ButterFilter.__init__] (lines 21-30).  The cutoffs are numbers (the
    annotation says [int]; a cutoff such as 0.5 Hz is a float), the sampling
    rate and the order are integers.  Each cutoff is divided by half the
    sampling rate; the quotients are kept exact here and rounded where
    [butter] takes them over.  Half the sampling rate itself is exact for a
    sampling rate below [2^53]. *)
Definition ButterFilter_init {S : SciPySignal} (sampling_rate order : Z)
    (highpass lowpass : Q) : result ButterFilter :=
  n ← half_rate sampling_rate;
  w0 ← float_truediv highpass n;
  w1 ← float_truediv lowpass n;
  ba ← butter order (w0, w1);
  Ok {| sampling_rate := sampling_rate; order := order;
        highpass := highpass; lowpass := lowpass; filter := ba |}.

(** [out = np.empty_like(batch); out[:] = values]. *)
Definition assign_like (batch : batch1d) (values : list (list Q)) : result batch1d :=
  match batch with
  | Batch2D a =>
      rows ← setitem_all_2d (dtype2 a) (ncols2 a) values;
      Ok (Batch2D {| dtype2 := dtype2 a; ncols2 := ncols2 a; rows2 := rows |})
  | BatchObj _ =>
      Ok (BatchObj (map (fun v => {| dtype1 := float64; data1 := v |}) values))
  end.

(** [ButterFilter.transform] (lines 32-35). *)
Definition ButterFilter_transform {S : SciPySignal} (self : ButterFilter) (batch : batch1d)
    : method ButterFilter batch1d :=
  (self,
   values ← comprehension (fun item => filtfilt (filter self) (data1 item))
                          (iter_batch1d batch);
   assign_like batch values).

Definition ButterFilter_fit (self : ButterFilter) (batch : batch1d)
    : method ButterFilter ButterFilter :=
  Transform_fit self batch.

(** ** Decimator *)
Record Decimator : Type := {
  factor : Z
}.

Definition Decimator_init (factor : Z) : Decimator := {| factor := factor |}.

(** [Decimator.transform] (lines 49-61).  The result is a 1-D array of dtype
    [object] with one float array per record. *)
Definition Decimator_transform {S : SciPySignal} (self : Decimator) (batch : batch1d)
    : method Decimator (list array1) :=
  (self,
   values ← comprehension (fun item => decimate (data1 item) (factor self))
                          (iter_batch1d batch);
   Ok (map (fun v => {| dtype1 := float64; data1 := v |}) values)).

Definition Decimator_fit (self : Decimator) (batch : batch1d)
    : method Decimator Decimator :=
  Transform_fit self batch.

(* ===================================================================== *)
(** * Part 5.  ChannellwiseScaler                                         *)
(* ===================================================================== *)

(** The object holds the injected scaler. *)
Record ChannellwiseScaler (St : Type) : Type := {
  scaler : St
}.
Arguments scaler {St} _.

(** The loop of [fit] (lines 81-82) over the items of the batch, threading
    the scaler's state; an exception leaves the state reached so far. *)
Fixpoint fit_loop {St : Type} {Sc : Scaler St} (s : St) (items : list ndarray)
    : St * result unit :=
  match items with
  | [] => (s, Ok tt)
  | signals :: rest =>
      match partial_fit s (ndT signals) with
      | (s', Ok _) => fit_loop s' rest
      | (s', Raise e) => (s', Raise e)
      end
  end.

(** [ChannellwiseScaler.fit] (lines 75-83). *)
Definition ChannellwiseScaler_fit {St : Type} {Sc : Scaler St}
    (self : ChannellwiseScaler St) (batch : batch2d)
    : method (ChannellwiseScaler St) (ChannellwiseScaler St) :=
  let '(s', r) := fit_loop (scaler self) (iter_batch2d batch) in
  let self' := {| scaler := s' |} in
  (self', (fun _ => self') <$> r).

(** One turn of the loop of [transform] (line 99), up to the value to be
    stored: [self.scaler.transform(signals.T).T]. *)
Definition scaled_value {St : Type} {Sc : Scaler St} (s : St) (signals : ndarray)
    : result array2 :=
  transpose <$> scaler_transform s (ndT signals).

(** [ChannellwiseScaler.transform] (lines 85-100). *)
Definition ChannellwiseScaler_transform {St : Type} {Sc : Scaler St}
    (self : ChannellwiseScaler St) (batch : batch2d)
    : method (ChannellwiseScaler St) batch2d :=
  (self,
   match batch with
   | Single a =>
       rows ← comprehension
                (fun signals => v ← scaled_value (scaler self) signals;
                                setitem_1d (dtype2 a) (ncols2 a) v)
                (iter_batch2d batch);
       Ok (Single {| dtype2 := dtype2 a; ncols2 := ncols2 a; rows2 := rows |})
   | Many a =>
       recs ← comprehension
                (fun signals => v ← scaled_value (scaler self) signals;
                                setitem_2d (dtype3 a) (nrows3 a) (ncols3 a) v)
                (iter_batch2d batch);
       Ok (Many {| dtype3 := dtype3 a; nrows3 := nrows3 a; ncols3 := ncols3 a;
                   recs3 := recs |})
   | ManyObj _ =>
       items ← comprehension (scaled_value (scaler self)) (iter_batch2d batch);
       Ok (ManyObj items)
   end).

(** [ChannellwiseScaler.__init__] (lines 67-73) stores the scaler it is
    given. *)
Definition ChannellwiseScaler_init {St : Type} (scaler : St) : ChannellwiseScaler St :=
  {| scaler := scaler |}.

(* ===================================================================== *)
(** * Part 6.  MarkersTransformer                                         *)
(* ===================================================================== *)

(** [MarkersTransformer.__init__] stores its three arguments.  Marker samples
    and the keys of [labels_mapping] are numbers compared with [==]; they are
    integers here (a float sample such as [2.0] is equal to, and hashes like,
    the integer [2]). *)
Record MarkersTransformer : Type := {
  labels_mapping : gmap Z pyobj;
  decimation_factor : Z;
  empty_label : Z
}.

(** [self.labels_mapping[label]] *)
Definition getitem (m : gmap Z pyobj) (label : Z) : result pyobj :=
  match m !! label with
  | Some v => Ok v
  | None => Raise (KeyError label)
  end.

(** The inner loop of [transform] (lines 122-128) over the enumerated
    samples; [index_label] is the list built so far. *)
Fixpoint markers_loop (self : MarkersTransformer) (items : list (Z * Z))
    (index_label : list (Z * pyobj)) : result (list (Z * pyobj)) :=
  match items with
  | [] => Ok index_label
  | (index, label) :: rest =>
      if decide (label = empty_label self) then
        markers_loop self rest index_label
      else
        new_index ← floordiv index (decimation_factor self);
        new_label ← getitem (labels_mapping self) label;
        markers_loop self rest (index_label ++ [(new_index, new_label)])
  end.

(** The body of the outer loop for one record (lines 121-130). *)
Definition markers_record (self : MarkersTransformer) (markers : list Z)
    : result (list (Z * Z)) :=
  index_label ← markers_loop self (enumerate markers) [];
  np_array_int index_label.

(** The outer loop (lines 118-131); [res] is the list built so far. *)
Fixpoint markers_batch_loop (self : MarkersTransformer) (batch : list (list Z))
    (res : list (list (Z * Z))) : result (list (list (Z * Z))) :=
  match batch with
  | [] => Ok res
  | markers :: rest =>
      arr ← markers_record self markers;
      markers_batch_loop self rest (res ++ [arr])
  end.

(** [MarkersTransformer.transform] (lines 117-131). *)
Definition MarkersTransformer_transform (self : MarkersTransformer)
    (batch : list (list Z)) : method MarkersTransformer (list (list (Z * Z))) :=
  (self, markers_batch_loop self batch []).

Definition MarkersTransformer_fit (self : MarkersTransformer) (batch : list (list Z))
    : method MarkersTransformer MarkersTransformer :=
  Transform_fit self batch.

(** [MarkersTransformer.__init__] (lines 106-115).  An argument that is left
    out takes its default: [decimation_factor=1], [empty_label=0.0]. *)
Definition MarkersTransformer_init (labels_mapping : gmap Z pyobj)
    (decimation_factor empty_label : option Z) : MarkersTransformer :=
  {| labels_mapping := labels_mapping;
     decimation_factor := default 1 decimation_factor;
     empty_label := default 0 empty_label |}.

(* ===================================================================== *)
(** * Part 7.  A pipeline of the four transformers                        *)
(* ===================================================================== *)

(** One object of each class, and the method calls a client can make on
    them.  [step] performs one call and keeps the objects it leaves behind
    (the outcome of the call goes to the client). *)
Record pipeline (St : Type) : Type := {
  bf : ButterFilter;
  dec : Decimator;
  cs : ChannellwiseScaler St;
  mt : MarkersTransformer
}.
Arguments bf {St} _.
Arguments dec {St} _.
Arguments cs {St} _.
Arguments mt {St} _.

Inductive call : Type :=
| CallButterFit (batch : batch1d)
| CallButterTransform (batch : batch1d)
| CallDecimatorFit (batch : batch1d)
| CallDecimatorTransform (batch : batch1d)
| CallScalerFit (batch : batch2d)
| CallScalerTransform (batch : batch2d)
| CallMarkersFit (batch : list (list Z))
| CallMarkersTransform (batch : list (list Z)).

Definition step {S : SciPySignal} {St : Type} {Sc : Scaler St} (p : pipeline St) (c : call)
    : pipeline St :=
  match c with
  | CallButterFit b =>
      {| bf := fst (ButterFilter_fit (bf p) b); dec := dec p; cs := cs p; mt := mt p |}
  | CallButterTransform b =>
      {| bf := fst (ButterFilter_transform (bf p) b); dec := dec p; cs := cs p; mt := mt p |}
  | CallDecimatorFit b =>
      {| bf := bf p; dec := fst (Decimator_fit (dec p) b); cs := cs p; mt := mt p |}
  | CallDecimatorTransform b =>
      {| bf := bf p; dec := fst (Decimator_transform (dec p) b); cs := cs p; mt := mt p |}
  | CallScalerFit b =>
      {| bf := bf p; dec := dec p; cs := fst (ChannellwiseScaler_fit (cs p) b); mt := mt p |}
  | CallScalerTransform b =>
      {| bf := bf p; dec := dec p; cs := fst (ChannellwiseScaler_transform (cs p) b); mt := mt p |}
  | CallMarkersFit b =>
      {| bf := bf p; dec := dec p; cs := cs p; mt := fst (MarkersTransformer_fit (mt p) b) |}
  | CallMarkersTransform b =>
      {| bf := bf p; dec := dec p; cs := cs p; mt := fst (MarkersTransformer_transform (mt p) b) |}
  end.

Definition run {S : SciPySignal} {St : Type} {Sc : Scaler St} (p : pipeline St)
    (calls : list call) : pipeline St :=
  fold_left step calls p.

(** The batches handed to [ChannellwiseScaler.fit] by a sequence of calls,
    and the scaler state they lead to. *)
Definition fit_batches (calls : list call) : list batch2d :=
  omap (fun c => match c with CallScalerFit b => Some b | _ => None end) calls.

Definition scaler_after {St : Type} {Sc : Scaler St} (s : St) (batches : list batch2d)
    : St :=
  fold_left (fun s b => fst (fit_loop s (iter_batch2d b))) batches s.

(* ===================================================================== *)
(** * Part 8.  Derived notions used by the statements                     *)
(* ===================================================================== *)

(** [np.concatenate([b1, b2])] along the first axis, for two batches of the
    same form, dtype and record shape. *)
Definition batch_concat (b1 b2 : batch2d) : option batch2d :=
  match b1, b2 with
  | Single a1, Single a2 =>
      if decide (dtype2 a1 = dtype2 a2 /\ ncols2 a1 = ncols2 a2)
      then Some (Single {| dtype2 := dtype2 a1; ncols2 := ncols2 a1;
                           rows2 := rows2 a1 ++ rows2 a2 |})
      else None
  | Many a1, Many a2 =>
      if decide (dtype3 a1 = dtype3 a2 /\ nrows3 a1 = nrows3 a2 /\ ncols3 a1 = ncols3 a2)
      then Some (Many {| dtype3 := dtype3 a1; nrows3 := nrows3 a1; ncols3 := ncols3 a1;
                         recs3 := recs3 a1 ++ recs3 a2 |})
      else None
  | ManyObj i1, ManyObj i2 => Some (ManyObj (i1 ++ i2))
  | _, _ => None
  end.

(** [b12] is a concatenation of [b1] and [b2]: a batch that holds the
    records of [b1] followed by those of [b2]. *)
Definition is_concat (b1 b2 b12 : batch2d) : Prop :=
  iter_batch2d b12 = iter_batch2d b1 ++ iter_batch2d b2.

(** [np.vstack] of sample matrices with the same number of features. *)
Definition vstack (A B : array2) : array2 :=
  {| dtype2 := dtype2 A; ncols2 := ncols2 A; rows2 := rows2 A ++ rows2 B |}.

Fixpoint vstack_all (A : array2) (rest : list array2) : array2 :=
  match rest with
  | [] => A
  | B :: rest' => vstack_all (vstack A B) rest'
  end.

(** Sequencing two state-and-exception steps: the second runs only when the
    first returned. *)
Definition and_then {St} (r : St * result unit) (k : St -> St * result unit)
    : St * result unit :=
  match r with
  | (s, Ok _) => k s
  | (s, Raise e) => (s, Raise e)
  end.

(** An accumulator-based scaler: fitting incrementally on two non-empty
    sample matrices with the same features is fitting once on their
    concatenation. *)
Definition accumulator_based (St : Type) {Sc : Scaler St} : Prop :=
  forall (s : St) (A B : array2),
    rows2 A <> [] -> rows2 B <> [] -> ncols2 A = ncols2 B ->
    and_then (partial_fit s (Nd2 A)) (fun s' => partial_fit s' (Nd2 B))
    = partial_fit s (Nd2 (vstack A B)).

(** A scaler that keeps the shape of what it transforms, on every matrix of
    the list [ms] (a fitted scaler given matrices with the features it was
    fitted on). *)
Definition transforms_in_shape {St : Type} {Sc : Scaler St} (s : St) (ms : list array2)
    : Prop :=
  Forall (fun m => exists y, scaler_transform s (Nd2 m) = Ok y /\
                             shape2 y = shape2 m /\ wf2 y) ms.

(** The samples the specification asks an event for, for one record: those
    that differ from [empty], in sample order, each with its raw index. *)
Definition is_marked (empty : Z) (sample : Z * Z) : bool := negb (snd sample =? empty).

Definition marked_samples (empty : Z) (markers : list Z) : list (Z * Z) :=
  List.filter (is_marked empty) (enumerate markers).

(** An event [(i, l)] is the image of the marked sample [(index, label)]. *)
Definition event_of (self : MarkersTransformer) (ev : Z * Z) (sample : Z * Z) : Prop :=
  fst ev = fst sample / decimation_factor self /\
  labels_mapping self !! snd sample = Some (PyInt (snd ev)).

(** The mapping gives every non-empty sample of the record an integer label
    that fits NumPy's integer. *)
Definition covers_int (self : MarkersTransformer) (markers : list Z) : Prop :=
  forall label, In label markers -> label <> empty_label self ->
    exists l, labels_mapping self !! label = Some (PyInt l) /\ in_int64 l = true.

(** Every label of the mapping is an integer that fits NumPy's integer. *)
Definition integer_labels (m : gmap Z pyobj) : Prop :=
  forall key o, m !! key = Some o -> exists l, o = PyInt l /\ in_int64 l = true.

(** Some record of the batch has a marked sample without a label. *)
Definition has_unmapped (self : MarkersTransformer) (batch : list (list Z)) : Prop :=
  exists markers v, In markers batch /\ In v markers /\
                    v <> empty_label self /\ labels_mapping self !! v = None.

(** [fit(b1); fit(b2)]: the second call is made when the first returned. *)
Definition then_fit {St : Type} {Sc : Scaler St}
    (m : method (ChannellwiseScaler St) (ChannellwiseScaler St)) (b2 : batch2d)
    : method (ChannellwiseScaler St) (ChannellwiseScaler St) :=
  match m with
  | (self1, Ok _) => ChannellwiseScaler_fit self1 b2
  | (self1, Raise e) => (self1, Raise e)
  end.

(** One [partial_fit] of the wrapped scaler on a sample matrix. *)
Definition fit_once {St : Type} {Sc : Scaler St} (self : ChannellwiseScaler St) (m : array2)
    : method (ChannellwiseScaler St) (ChannellwiseScaler St) :=
  let '(s', r) := partial_fit (scaler self) (Nd2 m) in
  let self' := {| scaler := s' |} in
  (self', (fun _ => self') <$> r).

(** Records that can be stacked after transposition: at least one sample
    each, and [ch] channels each. *)
Definition stackable (ch : nat) (recs : list array2) : Prop :=
  Forall (fun rec => ncols2 rec <> 0%nat /\ length (rows2 rec) = ch) recs.

(** Two batches of 1-D records have the same shape: the same container
    form, and record by record the same length (for a 2-D array also the
    same dtype-independent shape and rectangular rows). *)
Definition same_shape1d (out batch : batch1d) : Prop :=
  match out, batch with
  | Batch2D o, Batch2D b => shape2 o = shape2 b /\ wf2 o
  | BatchObj o, BatchObj b => True
  | _, _ => False
  end /\
  Forall2 (fun x y => shape1 x = shape1 y) (iter_batch1d out) (iter_batch1d batch).

Definition wf_batch1d (batch : batch1d) : Prop :=
  match batch with
  | Batch2D a => wf2 a
  | BatchObj _ => True
  end.

(** A batch given as a 2-D array holds at least one record. *)
Definition holds_record (batch : batch1d) : Prop :=
  match batch with
  | Batch2D a => rows2 a <> []
  | BatchObj _ => True
  end.

(** The dtype of a batch held in one numeric array; [None] stands for
    [object]. *)
Definition batch1d_dtype (batch : batch1d) : option dtype :=
  match batch with
  | Batch2D a => Some (dtype2 a)
  | BatchObj _ => None
  end.

Definition batch2d_dtype (batch : batch2d) : option dtype :=
  match batch with
  | Single a => Some (dtype2 a)
  | Many a => Some (dtype3 a)
  | ManyObj _ => None
  end.

(** What an event [(i, l)] of a result says about the marked sample
    [(index, label)] it stands for: [i] is [index // decimation_factor], and
    [l] is the integer NumPy makes of [labels_mapping[label]]. *)
Definition converted_from (self : MarkersTransformer) (ev : Z * Z) (sample : Z * Z) : Prop :=
  fst ev = fst sample / decimation_factor self /\
  exists o, labels_mapping self !! snd sample = Some o /\ as_np_int o = Ok (snd ev).

(** Every label of the mapping is a Python integer, of any size. *)
Definition int_valued (m : gmap Z pyobj) : Prop :=
  forall key o, m !! key = Some o -> exists l, o = PyInt l.

(** A record has a marked sample. *)
Definition has_marked (self : MarkersTransformer) (markers : list Z) : Prop :=
  exists v, In v markers /\ v <> empty_label self.

(** A client that filters a batch and decimates what the filter returned:
    [dec.transform(bf.transform(batch))]. *)
Definition filter_then_decimate {S : SciPySignal} (bf : ButterFilter) (dec : Decimator)
    (batch : batch1d) : result (list array1) :=
  filtered ← snd (ButterFilter_transform bf batch);
  snd (Decimator_transform dec filtered).

(** A scaler state that scales feature by feature: on a matrix with [k]
    features (columns) it returns a matrix of the same shape in which every
    element of column [j] went through [g j] (for [StandardScaler],
    [g j x = (x - mean_j) / scale_j]). *)
Definition scales_features {St : Type} {Sc : Scaler St} (s : St) (k : nat)
    (g : nat -> Q -> Q) : Prop :=
  forall m : array2, wf2 m -> ncols2 m = k ->
    exists y, scaler_transform s (Nd2 m) = Ok y /\
              ncols2 y = ncols2 m /\ rows2 y = map (imap g) (rows2 m).

(** What [ButterFilter.transform] needs of a batch besides long records: a
    2-D array without records must have no columns either. *)
Definition assignable (batch : batch1d) : Prop :=
  match batch with
  | Batch2D a => rows2 a <> [] \/ ncols2 a = 0%nat
  | BatchObj _ => True
  end.

(** The first sample of a record, in order, that is marked and has no
    label. *)
Definition first_unmapped (self : MarkersTransformer) (markers : list Z) : option Z :=
  List.find (fun v => negb (v =? empty_label self)
                      && match labels_mapping self !! v with
                         | None => true
                         | Some _ => false
                         end) markers.

(* ===================================================================== *)
(** * Part 9.  Reference capabilities                                     *)
(* ===================================================================== *)

(** Stand-ins that meet the contracts of Part 3, used to show that the
    contracts can be met and to run the transforms on concrete batches.  They
    check their arguments like the libraries do; their arithmetic is a
    placeholder (the reference filter returns its input). *)
Definition Qlt_b (x y : Q) : bool := negb (Qle_bool y x).

Definition valid_band (w0 w1 : Q) : bool := Qlt_b 0 w0 && Qlt_b w0 w1 && Qlt_b w1 1.

Definition ref_butter (N : Z) (Wn : Q * Q) : result coeffs :=
  if valid_band (fst Wn) (snd Wn) && (0 <=? N)
  then Ok (repeat 1%Q (Z.to_nat (2 * N + 1)), repeat 1%Q (Z.to_nat (2 * N + 1)))
  else Raise ValueError.

(** A design routine that checks each band edge but not their order, as
    [signal.butter] of SciPy 1.6.1. *)
Definition in_unit (w : Q) : bool := Qlt_b 0 w && Qlt_b w 1.

Definition unordered_butter (N : Z) (Wn : Q * Q) : result coeffs :=
  if in_unit (fst Wn) && in_unit (snd Wn) && (0 <=? N)
  then Ok (repeat 1%Q (Z.to_nat (2 * N + 1)), repeat 1%Q (Z.to_nat (2 * N + 1)))
  else Raise ValueError.

Definition ref_filtfilt (ba : coeffs) (x : list Q) : result (list Q) :=
  if (length x <=? padlen ba)%nat then Raise ValueError else Ok x.

(** [x[::q]] *)
Definition stride (q : Z) (x : list Q) : list Q :=
  map (fun i => nth (i * Z.to_nat q) x 0%Q)
      (seq 0 (Z.to_nat (ceil_div (Z.of_nat (length x)) q))).

Definition ref_decimate (x : list Q) (q : Z) : result (list Q) :=
  if q =? 0 then Raise ZeroDivisionError
  else if q <? 0 then Raise ValueError
  else if (length x <=? decimate_padlen)%nat then Raise ValueError
  else Ok (stride q x).

Definition ref_signal : SciPySignal :=
  {| butter := ref_butter; filtfilt := ref_filtfilt; decimate := ref_decimate |}.

Definition unordered_signal : SciPySignal :=
  {| butter := unordered_butter; filtfilt := ref_filtfilt; decimate := ref_decimate |}.

(** A mean-centring scaler: it accumulates the number of samples seen and
    the per-feature sums, and subtracts the per-feature mean. *)
Definition mean_state : Type := option (nat * list Q).

Definition add_row (sums row : list Q) : list Q :=
  imap (fun j s => (s + nth j row 0)%Q) sums.

Definition mean_partial_fit (s : mean_state) (x : ndarray) : mean_state * result unit :=
  match x with
  | Nd1 _ => (s, Raise ValueError)
  | Nd2 m =>
      match rows2 m with
      | [] => (s, Raise ValueError)
      | _ :: _ =>
          match s with
          | None =>
              (Some (length (rows2 m),
                     fold_left add_row (rows2 m) (repeat 0%Q (ncols2 m))),
               Ok tt)
          | Some (n, sums) =>
              if decide (length sums = ncols2 m)
              then (Some ((n + length (rows2 m))%nat, fold_left add_row (rows2 m) sums),
                    Ok tt)
              else (s, Raise ValueError)
          end
      end
  end.

Definition mean_transform (s : mean_state) (x : ndarray) : result array2 :=
  match x with
  | Nd1 _ => Raise ValueError
  | Nd2 m =>
      match s with
      | None => Raise ValueError
      | Some (n, sums) =>
          if decide (length sums = ncols2 m)
          then Ok {| dtype2 := float64; ncols2 := ncols2 m;
                     rows2 := map (imap (fun j x =>
                                           (x - nth j sums 0 / inject_Z (Z.of_nat n))%Q))
                                  (rows2 m) |}
          else Raise ValueError
      end
  end.

Definition mean_scaler : Scaler mean_state :=
  {| partial_fit := mean_partial_fit; scaler_transform := mean_transform |}.

(** A scaler for one feature at a time, with a fixed offset as its state: a
    1-D array is taken as one feature column and comes back, shifted, as a
    matrix with one column; a matrix comes back shifted. *)
Definition offset_transform (s : Q) (x : ndarray) : result array2 :=
  match x with
  | Nd1 v =>
      Ok {| dtype2 := float64; ncols2 := 1;
            rows2 := map (fun t => [(t - s)%Q]) (data1 v) |}
  | Nd2 m =>
      Ok {| dtype2 := float64; ncols2 := ncols2 m;
            rows2 := map (map (fun t => (t - s)%Q)) (rows2 m) |}
  end.

Definition offset_scaler : Scaler Q :=
  {| partial_fit := fun s _ => (s, Ok tt); scaler_transform := offset_transform |}.

(* ===================================================================== *)
(** * Part 10.  Properties of MarkersTransformer                          *)
(* ===================================================================== *)

Section Markers.

Variable self : MarkersTransformer.

Let d := decimation_factor self.
Let mapping := labels_mapping self.
Let empty := empty_label self.

Lemma In_enumerate_from {A} (k : Z) (xs : list A) (i : Z) (x : A) :
  In (i, x) (enumerate_from k xs) -> In x xs.
Proof.
  revert k. induction xs as [|y ys IH]; simpl; intros k H; [contradiction|].
  destruct H as [H|H]; [left; congruence | right; eauto].
Qed.

(** The loop on samples that all have a label: every marked sample appends
    one pair, in order. *)
Lemma markers_loop_mapped (items : list (Z * Z)) (acc : list (Z * pyobj)) :
  d <> 0 ->
  (forall i v, In (i, v) items -> v <> empty -> is_Some (mapping !! v)) ->
  exists evs,
    markers_loop self items acc = Ok (acc ++ evs) /\
    Forall2 (fun ev sample => fst ev = fst sample / d /\ mapping !! snd sample = Some (snd ev))
            evs (List.filter (is_marked empty) items).
Proof.
  intros Hd. revert acc.
  induction items as [|[i v] rest IH]; intros acc Hcov; simpl.
  - exists []. rewrite app_nil_r. split; [reflexivity | constructor].
  - unfold is_marked at 1. simpl. fold empty.
    destruct (decide (v = empty)) as [->|Hne].
    + rewrite Z.eqb_refl. simpl. apply IH. intros; eapply Hcov; eauto; right; eauto.
    + assert ((v =? empty) = false) as -> by (apply Z.eqb_neq; exact Hne). simpl.
      destruct (Hcov i v (or_introl eq_refl) Hne) as [l Hl].
      unfold floordiv. fold d. destruct (decide (d = 0)) as [|_]; [contradiction|].
      simpl. unfold getitem. fold mapping. rewrite Hl. simpl.
      destruct (IH (acc ++ [(i / d, l)])) as (evs & Heq & Hall).
      { intros; eapply Hcov; eauto; right; eauto. }
      exists ((i / d, l) :: evs). split.
      * rewrite Heq. rewrite <- app_assoc. reflexivity.
      * constructor; [split; [reflexivity | exact Hl] | exact Hall].
Qed.

(** The loop stops with [KeyError] at the first marked sample without a
    label. *)
Lemma markers_loop_unmapped (items : list (Z * Z)) (acc : list (Z * pyobj)) :
  d <> 0 ->
  (exists i v, In (i, v) items /\ v <> empty /\ mapping !! v = None) ->
  exists k, markers_loop self items acc = Raise (KeyError k) /\
            k <> empty /\ mapping !! k = None /\ In k (map snd items).
Proof.
  intros Hd. revert acc.
  induction items as [|[i v] rest IH]; intros acc (i0 & v0 & Hin & Hne & Hnone).
  - destruct Hin.
  - simpl. fold empty.
    assert (Hrest : v <> empty -> is_Some (mapping !! v) ->
                    exists i v, In (i, v) rest /\ v <> empty /\ mapping !! v = None).
    { intros Hv Hs. destruct Hin as [Heq|Hin].
      - inversion Heq; subst. rewrite Hnone in Hs. destruct Hs; discriminate.
      - eauto. }
    destruct (decide (v = empty)) as [->|Hv].
    + destruct Hin as [Heq|Hin]; [inversion Heq; subst; contradiction|].
      destruct (IH acc) as (k & ? & ? & ? & ?); [eauto|].
      exists k. repeat split; auto; right; assumption.
    + unfold floordiv. fold d. destruct (decide (d = 0)) as [|_]; [contradiction|].
      simpl. unfold getitem. fold mapping.
      destruct (mapping !! v) as [l|] eqn:Hl.
      * simpl. destruct (Hrest Hv (ex_intro _ l eq_refl)) as (i1 & v1 & H1).
        destruct (IH (acc ++ [(i / d, l)])) as (k & ? & ? & ? & ?); [eauto|].
        exists k. repeat split; auto; right; assumption.
      * exists v. repeat split; auto; left; reflexivity.
Qed.

(** Whatever the divisor, a record with an unmapped marked sample yields no
    array. *)
Lemma markers_loop_unmapped_not_Ok (items : list (Z * Z)) (acc : list (Z * pyobj)) :
  (exists i v, In (i, v) items /\ v <> empty /\ mapping !! v = None) ->
  ~ is_Ok (markers_loop self items acc).
Proof.
  revert acc.
  induction items as [|[i v] rest IH]; intros acc (i0 & v0 & Hin & Hne & Hnone) [out Hout].
  - destruct Hin.
  - simpl in Hout. fold empty in Hout.
    destruct (decide (v = empty)) as [->|Hv].
    + destruct Hin as [Heq|Hin]; [inversion Heq; subst; contradiction|].
      eapply IH; [eauto | eexists; exact Hout].
    + unfold floordiv in Hout. destruct (decide (decimation_factor self = 0)); [discriminate|].
      simpl in Hout. unfold getitem in Hout. fold mapping in Hout.
      destruct (mapping !! v) as [l|] eqn:Hl; [|discriminate].
      simpl in Hout. destruct Hin as [Heq|Hin].
      * inversion Heq; subst. congruence.
      * eapply IH; [eauto | eexists; exact Hout].
Qed.

(** Conversion of pairs whose labels are integers that fit. *)
Lemma np_array_int_ints (evs : list (Z * pyobj)) :
  Forall (fun ev => exists l, snd ev = PyInt l /\ in_int64 l = true) evs ->
  exists arr, np_array_int evs = Ok arr /\
              Forall2 (fun a ev => fst a = fst ev /\ snd ev = PyInt (snd a)) arr evs.
Proof.
  induction 1 as [|[i o] evs (l & Ho & Hl) _ (arr & Harr & Hall)].
  - exists []. split; [reflexivity | constructor].
  - simpl in Ho. subst o. exists ((i, l) :: arr). split.
    + unfold np_array_int in *. simpl. rewrite Hl. simpl. rewrite Harr. reflexivity.
    + constructor; [split; reflexivity | exact Hall].
Qed.

(** One record, all marked samples labelled with integers. *)
Lemma markers_record_events (markers : list Z) :
  d <> 0 -> covers_int self markers ->
  exists arr, markers_record self markers = Ok arr /\
              Forall2 (event_of self) arr (marked_samples empty markers).
Proof.
  intros Hd Hcov. unfold markers_record.
  destruct (markers_loop_mapped (enumerate markers) [] Hd) as (evs & Hloop & Hevs).
  { intros i v Hin Hv. apply In_enumerate_from in Hin.
    destruct (Hcov v Hin Hv) as (l & Hl & _). exists (PyInt l). exact Hl. }
  rewrite Hloop. simpl.
  assert (Hints : Forall (fun ev => exists l, snd ev = PyInt l /\ in_int64 l = true) evs).
  { assert (Hsub : forall s, In s (List.filter (is_marked empty) (enumerate markers)) ->
                             In (snd s) markers /\ snd s <> empty).
    { intros [i v] Hs. apply List.filter_In in Hs as [Hin Hm]. split.
      - eapply In_enumerate_from; exact Hin.
      - unfold is_marked in Hm. simpl in *. apply negb_true_iff in Hm.
        apply Z.eqb_neq. exact Hm. }
    clear Hloop. revert Hsub.
    induction Hevs as [|ev s evs ss [_ Hlook] _ IH]; intros Hsub; constructor.
    - destruct (Hsub s (or_introl eq_refl)) as [Hin Hne].
      destruct (Hcov _ Hin Hne) as (l & Hl & Hfit).
      exists l. split; [|exact Hfit]. unfold mapping in Hlook. congruence.
    - apply IH. intros; apply Hsub; right; assumption. }
  destruct (np_array_int_ints evs Hints) as (arr & Harr & Hall).
  exists arr. split; [exact Harr|].
  unfold marked_samples.
  clear - Hevs Hall. revert arr Hall.
  induction Hevs as [|ev s evs ss [Hi Hl] _ IH]; intros arr Hall; inversion Hall; subst.
  - constructor.
  - constructor; [|apply IH; assumption].
    match goal with H : _ /\ _ |- _ => destruct H as [Hfst Hsnd] end.
    unfold mapping in Hl.
    split; [rewrite Hfst; exact Hi | rewrite Hl, Hsnd; reflexivity].
Qed.

(** The outer loop keeps what it has and appends one array per record. *)
Lemma markers_batch_loop_events (batch : list (list Z)) (res : list (list (Z * Z))) :
  d <> 0 -> Forall (covers_int self) batch ->
  exists out, markers_batch_loop self batch res = Ok (res ++ out) /\
              Forall2 (fun arr markers =>
                         Forall2 (event_of self) arr (marked_samples empty markers))
                      out batch.
Proof.
  intros Hd Hcov. revert res.
  induction Hcov as [|markers batch Hm _ IH]; intros res; simpl.
  - exists []. rewrite app_nil_r. split; [reflexivity | constructor].
  - destruct (markers_record_events markers Hd Hm) as (arr & Harr & Hev).
    rewrite Harr. simpl.
    destruct (IH (res ++ [arr])) as (out & Hout & Hall).
    exists (arr :: out). split.
    + rewrite Hout, <- app_assoc. reflexivity.
    + constructor; assumption.
Qed.

(** With a non-zero divisor the inner loop either returns pairs whose labels
    all come from the mapping, every marked sample being mapped, or stops with
    the [KeyError] of an unmapped marked sample. *)
Lemma markers_loop_cases (items : list (Z * Z)) (acc : list (Z * pyobj)) :
  d <> 0 ->
  (exists evs, markers_loop self items acc = Ok (acc ++ evs) /\
               Forall (fun ev => exists key, mapping !! key = Some (snd ev)) evs /\
               forall i v, In (i, v) items -> v <> empty -> is_Some (mapping !! v)) \/
  (exists k, markers_loop self items acc = Raise (KeyError k) /\
             k <> empty /\ mapping !! k = None /\ In k (map snd items)).
Proof.
  intros Hd. revert acc.
  induction items as [|[i v] rest IH]; intros acc; simpl.
  - left. exists []. rewrite app_nil_r. repeat split; [constructor | intros ? ? []].
  - fold empty. destruct (decide (v = empty)) as [->|Hv].
    + destruct (IH acc) as [(evs & Heq & Hall & Hmap)|(k & Heq & ? & ? & ?)].
      * left. exists evs. repeat split; auto.
        intros i' v' [Hin|Hin] Hne; [inversion Hin; subst; contradiction | eauto].
      * right. exists k. repeat split; auto.
    + unfold floordiv. fold d. destruct (decide (d = 0)) as [|_]; [contradiction|].
      simpl. unfold getitem. fold mapping.
      destruct (mapping !! v) as [l|] eqn:Hl; simpl.
      * destruct (IH (acc ++ [(i / d, l)])) as [(evs & Heq & Hall & Hmap)|(k & Heq & ? & ? & ?)].
        -- left. exists ((i / d, l) :: evs). repeat split.
           ++ rewrite Heq, <- app_assoc. reflexivity.
           ++ constructor; [exists v; exact Hl | exact Hall].
           ++ intros i' v' [Hin|Hin] Hne; [inversion Hin; subst; eauto | eauto].
        -- right. exists k. repeat split; auto.
      * right. exists v. repeat split; auto.
Qed.

Lemma markers_record_cases (markers : list Z) :
  d <> 0 -> integer_labels mapping ->
  (exists arr, markers_record self markers = Ok arr /\
               forall v, In v markers -> v <> empty -> is_Some (mapping !! v)) \/
  (exists k, markers_record self markers = Raise (KeyError k) /\
             k <> empty /\ mapping !! k = None /\ In k markers).
Proof.
  intros Hd Hint. unfold markers_record.
  destruct (markers_loop_cases (enumerate markers) [] Hd)
    as [(evs & Heq & Hall & Hmap)|(k & Heq & Hk & Hnone & Hin)].
  - left. rewrite Heq. simpl.
    destruct (np_array_int_ints evs) as (arr & Harr & _).
    { eapply Forall_impl; [exact Hall|]. intros ev (key & Hkey). eapply Hint; exact Hkey. }
    exists arr. split; [exact Harr|].
    intros v Hin Hne.
    assert (Hex : exists i, In (i, v) (enumerate markers)).
    { unfold enumerate. generalize 0. clear - Hin.
      induction markers as [|x xs IH]; intros k; [destruct Hin|].
      destruct Hin as [->|Hin]; [exists k; left; reflexivity|].
      destruct (IH Hin (k + 1)) as [i Hi]. exists i. right. exact Hi. }
    destruct Hex as [i Hi]. eapply Hmap; eauto.
  - right. rewrite Heq. exists k. repeat split; auto.
    clear - Hin. unfold enumerate in Hin. revert Hin. generalize 0.
    induction markers as [|x xs IH]; intros n Hin; [destruct Hin|].
    destruct Hin as [Hin|Hin]; [left; exact Hin | right; eapply IH; exact Hin].
Qed.

Lemma markers_batch_loop_cases (batch : list (list Z)) (res : list (list (Z * Z))) :
  d <> 0 -> integer_labels mapping ->
  (exists out, markers_batch_loop self batch res = Ok (res ++ out) /\
               forall markers v, In markers batch -> In v markers -> v <> empty ->
                                 is_Some (mapping !! v)) \/
  (exists k, markers_batch_loop self batch res = Raise (KeyError k) /\
             k <> empty /\ mapping !! k = None /\
             exists markers, In markers batch /\ In k markers).
Proof.
  intros Hd Hint. revert res.
  induction batch as [|markers rest IH]; intros res; simpl.
  - left. exists []. rewrite app_nil_r. split; [reflexivity | intros ? ? []].
  - destruct (markers_record_cases markers Hd Hint) as [(arr & Heq & Hmap)|(k & Heq & ? & ? & ?)].
    + rewrite Heq. simpl.
      destruct (IH (res ++ [arr])) as [(out & Hout & Hall)|(k & Hout & ? & ? & m & ? & ?)].
      * left. exists (arr :: out). split; [rewrite Hout, <- app_assoc; reflexivity|].
        intros m v [<-|Hin]; eauto.
      * right. exists k. repeat split; auto. exists m. split; [right|]; assumption.
    + right. rewrite Heq. exists k. repeat split; auto.
      exists markers. split; [left; reflexivity | assumption].
Qed.

Lemma markers_record_unmapped_not_Ok (markers : list Z) :
  (exists v, In v markers /\ v <> empty /\ mapping !! v = None) ->
  ~ is_Ok (markers_record self markers).
Proof.
  intros (v & Hin & Hne & Hnone) [arr Harr]. unfold markers_record in Harr.
  destruct (markers_loop self (enumerate markers) []) as [evs|e] eqn:Hloop; [|discriminate].
  eapply (markers_loop_unmapped_not_Ok (enumerate markers) []); [|eexists; exact Hloop].
  assert (Hex : exists i, In (i, v) (enumerate markers)).
  { unfold enumerate. generalize 0. clear - Hin.
    induction markers as [|x xs IH]; intros k; [destruct Hin|].
    destruct Hin as [->|Hin]; [exists k; left; reflexivity|].
    destruct (IH Hin (k + 1)) as [i Hi]. exists i. right. exact Hi. }
  destruct Hex as [i Hi]. eauto.
Qed.

Lemma markers_batch_loop_unmapped_not_Ok (batch : list (list Z)) (res : list (list (Z * Z))) :
  has_unmapped self batch -> ~ is_Ok (markers_batch_loop self batch res).
Proof.
  revert res. induction batch as [|markers rest IH];
    intros res (m & v & Hm & Hv & Hne & Hnone) [out Hout].
  - destruct Hm.
  - simpl in Hout.
    destruct (markers_record self markers) as [arr|e] eqn:Hrec; [|discriminate].
    simpl in Hout. destruct Hm as [->|Hm].
    + eapply markers_record_unmapped_not_Ok; [|eexists; exact Hrec]. eauto.
    + eapply IH; [|eexists; exact Hout]. exists m, v. auto.
Qed.

End Markers.

(** C4, as stated, fails: a mapping that covers every marked sample with the
    string labels ["A"] and ["B"] emits no events for [[0,0,2,0,1,0]] with a
    factor of 2, the call raises when the integer array is built; and with a
    factor of 0 the division of the first marked index raises. *)
Lemma MarkersTransformer_events_not_emitted :
  snd (MarkersTransformer_transform
         {| labels_mapping := <[2 := PyStr "A"]> (<[1 := PyStr "B"]> ∅);
            decimation_factor := 2; empty_label := 0 |}
         [[0; 0; 2; 0; 1; 0]])
  = Raise ValueError /\
  snd (MarkersTransformer_transform
         {| labels_mapping := <[2 := PyInt 10]> (<[1 := PyInt 20]> ∅);
            decimation_factor := 0; empty_label := 0 |}
         [[0; 0; 2; 0; 1; 0]])
  = Raise ZeroDivisionError.
Proof. split; vm_compute; reflexivity. Qed.

(** C4, amended.  For every record whose marked samples the mapping labels
    with integers (that fit a NumPy integer) and every non-zero decimation
    factor, [transform] returns, per record, exactly one event
    [(index // decimation_factor, labels_mapping[value])] for each sample that
    differs from [empty_label], none for the others, in sample order.  In
    particular a factor of 2 on [[0,0,2,0,1,0]] with integer labels [A] for 2
    and [B] for 1 gives [[(1,A),(2,B)]]. *)
Theorem MarkersTransformer_emits_events :
  (forall (self : MarkersTransformer) (batch : list (list Z)),
      decimation_factor self <> 0 ->
      Forall (covers_int self) batch ->
      exists out,
        MarkersTransformer_transform self batch = (self, Ok out) /\
        Forall2 (fun arr markers =>
                   Forall2 (event_of self) arr (marked_samples (empty_label self) markers))
                out batch) /\
  (forall A B : Z,
      in_int64 A = true -> in_int64 B = true ->
      snd (MarkersTransformer_transform
             {| labels_mapping := <[2 := PyInt A]> (<[1 := PyInt B]> ∅);
                decimation_factor := 2; empty_label := 0 |}
             [[0; 0; 2; 0; 1; 0]])
      = Ok [[(1, A); (2, B)]]).
Proof.
  split.
  - intros self batch Hd Hcov. unfold MarkersTransformer_transform.
    destruct (markers_batch_loop_events self batch [] Hd Hcov) as (out & Heq & Hall).
    exists out. split; [rewrite Heq; reflexivity | exact Hall].
  - intros A B HA HB. unfold MarkersTransformer_transform, markers_batch_loop, markers_record.
    cbn [snd].
    replace (markers_loop _ (enumerate [0; 0; 2; 0; 1; 0]) [])
      with (Ok [(1, PyInt A); (2, PyInt B)]) by (vm_compute; reflexivity).
    cbn. rewrite HA, HB. reflexivity.
Qed.

Lemma MarkersTransformer_emits_events_witness :
  let self := {| labels_mapping := <[2 := PyInt 10]> (<[1 := PyInt 20]> ∅);
                 decimation_factor := 2; empty_label := 0 |} in
  let batch := [[0; 0; 2; 0; 1; 0]; [1; 1]] in
  decimation_factor self <> 0 /\
  Forall (covers_int self) batch /\
  exists out,
    MarkersTransformer_transform self batch = (self, Ok out) /\
    Forall2 (fun arr markers =>
               Forall2 (event_of self) arr (marked_samples (empty_label self) markers))
            out batch.
Proof.
  intros self batch.
  assert (Hd : decimation_factor self <> 0) by discriminate.
  assert (Hcov : Forall (covers_int self) batch).
  { repeat constructor; intros label Hin Hne; simpl in Hin;
      repeat (destruct Hin as [<-|Hin]; [try (exfalso; apply Hne; reflexivity) | ]);
      try contradiction;
      first [ exists 10; split; reflexivity | exists 20; split; reflexivity ]. }
  split; [exact Hd|]. split; [exact Hcov|].
  exact (proj1 MarkersTransformer_emits_events self batch Hd Hcov).
Defined.

(** C2, as stated, fails: with the string labels ["A"] and ["B"] the
    integer array of line 130 cannot be built, and the call raises. *)
Lemma MarkersTransformer_string_labels_raise :
  snd (MarkersTransformer_transform
         {| labels_mapping := <[2 := PyStr "A"]> (<[1 := PyStr "B"]> ∅);
            decimation_factor := 1; empty_label := 0 |}
         [[0; 0; 2; 0; 1; 0]])
  = Raise ValueError.
Proof. vm_compute. reflexivity. Qed.

(** C2, amended.  With integer labels [A] for 2 and [B] for 1 (that fit a
    NumPy integer), [empty_label] 0 and [decimation_factor] 1, the one-record
    batch [[[0,0,2,0,1,0]]] is turned into the batch whose single record is
    [[(2,A),(4,B)]], and the transformer is left as it was. *)
Theorem MarkersTransformer_example_integer_labels (A B : Z) :
  in_int64 A = true -> in_int64 B = true ->
  let self := {| labels_mapping := <[2 := PyInt A]> (<[1 := PyInt B]> ∅);
                 decimation_factor := 1; empty_label := 0 |} in
  MarkersTransformer_transform self [[0; 0; 2; 0; 1; 0]] = (self, Ok [[(2, A); (4, B)]]).
Proof.
  intros HA HB self.
  unfold MarkersTransformer_transform, markers_batch_loop, markers_record.
  replace (markers_loop self (enumerate [0; 0; 2; 0; 1; 0]) [])
    with (Ok [(2, PyInt A); (4, PyInt B)]) by (vm_compute; reflexivity).
  cbn. rewrite HA, HB. reflexivity.
Qed.

Lemma MarkersTransformer_example_integer_labels_witness :
  let self := {| labels_mapping := <[2 := PyInt 65]> (<[1 := PyInt 66]> ∅);
                 decimation_factor := 1; empty_label := 0 |} in
  in_int64 65 = true /\ in_int64 66 = true /\
  MarkersTransformer_transform self [[0; 0; 2; 0; 1; 0]] = (self, Ok [[(2, 65); (4, 66)]]).
Proof.
  split; [reflexivity|]. split; [reflexivity|].
  apply (MarkersTransformer_example_integer_labels 65 66); reflexivity.
Defined.

(** C5, as stated, fails in the kind of error: when an earlier record has a
    label that is no integer, the call raises [ValueError] before the unmapped
    sample is reached; and with a factor of 0 it raises [ZeroDivisionError]
    before any lookup. *)
Lemma MarkersTransformer_unmapped_other_errors :
  (has_unmapped {| labels_mapping := <[2 := PyStr "A"]> ∅;
                   decimation_factor := 1; empty_label := 0 |} [[2]; [3]] /\
   snd (MarkersTransformer_transform
          {| labels_mapping := <[2 := PyStr "A"]> ∅;
             decimation_factor := 1; empty_label := 0 |} [[2]; [3]])
   = Raise ValueError) /\
  (has_unmapped {| labels_mapping := <[2 := PyInt 10]> ∅;
                   decimation_factor := 0; empty_label := 0 |} [[0; 3]] /\
   snd (MarkersTransformer_transform
          {| labels_mapping := <[2 := PyInt 10]> ∅;
             decimation_factor := 0; empty_label := 0 |} [[0; 3]])
   = Raise ZeroDivisionError).
Proof.
  split; (split; [|vm_compute; reflexivity]).
  - exists [3], 3. repeat split; [right; left; reflexivity | left; reflexivity | discriminate].
  - exists [0; 3], 3.
    repeat split; [left; reflexivity | right; left; reflexivity | discriminate].
Qed.

(** C5, amended.  When some record holds a sample that differs from
    [empty_label] and is no key of [labels_mapping], [transform] fails: it
    returns no batch; and for a non-zero decimation factor and integer labels
    what it raises is the [KeyError] of such a sample.  The sample is neither
    dropped nor given a default label. *)
Theorem MarkersTransformer_unmapped_raises (self : MarkersTransformer)
    (batch : list (list Z)) :
  has_unmapped self batch ->
  ~ is_Ok (snd (MarkersTransformer_transform self batch)) /\
  (decimation_factor self <> 0 -> integer_labels (labels_mapping self) ->
   exists k,
     MarkersTransformer_transform self batch = (self, Raise (KeyError k)) /\
     k <> empty_label self /\ labels_mapping self !! k = None /\
     exists markers, In markers batch /\ In k markers).
Proof.
  intros Hbad. split.
  - apply markers_batch_loop_unmapped_not_Ok. exact Hbad.
  - intros Hd Hint. unfold MarkersTransformer_transform.
    destruct (markers_batch_loop_cases self batch [] Hd Hint)
      as [(out & Heq & Hall)|(k & Heq & Hk & Hnone & Hin)].
    + destruct Hbad as (m & v & Hm & Hv & Hne & Hnone).
      destruct (Hall m v Hm Hv Hne) as [o Ho]. congruence.
    + exists k. rewrite Heq. repeat split; assumption.
Qed.

Lemma MarkersTransformer_unmapped_raises_witness :
  let self := {| labels_mapping := <[2 := PyInt 10]> ∅;
                 decimation_factor := 1; empty_label := 0 |} in
  has_unmapped self [[0; 2; 0]; [0; 2; 1]] /\
  decimation_factor self <> 0 /\
  integer_labels (labels_mapping self) /\
  ~ is_Ok (snd (MarkersTransformer_transform self [[0; 2; 0]; [0; 2; 1]])) /\
  exists k,
    MarkersTransformer_transform self [[0; 2; 0]; [0; 2; 1]] = (self, Raise (KeyError k)) /\
    k <> empty_label self /\ labels_mapping self !! k = None /\
    exists markers, In markers [[0; 2; 0]; [0; 2; 1]] /\ In k markers.
Proof.
  intros self.
  assert (Hbad : has_unmapped self [[0; 2; 0]; [0; 2; 1]]).
  { exists [0; 2; 1], 1. repeat split.
    - right; left; reflexivity.
    - right; right; left; reflexivity.
    - discriminate. }
  assert (Hd : decimation_factor self <> 0) by discriminate.
  assert (Hint : integer_labels (labels_mapping self)).
  { intros key o H. simpl in H.
    apply lookup_insert_Some in H as [[_ <-]|[_ H]].
    - exists 10. split; reflexivity.
    - rewrite lookup_empty in H. discriminate. }
  destruct (MarkersTransformer_unmapped_raises self [[0; 2; 0]; [0; 2; 1]] Hbad) as [H1 H2].
  repeat split; [exact Hbad | exact Hd | exact Hint | exact H1 | exact (H2 Hd Hint)].
Defined.

(** On that batch the error is the [KeyError] of the sample 1. *)
Example MarkersTransformer_unmapped_example :
  snd (MarkersTransformer_transform
         {| labels_mapping := <[2 := PyInt 10]> ∅; decimation_factor := 1; empty_label := 0 |}
         [[0; 2; 0]; [0; 2; 1]])
  = Raise (KeyError 1).
Proof. vm_compute. reflexivity. Qed.

(* ===================================================================== *)
(** * Part 11.  The reference capabilities meet the contracts             *)
(* ===================================================================== *)

Lemma Qlt_b_true (x y : Q) : Qlt_b x y = true <-> (x < y)%Q.
Proof.
  unfold Qlt_b. rewrite negb_true_iff. split.
  - intros H. apply Qnot_le_lt. intros Hle. apply Qle_bool_iff in Hle. congruence.
  - intros H. destruct (Qle_bool y x) eqn:E; [|reflexivity].
    apply Qle_bool_iff in E. exfalso. exact (Qlt_not_le _ _ H E).
Qed.

Lemma valid_band_true (w0 w1 : Q) :
  valid_band w0 w1 = true <-> (0 < w0 /\ w0 < w1 /\ w1 < 1)%Q.
Proof.
  unfold valid_band. rewrite !andb_true_iff, !Qlt_b_true. tauto.
Qed.

(** [ceil_div n q] is the least integer [k] with [n <= q * k]. *)
Lemma ceil_div_spec (n q : Z) :
  1 <= q -> n <= q * ceil_div n q /\ q * (ceil_div n q - 1) < n.
Proof.
  intros Hq. unfold ceil_div.
  pose proof (Z.div_mod (n + q - 1) q ltac:(lia)) as Hdm.
  pose proof (Z.mod_pos_bound (n + q - 1) q ltac:(lia)) as Hm.
  split; lia.
Qed.

Lemma ceil_div_nonneg (n q : Z) : 0 <= n -> 1 <= q -> 0 <= ceil_div n q.
Proof. intros Hn Hq. unfold ceil_div. apply Z.div_pos; lia. Qed.

Lemma length_stride (q : Z) (x : list Q) :
  1 <= q -> Z.of_nat (length (stride q x)) = ceil_div (Z.of_nat (length x)) q.
Proof.
  intros Hq. unfold stride. rewrite length_map, length_seq.
  apply Z2Nat.id. apply ceil_div_nonneg; lia.
Qed.

Lemma ref_butter_contract : ButterContract ref_signal.
Proof.
  constructor; simpl.
  - intros N w0 w1 Hbad. unfold ref_butter. simpl.
    destruct (valid_band w0 w1) eqn:E; [|reflexivity].
    apply valid_band_true in E. destruct E as (H0 & H01 & H1).
    exfalso. apply Hbad. repeat split; try assumption.
    + eapply Qlt_trans; eassumption.
    + eapply Qlt_trans; eassumption.
  - intros N Wn b a. unfold ref_butter.
    destruct (valid_band Wn.1 Wn.2 && (0 <=? N)) eqn:E; [|discriminate].
    apply andb_true_iff in E as [_ HN]. apply Z.leb_le in HN.
    intros [= <- <-]. rewrite repeat_length. split; apply Z2Nat.id; lia.
Qed.

Lemma ref_butter_checks_order : ChecksOrder ref_signal.
Proof.
  intros N w0 w1 Hle. simpl. unfold ref_butter. simpl.
  destruct (valid_band w0 w1) eqn:E; [|reflexivity].
  apply valid_band_true in E. destruct E as (_ & H01 & _).
  exfalso. exact (Qlt_not_le _ _ H01 Hle).
Qed.

Lemma in_unit_true (w : Q) : in_unit w = true <-> (0 < w /\ w < 1)%Q.
Proof. unfold in_unit. rewrite andb_true_iff, !Qlt_b_true. reflexivity. Qed.

Lemma unordered_butter_contract : ButterContract unordered_signal.
Proof.
  constructor; simpl.
  - intros N w0 w1 Hbad. unfold unordered_butter. simpl.
    destruct (in_unit w0) eqn:E0; [|reflexivity].
    destruct (in_unit w1) eqn:E1; [|reflexivity].
    apply in_unit_true in E0, E1. exfalso. apply Hbad. split; assumption.
  - intros N Wn b a. unfold unordered_butter.
    destruct (in_unit Wn.1 && in_unit Wn.2 && (0 <=? N)) eqn:E; [|discriminate].
    apply andb_true_iff in E as [_ HN]. apply Z.leb_le in HN.
    intros [= <- <-]. rewrite repeat_length. split; apply Z2Nat.id; lia.
Qed.

Lemma ref_filtfilt_contract : FiltfiltContract ref_signal.
Proof.
  constructor; simpl.
  - intros ba x Hlen. unfold ref_filtfilt.
    assert ((length x <=? padlen ba)%nat = true) as -> by (apply Nat.leb_le; exact Hlen).
    reflexivity.
  - intros N Wn ba x _ Hlen. unfold ref_filtfilt.
    assert ((length x <=? padlen ba)%nat = false) as -> by (apply Nat.leb_gt; exact Hlen).
    exists x. reflexivity.
  - intros ba x y. unfold ref_filtfilt.
    destruct (length x <=? padlen ba)%nat; [discriminate|]. intros [= <-]. reflexivity.
Qed.

Lemma ref_decimate_contract : DecimateContract ref_signal.
Proof.
  constructor; simpl.
  - intros x q Hq Hlen. unfold ref_decimate.
    assert ((q =? 0) = false) as -> by (apply Z.eqb_neq; lia).
    assert ((q <? 0) = false) as -> by (apply Z.ltb_ge; lia).
    assert ((length x <=? decimate_padlen)%nat = true) as -> by (apply Nat.leb_le; exact Hlen).
    reflexivity.
  - intros x q Hq Hlen. unfold ref_decimate.
    assert ((q =? 0) = false) as -> by (apply Z.eqb_neq; lia).
    assert ((q <? 0) = false) as -> by (apply Z.ltb_ge; lia).
    assert ((length x <=? decimate_padlen)%nat = false) as -> by (apply Nat.leb_gt; exact Hlen).
    exists (stride q x). split; [reflexivity | apply length_stride; exact Hq].
Qed.

Lemma length_add_row (sums row : list Q) : length (add_row sums row) = length sums.
Proof. unfold add_row. apply length_imap. Qed.

Lemma length_fold_add_row (rows : list (list Q)) (sums : list Q) :
  length (fold_left add_row rows sums) = length sums.
Proof.
  revert sums. induction rows as [|row rows IH]; intros sums; simpl; [reflexivity|].
  rewrite IH. apply length_add_row.
Qed.

(** The mean-centring scaler is accumulator-based. *)
Lemma mean_scaler_accumulator : accumulator_based mean_state (Sc := mean_scaler).
Proof.
  intros s A B HA HB Hcols. simpl. unfold mean_partial_fit, vstack. simpl.
  destruct (rows2 A) as [|a0 As] eqn:EA; [contradiction|].
  destruct (rows2 B) as [|b0 Bs] eqn:EB; [contradiction|].
  simpl app. destruct s as [[n sums]|]; simpl.
  - destruct (decide (length sums = ncols2 A)) as [Hlen|Hlen]; simpl; [|reflexivity].
    destruct (decide (length (fold_left add_row As (add_row sums a0)) = ncols2 B)) as [_|Hbad].
    + rewrite fold_left_app. simpl. rewrite length_app. simpl.
      replace (n + S (length As) + S (length Bs))%nat
        with (n + S (length As + S (length Bs)))%nat by lia.
      reflexivity.
    + exfalso. apply Hbad. rewrite length_fold_add_row, length_add_row. congruence.
  - destruct (decide (length (fold_left add_row As (add_row (repeat 0%Q (ncols2 A)) a0))
                      = ncols2 B)) as [_|Hbad].
    + rewrite fold_left_app. simpl. rewrite length_app. simpl. reflexivity.
    + exfalso. apply Hbad.
      rewrite length_fold_add_row, length_add_row, repeat_length. exact Hcols.
Qed.

(** A fitted mean-centring scaler keeps the shape of every matrix that has
    the features it was fitted on. *)
Lemma mean_scaler_in_shape (n : nat) (sums : list Q) (ms : list array2) :
  Forall (fun m => ncols2 m = length sums /\ wf2 m) ms ->
  transforms_in_shape (Sc := mean_scaler) (Some (n, sums)) ms.
Proof.
  intros H. unfold transforms_in_shape. eapply Forall_impl; [exact H|].
  intros m [Hc Hwf]. simpl. unfold mean_transform.
  destruct (decide (length sums = ncols2 m)) as [_|Hbad]; [|congruence].
  eexists. split; [reflexivity|]. split.
  - unfold shape2. simpl. rewrite length_map. reflexivity.
  - unfold wf2 in *. simpl. apply Forall_map. eapply Forall_impl; [exact Hwf|].
    intros row Hrow. simpl. rewrite length_imap. exact Hrow.
Qed.

(* ===================================================================== *)
(** * Part 12.  Properties of ButterFilter                                *)
(* ===================================================================== *)

Lemma comprehension_Forall2 {A B} (f : A -> result B) (P : B -> A -> Prop) (items : list A) :
  Forall (fun x => exists y, f x = Ok y /\ P y x) items ->
  exists ys, comprehension f items = Ok ys /\ Forall2 P ys items.
Proof.
  induction 1 as [|x items (y & Hy & HP) _ (ys & Hys & Hall)]; simpl.
  - exists []. split; [reflexivity | constructor].
  - exists (y :: ys). rewrite Hy. simpl. rewrite Hys. simpl.
    split; [reflexivity | constructor; assumption].
Qed.

Lemma comprehension_Ok_Forall2 {A B} (f : A -> result B) (items : list A) (ys : list B) :
  comprehension f items = Ok ys -> Forall2 (fun y x => f x = Ok y) ys items.
Proof.
  revert ys. induction items as [|x items IH]; simpl; intros ys H.
  - inversion H. constructor.
  - destruct (f x) as [y|e] eqn:Hy; [|discriminate]. simpl in H.
    destruct (comprehension f items) as [ys'|e]; [|discriminate]. simpl in H.
    inversion H; subst. constructor; auto.
Qed.

Lemma comprehension_Raise {A B} (f : A -> result B) (x : A) (rest : list A) (e : exn) :
  f x = Raise e -> comprehension f (x :: rest) = Raise e.
Proof. intros H. simpl. rewrite H. reflexivity. Qed.

Lemma bcast_same {A} (n : nat) (l : list A) : length l = n -> bcast n l = Ok l.
Proof. intros H. unfold bcast. destruct (decide (length l = n)); [reflexivity | contradiction]. Qed.

Lemma comprehension_bcast_same {A} (c : nat) (vs : list (list A)) :
  Forall (fun v => length v = c) vs -> comprehension (bcast c) vs = Ok vs.
Proof.
  induction 1 as [|v vs Hv _ IH]; simpl; [reflexivity|].
  rewrite (bcast_same c v Hv). simpl. rewrite IH. reflexivity.
Qed.

(** Storing vectors that already have the width of the array: each element
    is cast and nothing else happens. *)
Lemma setitem_all_2d_same (d : dtype) (c : nat) (values : list (list Q)) :
  values <> [] -> Forall (fun v => length v = c) values ->
  setitem_all_2d d c values = Ok (map (map (cast d)) values).
Proof.
  intros Hne Hall. destruct values as [|v vs]; [contradiction|].
  unfold setitem_all_2d.
  assert (forallb (fun w => length w =? length v)%nat (v :: vs) = true) as ->.
  { apply forallb_forall. intros w Hw. apply Nat.eqb_eq.
    rewrite Forall_forall in Hall.
    rewrite (Hall w), (Hall v); auto; [left; reflexivity | apply list_elem_of_In; exact Hw]. }
  rewrite (comprehension_bcast_same c (v :: vs) Hall). reflexivity.
Qed.

Lemma nyquist_zero (sampling_rate : Z) :
  Qeq_bool (nyquist sampling_rate) 0 = true <-> sampling_rate = 0.
Proof.
  rewrite Qeq_bool_iff. unfold nyquist, Qeq. simpl. lia.
Qed.

Lemma nyquist_pos (sampling_rate : Z) : 0 < sampling_rate -> (0 < nyquist sampling_rate)%Q.
Proof. intros H. unfold nyquist, Qlt. simpl. lia. Qed.

Lemma truediv_nyquist (x : Q) (sampling_rate : Z) :
  sampling_rate <> 0 -> truediv x (nyquist sampling_rate) = Ok (x / nyquist sampling_rate)%Q.
Proof.
  intros H. unfold truediv.
  destruct (Qeq_bool (nyquist sampling_rate) 0) eqn:E; [|reflexivity].
  apply nyquist_zero in E. contradiction.
Qed.

Lemma truediv_nyquist_zero (x : Q) : truediv x (nyquist 0) = Raise ZeroDivisionError.
Proof. reflexivity. Qed.

(** Dividing by a positive Nyquist frequency keeps the order of the cutoffs
    and sends the Nyquist frequency to 1. *)
Lemma normalise_le (x y n : Q) : (0 < n)%Q -> (x <= y)%Q -> (x / n <= y / n)%Q.
Proof.
  intros Hn Hxy. unfold Qdiv. apply Qmult_le_compat_r; [exact Hxy|].
  apply Qlt_le_weak, Qinv_lt_0_compat, Hn.
Qed.

Lemma normalise_ge_1 (x n : Q) : (0 < n)%Q -> (n <= x)%Q -> (1 <= x / n)%Q.
Proof.
  intros Hn Hx. apply Qle_shift_div_l; [exact Hn|]. rewrite Qmult_1_l. exact Hx.
Qed.

Section Butter.

Context {S : SciPySignal} (CB : ButterContract S) (CF : FiltfiltContract S).

(** What a successful construction stored. *)
Lemma ButterFilter_init_Ok (sr ord : Z) (hp lp : Q) (self : ButterFilter) :
  ButterFilter_init sr ord hp lp = Ok self ->
  sr <> 0 /\
  butter ord (hp / nyquist sr, lp / nyquist sr)%Q = Ok (filter self) /\
  sampling_rate self = sr /\ order self = ord /\ highpass self = hp /\ lowpass self = lp.
Proof.
  unfold ButterFilter_init, half_rate, float_truediv. intros H.
  destruct (Z.abs sr <? float_int_limit); [|discriminate]. simpl in H.
  destruct (Qle_bool _ (Qabs hp)); [discriminate|].
  destruct (Z.eq_dec sr 0) as [->|Hsr].
  { rewrite truediv_nyquist_zero in H. discriminate. }
  rewrite (truediv_nyquist hp) in H by exact Hsr. simpl in H.
  destruct (Qle_bool _ (Qabs lp)); [discriminate|].
  rewrite (truediv_nyquist lp) in H by exact Hsr. simpl in H.
  destruct (butter ord _) as [ba|e] eqn:Hb; [|discriminate].
  simpl in H. inversion H; subst. simpl. repeat split; auto.
Qed.

Lemma padlen_designed (N : Z) (Wn : Q * Q) (ba : coeffs) :
  butter N Wn = Ok ba -> Z.of_nat (padlen ba) = 3 * (2 * N + 1).
Proof.
  destruct ba as [b a]. intros H.
  destruct (butter_lengths S CB N Wn b a H) as [Hb Ha].
  unfold padlen. simpl fst. simpl snd. lia.
Qed.

(** Filtering every record of a batch whose records are long enough. *)
Lemma filter_records (N : Z) (Wn : Q * Q) (ba : coeffs) (items : list array1) :
  butter N Wn = Ok ba ->
  Forall (fun item => 3 * (2 * N + 1) < Z.of_nat (length (data1 item))) items ->
  exists values,
    comprehension (fun item => filtfilt ba (data1 item)) items = Ok values /\
    Forall2 (fun v item => length v = length (data1 item)) values items.
Proof.
  intros Hb Hlong. apply comprehension_Forall2.
  eapply Forall_impl; [exact Hlong|]. intros item Hitem. simpl in Hitem.
  assert (Hpad : (padlen ba < length (data1 item))%nat)
    by (pose proof (padlen_designed N Wn ba Hb); lia).
  destruct (filtfilt_long S CF N Wn ba (data1 item) Hb Hpad) as [y Hy].
  exists y. split; [exact Hy | exact (filtfilt_length S CF _ _ _ Hy)].
Qed.

End Butter.

(** C3, as stated, fails: the constructor checks nothing itself, and a
    design routine that looks at each band edge but not at their order, as
    [signal.butter] of SciPy 1.6.1 does, designs a filter for
    [highpass = 40 >= lowpass = 1] at a sampling rate of 250. *)
Lemma ButterFilter_unordered_band_constructs :
  ButterContract unordered_signal /\
  0 <= 250 /\ (1 <= 40)%Q /\
  is_Ok (ButterFilter_init (S := unordered_signal) 250 4 40 1).
Proof.
  split; [exact unordered_butter_contract|]. split; [lia|].
  split; [unfold Qle; simpl; lia|].
  eexists. vm_compute. reflexivity.
Qed.

(** C3, amended.  For a sampling rate that is not negative and a
    filter-design routine that checks that each band edge lies between 0 and
    1 (as every [scipy.signal.butter] does), constructing a [ButterFilter]
    with [highpass >= sampling_rate / 2] or [lowpass >= sampling_rate / 2]
    raises: no object is returned.  With [highpass >= lowpass] it raises when
    the design routine also checks the order of the band edges. *)
Theorem ButterFilter_init_rejects {S : SciPySignal} (CB : ButterContract S)
    (sampling_rate order : Z) (highpass lowpass : Q) :
  0 <= sampling_rate ->
  ((nyquist sampling_rate <= highpass \/ nyquist sampling_rate <= lowpass)%Q ->
   exists e, ButterFilter_init sampling_rate order highpass lowpass = Raise e) /\
  (ChecksOrder S -> (lowpass <= highpass)%Q ->
   exists e, ButterFilter_init sampling_rate order highpass lowpass = Raise e).
Proof.
  intros Hsr.
  assert (Hcases :
    (exists e, ButterFilter_init sampling_rate order highpass lowpass = Raise e) \/
    (0 < nyquist sampling_rate)%Q /\
    ButterFilter_init sampling_rate order highpass lowpass
    = (ba ← butter order (highpass / nyquist sampling_rate,
                          lowpass / nyquist sampling_rate)%Q;
       Ok {| sampling_rate := sampling_rate; order := order;
             highpass := highpass; lowpass := lowpass; filter := ba |})).
  { unfold ButterFilter_init, half_rate, float_truediv.
    destruct (Z.abs sampling_rate <? float_int_limit);
      [|left; exists OverflowError; reflexivity].
    simpl. destruct (Qle_bool _ (Qabs highpass));
      [left; exists OverflowError; reflexivity|].
    destruct (Z.eq_dec sampling_rate 0) as [->|Hnz].
    - left. exists ZeroDivisionError. reflexivity.
    - rewrite (truediv_nyquist highpass) by exact Hnz. simpl.
      destruct (Qle_bool _ (Qabs lowpass));
        [left; exists OverflowError; reflexivity|].
      right. split; [apply nyquist_pos; lia|].
      rewrite (truediv_nyquist lowpass) by exact Hnz. reflexivity. }
  split.
  - intros Hbad. destruct Hcases as [Hraise|[Hn Heq]]; [exact Hraise|].
    rewrite Heq, (butter_range S CB); [exists ValueError; reflexivity|].
    intros [[_ H0] [_ H1]]. destruct Hbad as [Hbad|Hbad].
    + apply (Qlt_not_le _ _ H0). apply normalise_ge_1; assumption.
    + apply (Qlt_not_le _ _ H1). apply normalise_ge_1; assumption.
  - intros Horder Hbad. destruct Hcases as [Hraise|[Hn Heq]]; [exact Hraise|].
    rewrite Heq, Horder; [exists ValueError; reflexivity|].
    apply normalise_le; assumption.
Qed.

Lemma ButterFilter_init_rejects_witness :
  0 <= 250 /\
  (nyquist 250 <= 1 \/ nyquist 250 <= 200)%Q /\
  ChecksOrder ref_signal /\ (1 <= 40)%Q /\
  (exists e, ButterFilter_init (S := ref_signal) 250 4 1 200 = Raise e) /\
  (exists e, ButterFilter_init (S := ref_signal) 250 4 40 1 = Raise e).
Proof.
  assert (H1 : 0 <= 250) by lia.
  assert (H2 : (nyquist 250 <= 1 \/ nyquist 250 <= 200)%Q)
    by (right; unfold Qle; simpl; lia).
  assert (H3 : (1 <= 40)%Q) by (unfold Qle; simpl; lia).
  split; [exact H1|]. split; [exact H2|].
  split; [exact ref_butter_checks_order|]. split; [exact H3|]. split.
  - exact (proj1 (ButterFilter_init_rejects ref_butter_contract 250 4 1 200 H1) H2).
  - exact (proj2 (ButterFilter_init_rejects ref_butter_contract 250 4 40 1 H1)
             ref_butter_checks_order H3).
Defined.

Section ButterTransform.

Context {S : SciPySignal} (CB : ButterContract S) (CF : FiltfiltContract S).

(** [transform] with designed coefficients, on a non-empty well-formed batch
    of long enough records: every record is filtered, and the result is
    stored element by element with the dtype of the batch. *)
Lemma ButterFilter_transform_designed (self : ButterFilter) (N : Z) (Wn : Q * Q)
    (batch : batch1d) :
  butter N Wn = Ok (filter self) ->
  wf_batch1d batch -> holds_record batch ->
  Forall (fun item => 3 * (2 * N + 1) < Z.of_nat (length (data1 item))) (iter_batch1d batch) ->
  exists values,
    comprehension (fun item => filtfilt (filter self) (data1 item)) (iter_batch1d batch)
      = Ok values /\
    Forall2 (fun v item => length v = length (data1 item)) values (iter_batch1d batch) /\
    ButterFilter_transform self batch =
      (self,
       Ok match batch with
          | Batch2D a => Batch2D {| dtype2 := dtype2 a; ncols2 := ncols2 a;
                                    rows2 := map (map (cast (dtype2 a))) values |}
          | BatchObj _ => BatchObj (map (fun v => {| dtype1 := float64; data1 := v |}) values)
          end).
Proof.
  intros Hb Hwf Hne Hlong.
  destruct (filter_records CB CF N Wn (filter self) (iter_batch1d batch) Hb Hlong)
    as (values & Hvalues & Hlen).
  exists values. split; [exact Hvalues|]. split; [exact Hlen|].
  unfold ButterFilter_transform. rewrite Hvalues. simpl. f_equal.
  destruct batch as [a|items]; simpl; [|reflexivity].
  rewrite setitem_all_2d_same; [reflexivity | |].
  - intros ->. simpl in Hne, Hlen. unfold iter2 in Hlen.
    destruct (rows2 a) eqn:Hrows; [congruence | inversion Hlen].
  - simpl in Hwf, Hlen. unfold wf2 in Hwf. unfold iter2 in Hlen.
    clear - Hwf Hlen. revert values Hlen.
    induction Hwf as [|row rows Hrow _ IH]; intros values Hlen; inversion Hlen; subst;
      constructor; simpl in *; [congruence | apply IH; assumption].
Qed.

End ButterTransform.

(** C8, as stated, fails: a record no longer than the padding of the
    zero-phase filter (here 3 samples against [3 * (2 * 4 + 1) = 27]) makes
    [transform] raise, whatever the numeric kernels are. *)
Lemma ButterFilter_short_record_raises :
  (ButterContract ref_signal /\ FiltfiltContract ref_signal /\
   is_Ok (ButterFilter_init (S := ref_signal) 250 4 1 40)) /\
  forall S : SciPySignal, ButterContract S -> FiltfiltContract S ->
    forall self : ButterFilter,
      ButterFilter_init 250 4 1 40 = Ok self ->
      snd (ButterFilter_transform self
             (Batch2D {| dtype2 := float64; ncols2 := 3; rows2 := [[1%Q; 2%Q; 3%Q]] |}))
      = Raise ValueError.
Proof.
  split.
  - split; [exact ref_butter_contract|]. split; [exact ref_filtfilt_contract|].
    eexists. vm_compute. reflexivity.
  - intros S CB CF self Hinit.
    destruct (ButterFilter_init_Ok _ _ _ _ _ Hinit) as (_ & Hb & _).
    simpl. rewrite (filtfilt_short S CF); [reflexivity|]. simpl.
    pose proof (padlen_designed CB _ _ _ Hb). lia.
Qed.

(** An empty 2-D batch of width [c > 0] is refused as well: the empty list
    of filtered records cannot be broadcast to the shape [(0, c)]. *)
Lemma ButterFilter_empty_2d_batch_raises {S : SciPySignal} (self : ButterFilter) (d : dtype) :
  snd (ButterFilter_transform self (Batch2D {| dtype2 := d; ncols2 := 5; rows2 := [] |}))
  = Raise ValueError.
Proof. reflexivity. Qed.

(** C8, amended.  For every [ButterFilter] constructed with a positive
    sampling rate and order and [highpass < lowpass < sampling_rate / 2], and
    every batch of 1-D records that are each longer than
    [3 * (2 * order + 1)] samples (a batch given as a 2-D array holding at
    least one record), [transform] returns a batch of the same shape whose
    records have the lengths of the input records; the filter is left as it
    was. *)
Theorem ButterFilter_transform_shape {S : SciPySignal}
    (CB : ButterContract S) (CF : FiltfiltContract S)
    (sampling_rate order : Z) (highpass lowpass : Q) :
  0 < sampling_rate -> 0 < order ->
  (highpass < lowpass)%Q -> (lowpass < nyquist sampling_rate)%Q ->
  forall self : ButterFilter,
    ButterFilter_init sampling_rate order highpass lowpass = Ok self ->
    forall batch : batch1d,
      wf_batch1d batch -> holds_record batch ->
      Forall (fun item => 3 * (2 * order + 1) < Z.of_nat (length (data1 item)))
             (iter_batch1d batch) ->
      exists out,
        ButterFilter_transform self batch = (self, Ok out) /\ same_shape1d out batch.
Proof.
  intros Hsr Hord Hlt Hnyq self Hinit batch Hwf Hne Hlong.
  destruct (ButterFilter_init_Ok _ _ _ _ _ Hinit) as (_ & Hb & _).
  destruct (ButterFilter_transform_designed CB CF self order _ batch Hb Hwf Hne Hlong)
    as (values & _ & Hlen & Heq).
  eexists. split; [exact Heq|].
  destruct batch as [a|items]; unfold same_shape1d; simpl in *.
  - assert (Hrows : length values = length (rows2 a)).
    { apply Forall2_length in Hlen. unfold iter2 in Hlen. rewrite length_map in Hlen.
      exact Hlen. }
    split; [split|].
    + unfold shape2. simpl. rewrite !length_map. congruence.
    + unfold wf2 in *. simpl. apply Forall_map.
      unfold iter2 in Hlen. clear - Hwf Hlen. revert values Hlen.
      induction Hwf as [|row rows Hrow _ IH]; intros values Hlen; inversion Hlen; subst;
        constructor; simpl in *; [rewrite length_map; congruence | apply IH; assumption].
    + unfold iter2. simpl. apply Forall2_fmap. apply Forall2_fmap_l.
      unfold iter2 in Hlen. apply Forall2_fmap_r in Hlen.
      eapply Forall2_impl; [exact Hlen|]. intros v row Hv. unfold shape1. simpl.
      rewrite length_map. exact Hv.
  - split; [exact I|]. apply Forall2_fmap_l.
    eapply Forall2_impl; [exact Hlen|]. intros v item Hv. exact Hv.
Qed.

Lemma ButterFilter_transform_shape_witness :
  let self := {| sampling_rate := 250; order := 1; highpass := 1; lowpass := 40;
                 filter := ([1%Q; 1%Q; 1%Q], [1%Q; 1%Q; 1%Q]) |} in
  let batch := Batch2D {| dtype2 := int64; ncols2 := 10;
                          rows2 := [[1; 2; 3; 4; 5; 6; 7; 8; 9; 10]%Q;
                                    [9; 8; 7; 6; 5; 4; 3; 2; 1; 0]%Q] |} in
  0 < 250 /\ 0 < 1 /\ (1 < 40)%Q /\ (40 < nyquist 250)%Q /\
  ButterFilter_init (S := ref_signal) 250 1 1 40 = Ok self /\
  wf_batch1d batch /\ holds_record batch /\
  Forall (fun item => 3 * (2 * 1 + 1) < Z.of_nat (length (data1 item))) (iter_batch1d batch) /\
  exists out,
    ButterFilter_transform (S := ref_signal) self batch = (self, Ok out) /\
    same_shape1d out batch.
Proof.
  intros self batch.
  assert (H1 : 0 < 250) by lia.
  assert (H2 : 0 < 1) by lia.
  assert (H3 : (1 < 40)%Q) by (unfold Qlt; simpl; lia).
  assert (H4 : (40 < nyquist 250)%Q) by (unfold Qlt; simpl; lia).
  assert (Hself : ButterFilter_init (S := ref_signal) 250 1 1 40 = Ok self)
    by (vm_compute; reflexivity).
  assert (Hwf : wf_batch1d batch) by (repeat constructor).
  assert (Hne : holds_record batch) by discriminate.
  assert (Hlong : Forall (fun item => 3 * (2 * 1 + 1) < Z.of_nat (length (data1 item)))
                         (iter_batch1d batch)) by (repeat constructor).
  repeat (split; [assumption|]).
  exact (ButterFilter_transform_shape ref_butter_contract ref_filtfilt_contract
           250 1 1 40 H1 H2 H3 H4 self Hself batch Hwf Hne Hlong).
Defined.

(* ===================================================================== *)
(** * Part 13.  Properties of Decimator                                   *)
(* ===================================================================== *)

Lemma ceil_div_add (n k q : Z) : 1 <= q -> ceil_div (n + k * q) q = ceil_div n q + k.
Proof.
  intros Hq. unfold ceil_div.
  replace (n + k * q + q - 1) with (n + q - 1 + k * q) by lia.
  apply Z.div_add. lia.
Qed.

Lemma Forall2_two {A B} (P : A -> B -> Prop) (out : list A) (x y : B) :
  Forall2 P out [x; y] -> exists a b, out = [a; b] /\ P a x /\ P b y.
Proof.
  intros H. inversion H as [|a ? l1 ? Ha H1]; subst.
  inversion H1 as [|b ? l2 ? Hb H2]; subst. inversion H2; subst. eauto.
Qed.




(** The lengths on that batch: 30 and 41 samples become 15 and 21. *)
Example Decimator_transform_example :
  map (fun o => length (data1 o))
      (match snd (Decimator_transform (S := ref_signal) (Decimator_init 2)
                    (BatchObj [{| dtype1 := float64; data1 := repeat 1%Q 30 |};
                               {| dtype1 := int64; data1 := repeat 2%Q 41 |}])) with
       | Ok out => out
       | Raise _ => []
       end)
  = [15%nat; 21%nat].
Proof. vm_compute. reflexivity. Qed.

(* ===================================================================== *)
(** * Part 14.  Properties of ChannellwiseScaler                          *)
(* ===================================================================== *)

Lemma length_column (j : nat) (rows : list (list Q)) : length (column j rows) = length rows.
Proof. unfold column. apply length_map. Qed.

Lemma shape2_transpose (m : array2) : shape2 (transpose m) = (ncols2 m, length (rows2 m)).
Proof. unfold shape2, transpose. simpl. rewrite length_map, length_seq. reflexivity. Qed.

Lemma wf2_transpose (m : array2) : wf2 (transpose m).
Proof.
  unfold wf2, transpose. simpl. apply Forall_map. apply Forall_forall.
  intros j _. simpl. apply length_column.
Qed.

Lemma rect_transpose (m : array2) : rect (ncols2 m) (length (rows2 m)) (rows2 (transpose m)).
Proof.
  split.
  - pose proof (shape2_transpose m) as H. unfold shape2 in H. congruence.
  - exact (wf2_transpose m).
Qed.

(** Storing a value that has the shape of the slot casts its elements. *)
Lemma setitem_2d_same (d : dtype) (r c : nat) (value : array2) :
  rect r c (rows2 value) ->
  setitem_2d d r c value = Ok (map (map (cast d)) (rows2 value)).
Proof.
  intros [Hr Hc]. unfold setitem_2d.
  rewrite (bcast_same r _ Hr). simpl.
  rewrite (comprehension_bcast_same c _ Hc). reflexivity.
Qed.

Lemma rect_cast (d : dtype) (r c : nat) (rows : list (list Q)) :
  rect r c rows -> rect r c (map (map (cast d)) rows).
Proof.
  intros [Hr Hc]. split; [rewrite length_map; exact Hr|].
  apply Forall_map. eapply Forall_impl; [exact Hc|].
  intros row Hrow. simpl. rewrite length_map. exact Hrow.
Qed.

Section ScalerProperties.

Context {St : Type} {Sc : Scaler St}.

(** One turn of the loop of [transform] on a 2-D record of shape [(r, c)]
    held in an array of dtype [d], for a scaler that keeps shapes. *)
Lemma scaled_record (s : St) (d : dtype) (r c : nat) (rec : array2) (y : array2) :
  shape2 rec = (r, c) ->
  scaler_transform s (Nd2 (transpose rec)) = Ok y ->
  shape2 y = shape2 (transpose rec) -> wf2 y ->
  (v ← scaled_value s (Nd2 rec); setitem_2d d r c v)
  = Ok (map (map (cast d)) (rows2 (transpose y))) /\
  rect r c (map (map (cast d)) (rows2 (transpose y))).
Proof.
  intros Hshape Hy Hys Hwf. unfold scaled_value. simpl. rewrite Hy. simpl.
  assert (Hrect : rect r c (rows2 (transpose y))).
  { rewrite shape2_transpose in Hys. unfold shape2 in Hys, Hshape.
    inversion Hys as [[Hrows Hcols]]. inversion Hshape as [[Hr Hc]].
    pose proof (rect_transpose y) as H. rewrite Hcols, Hrows in H.
    clear - H. exact H. }
  split; [apply setitem_2d_same; exact Hrect | apply rect_cast; exact Hrect].
Qed.

Lemma fit_loop_app (s : St) (l1 l2 : list ndarray) :
  fit_loop s (l1 ++ l2) = and_then (fit_loop s l1) (fun s' => fit_loop s' l2).
Proof.
  revert s. induction l1 as [|x l1 IH]; intros s; simpl; [reflexivity|].
  destruct (partial_fit s (ndT x)) as [s' [u|e]]; [apply IH | reflexivity].
Qed.

Lemma batch_concat_is_concat (b1 b2 b12 : batch2d) :
  batch_concat b1 b2 = Some b12 -> is_concat b1 b2 b12.
Proof.
  unfold is_concat. destruct b1 as [a1|a1|i1], b2 as [a2|a2|i2]; simpl; try discriminate.
  - destruct (decide _) as [[Hd Hc]|]; [|discriminate]. intros [= <-]. simpl.
    unfold iter2. simpl. rewrite !map_app, <- Hd. reflexivity.
  - destruct (decide _) as [(Hd & Hr & Hc)|]; [|discriminate]. intros [= <-]. simpl.
    unfold iter3. simpl. rewrite !map_app, <- Hd, <- Hc. reflexivity.
  - intros [= <-]. simpl. apply map_app.
Qed.

Lemma and_then_assoc (r : St * result unit) (k1 k2 : St -> St * result unit) :
  and_then (and_then r k1) k2 = and_then r (fun s => and_then (k1 s) k2).
Proof. destruct r as [s [u|e]]; reflexivity. Qed.

Lemma and_then_ret (r : St * result unit) : and_then r (fun s => (s, Ok tt)) = r.
Proof. destruct r as [s [[]|e]]; reflexivity. Qed.

Lemma fit_loop_cons (s : St) (rec : array2) (recs : list array2) :
  fit_loop s (map Nd2 (rec :: recs))
  = and_then (partial_fit s (Nd2 (transpose rec))) (fun s' => fit_loop s' (map Nd2 recs)).
Proof. simpl. destruct (partial_fit s (Nd2 (transpose rec))) as [s' [u|e]]; reflexivity. Qed.

Lemma vstack_transpose_ok (ch : nat) (A B : array2) :
  stackable ch [A; B] ->
  rows2 (transpose A) <> [] /\ rows2 (transpose B) <> [] /\
  ncols2 (transpose A) = ncols2 (transpose B).
Proof.
  intros H. inversion H as [|? ? [HA1 HA2] H']; subst.
  inversion H' as [|? ? [HB1 HB2] _]; subst.
  assert (Hne : forall m : array2, ncols2 m <> 0%nat -> rows2 (transpose m) <> []).
  { intros m Hm Hnil. pose proof (shape2_transpose m) as Hs. unfold shape2 in Hs.
    rewrite Hnil in Hs. simpl in Hs. inversion Hs. congruence. }
  repeat split; auto; simpl; congruence.
Qed.

(** For an accumulator-based scaler, the loop of [fit] over stackable
    matrices is one [partial_fit] on their vertical stack. *)
Lemma fit_loop_stack (Hacc : accumulator_based St) (c : nat) (Ms : list array2) :
  forall (M : array2) (s : St),
    Forall (fun m => rows2 m <> [] /\ ncols2 m = c) (M :: Ms) ->
    and_then (partial_fit s (Nd2 M))
             (fun s' => fold_right (fun m k s => and_then (partial_fit s (Nd2 m)) k)
                                   (fun s => (s, Ok tt)) Ms s')
    = partial_fit s (Nd2 (vstack_all M Ms)).
Proof.
  induction Ms as [|N Ms IH]; intros M s HM; simpl.
  - apply and_then_ret.
  - inversion HM as [|? ? [HM1 HM2] HMs]; subst.
    inversion HMs as [|? ? [HN1 HN2] HMs']; subst.
    rewrite <- IH.
    + rewrite <- (Hacc s M N HM1 HN1) by congruence.
      rewrite and_then_assoc. reflexivity.
    + constructor; [|exact HMs']. simpl. split; [|reflexivity].
      destruct (rows2 M); [contradiction | discriminate].
Qed.

Lemma fit_loop_fold (s : St) (recs : list array2) :
  fit_loop s (map Nd2 recs)
  = fold_right (fun m k s => and_then (partial_fit s (Nd2 m)) k)
               (fun s => (s, Ok tt)) (map transpose recs) s.
Proof.
  revert s. induction recs as [|rec recs IH]; intros s; [reflexivity|].
  rewrite fit_loop_cons. simpl.
  destruct (partial_fit s (Nd2 (transpose rec))) as [s' [u|e]];
    simpl; [apply IH | reflexivity].
Qed.

End ScalerProperties.

(** The reference scaler refuses 1-D input like the scikit-learn scalers. *)
Lemma mean_scaler_expects_matrix : ExpectsMatrix mean_state (Sc := mean_scaler).
Proof. constructor; reflexivity. Qed.

(** C1, on the code: given one record as a 2-D array (channels x samples)
    with at least one channel, [transform] iterates over the channels and
    hands each 1-D row to the scaler; a scaler that expects a matrix (as the
    scikit-learn scalers do) raises, and no array of the form of the input is
    returned. *)
Theorem ChannellwiseScaler_transform_single_raises {St : Type} {Sc : Scaler St}
    (self : ChannellwiseScaler St) (a : array2) :
  ExpectsMatrix St -> rows2 a <> [] ->
  ChannellwiseScaler_transform self (Single a) = (self, Raise ValueError).
Proof.
  intros H2d Hne. unfold ChannellwiseScaler_transform. f_equal.
  destruct a as [d c [|row rows]]; [contradiction|].
  simpl. unfold scaled_value. simpl. rewrite (transform_1d St H2d). reflexivity.
Qed.

Lemma ChannellwiseScaler_transform_single_raises_witness :
  let fitted : mean_state := Some (4%nat, [2%Q; 6%Q]) in
  let a := {| dtype2 := float64; ncols2 := 3;
              rows2 := [[1; 2; 3]%Q; [4; 5; 6]%Q] |} in
  ExpectsMatrix mean_state (Sc := mean_scaler) /\
  rows2 a <> [] /\
  ChannellwiseScaler_transform (Sc := mean_scaler) {| scaler := fitted |} (Single a)
  = ({| scaler := fitted |}, Raise ValueError).
Proof.
  intros fitted a.
  assert (Hne : rows2 a <> []) by discriminate.
  split; [exact mean_scaler_expects_matrix|]. split; [exact Hne|].
  exact (ChannellwiseScaler_transform_single_raises (Sc := mean_scaler) _ a
           mean_scaler_expects_matrix Hne).
Defined.

(** The other two batch forms behave as documented: for many records in a
    3-D array and a scaler that keeps shapes on the transposed records,
    [transform] returns a 3-D array of the same shape and dtype. *)
Theorem ChannellwiseScaler_transform_many_shape {St : Type} {Sc : Scaler St}
    (self : ChannellwiseScaler St) (a : array3) :
  wf3 a ->
  transforms_in_shape (scaler self) (map transpose (iter3 a)) ->
  exists out,
    ChannellwiseScaler_transform self (Many a) = (self, Ok (Many out)) /\
    shape3 out = shape3 a /\ dtype3 out = dtype3 a /\ wf3 out.
Proof.
  intros Hwf Hshape. unfold ChannellwiseScaler_transform.
  destruct (comprehension_Forall2
              (fun signals => v ← scaled_value (scaler self) signals;
                              setitem_2d (dtype3 a) (nrows3 a) (ncols3 a) v)
              (fun rec _ => rect (nrows3 a) (ncols3 a) rec)
              (iter_batch2d (Many a))) as (recs & Hrecs & Hall).
  { simpl. apply Forall_map. unfold transforms_in_shape in Hshape.
    rewrite Forall_map in Hshape. unfold iter3 in *. rewrite Forall_map in Hshape.
    apply Forall_map. unfold wf3 in Hwf.
    rewrite Forall_forall in Hwf, Hshape. apply Forall_forall. intros rec Hin. simpl.
    destruct (Hshape rec Hin) as (y & Hy & Hys & Hwfy).
    destruct (Hwf rec Hin) as [Hr Hc].
    destruct (scaled_record (scaler self) (dtype3 a) (nrows3 a) (ncols3 a)
                {| dtype2 := dtype3 a; ncols2 := ncols3 a; rows2 := rec |} y)
      as [Heq Hrect]; auto.
    - unfold shape2. simpl. rewrite Hr. reflexivity.
    - eexists. split; [exact Heq | exact Hrect]. }
  rewrite Hrecs. simpl. eexists. split; [reflexivity|].
  unfold shape3, wf3. simpl. repeat split.
  - apply Forall2_length in Hall. simpl in Hall. unfold iter3 in Hall.
    rewrite !length_map in Hall. congruence.
  - eapply Forall2_Forall_l; [exact Hall|]. apply Forall_forall. intros; assumption.
Qed.

Lemma ChannellwiseScaler_transform_many_shape_witness :
  let fitted : ChannellwiseScaler mean_state := {| scaler := Some (2%nat, [1%Q; 1%Q]) |} in
  let t := {| dtype3 := float64; nrows3 := 2; ncols3 := 3;
              recs3 := [[[1; 2; 3]%Q; [4; 5; 6]%Q]; [[0; 0; 1]%Q; [2; 2; 2]%Q]] |} in
  wf3 t /\
  transforms_in_shape (Sc := mean_scaler) (scaler fitted) (map transpose (iter3 t)) /\
  exists out,
    ChannellwiseScaler_transform (Sc := mean_scaler) fitted (Many t) = (fitted, Ok (Many out)) /\
    shape3 out = shape3 t /\ dtype3 out = dtype3 t /\ wf3 out.
Proof.
  intros fitted t.
  assert (Hwf3 : wf3 t).
  { apply List.Forall_cons; [|apply List.Forall_cons; [|apply List.Forall_nil]];
      (split; [reflexivity|]);
      (apply List.Forall_cons; [reflexivity|]); (apply List.Forall_cons; [reflexivity|]);
      apply List.Forall_nil. }
  assert (Hshape : transforms_in_shape (Sc := mean_scaler) (scaler fitted)
                                       (map transpose (iter3 t))).
  { apply mean_scaler_in_shape.
    apply List.Forall_cons; [|apply List.Forall_cons; [|apply List.Forall_nil]];
      (split; [reflexivity | apply wf2_transpose]). }
  split; [exact Hwf3|]. split; [exact Hshape|].
  exact (ChannellwiseScaler_transform_many_shape (Sc := mean_scaler) fitted t Hwf3 Hshape).
Defined.

(** Many records in a 1-D [object] array: each record comes back with the
    shape it had, for a scaler that keeps shapes on the transposed records. *)
Theorem ChannellwiseScaler_transform_objects_shape {St : Type} {Sc : Scaler St}
    (self : ChannellwiseScaler St) (items : list array2) :
  transforms_in_shape (scaler self) (map transpose items) ->
  exists out,
    ChannellwiseScaler_transform self (ManyObj items) = (self, Ok (ManyObj out)) /\
    Forall2 (fun o item => shape2 o = shape2 item) out items.
Proof.
  intros Hshape. unfold ChannellwiseScaler_transform.
  destruct (comprehension_Forall2
              (scaled_value (scaler self))
              (fun o x => match x with
                          | Nd2 item => shape2 o = shape2 item
                          | Nd1 _ => False
                          end)
              (iter_batch2d (ManyObj items))) as (out & Hout & Hall).
  { simpl. apply Forall_map. unfold transforms_in_shape in Hshape.
    rewrite Forall_map in Hshape. eapply Forall_impl; [exact Hshape|].
    intros item (y & Hy & Hys & _). simpl in *.
    exists (transpose y). unfold scaled_value. simpl. rewrite Hy. simpl.
    split; [reflexivity|].
    rewrite shape2_transpose. rewrite shape2_transpose in Hys.
    unfold shape2 in *. inversion Hys. congruence. }
  rewrite Hout. simpl. exists out. split; [reflexivity|].
  simpl in Hall. apply Forall2_fmap_r in Hall. exact Hall.
Qed.

Lemma ChannellwiseScaler_transform_objects_shape_witness :
  let fitted : ChannellwiseScaler mean_state := {| scaler := Some (2%nat, [1%Q; 1%Q]) |} in
  let items := [{| dtype2 := float64; ncols2 := 3; rows2 := [[1; 2; 3]%Q; [4; 5; 6]%Q] |};
                {| dtype2 := float64; ncols2 := 1; rows2 := [[7%Q]; [8%Q]] |}] in
  transforms_in_shape (Sc := mean_scaler) (scaler fitted) (map transpose items) /\
  exists out,
    ChannellwiseScaler_transform (Sc := mean_scaler) fitted (ManyObj items)
    = (fitted, Ok (ManyObj out)) /\
    Forall2 (fun o item => shape2 o = shape2 item) out items.
Proof.
  intros fitted items.
  assert (Hshape : transforms_in_shape (Sc := mean_scaler) (scaler fitted)
                                       (map transpose items)).
  { apply mean_scaler_in_shape.
    apply List.Forall_cons; [|apply List.Forall_cons; [|apply List.Forall_nil]];
      (split; [reflexivity | apply wf2_transpose]). }
  split; [exact Hshape|].
  exact (ChannellwiseScaler_transform_objects_shape (Sc := mean_scaler) fitted items Hshape).
Defined.

(** C7.  Calling [fit(b1)] and then [fit(b2)] leaves the wrapped scaler in
    the state a single [fit] on the concatenation of [b1] and [b2] leaves it
    in (with the same outcome, exceptions included); the value a call returns
    is the object itself; the state a call starts from is the one the
    previous call left, never a fresh one.  For an accumulator-based scaler
    that state is the one a single incremental fit on all the samples of both
    batches, stacked, would give. *)
Theorem ChannellwiseScaler_fit_accumulates {St : Type} {Sc : Scaler St}
    (self : ChannellwiseScaler St) (b1 b2 b12 : batch2d) :
  is_concat b1 b2 b12 ->
  then_fit (ChannellwiseScaler_fit self b1) b2 = ChannellwiseScaler_fit self b12 /\
  (forall (b : batch2d) (self' r : ChannellwiseScaler St),
      ChannellwiseScaler_fit self b = (self', Ok r) -> r = self') /\
  (forall b : batch2d,
      scaler (fst (ChannellwiseScaler_fit self b))
      = fst (fit_loop (scaler self) (iter_batch2d b))) /\
  (accumulator_based St ->
   forall (A : array2) (rest : list array2),
     iter_batch2d b12 = map Nd2 (A :: rest) ->
     stackable (length (rows2 A)) (A :: rest) ->
     ChannellwiseScaler_fit self b12
     = fit_once self (vstack_all (transpose A) (map transpose rest))).
Proof.
  intros Hcat. repeat split.
  - unfold then_fit, ChannellwiseScaler_fit.
    rewrite Hcat, fit_loop_app.
    destruct (fit_loop (scaler self) (iter_batch2d b1)) as [s1 [u|e]]; simpl; reflexivity.
  - intros b self' r. unfold ChannellwiseScaler_fit.
    destruct (fit_loop (scaler self) (iter_batch2d b)) as [s' [u|e]]; simpl;
      [|discriminate]. intros [= <- <-]. reflexivity.
  - intros b. unfold ChannellwiseScaler_fit.
    destruct (fit_loop (scaler self) (iter_batch2d b)) as [s' r]. reflexivity.
  - intros Hacc A rest Hiter Hstack. unfold ChannellwiseScaler_fit, fit_once.
    rewrite Hiter, fit_loop_fold. simpl map. simpl fold_right.
    rewrite (fit_loop_stack Hacc (length (rows2 A))); [reflexivity|].
    change (transpose A :: map transpose rest) with (map transpose (A :: rest)).
    apply Forall_map. eapply Forall_impl; [exact Hstack|].
    intros m [Hm1 Hm2]. simpl. split; [|exact Hm2].
    intros Hnil. pose proof (shape2_transpose m) as Hs. unfold shape2 in Hs.
    simpl in Hs. inversion Hs as [[H1 H2]]. simpl in Hnil. rewrite Hnil in H1.
    simpl in H1. congruence.
Qed.

Lemma ChannellwiseScaler_fit_accumulates_witness :
  let self : ChannellwiseScaler mean_state := {| scaler := None |} in
  let A := {| dtype2 := float64; ncols2 := 3; rows2 := [[1; 2; 3]%Q; [4; 5; 6]%Q] |} in
  let B := {| dtype2 := float64; ncols2 := 3; rows2 := [[0; 1; 0]%Q; [7; 7; 7]%Q] |} in
  let b1 := Many {| dtype3 := float64; nrows3 := 2; ncols3 := 3; recs3 := [rows2 A] |} in
  let b2 := Many {| dtype3 := float64; nrows3 := 2; ncols3 := 3; recs3 := [rows2 B] |} in
  let b12 := Many {| dtype3 := float64; nrows3 := 2; ncols3 := 3;
                     recs3 := [rows2 A; rows2 B] |} in
  batch_concat b1 b2 = Some b12 /\
  is_concat b1 b2 b12 /\
  accumulator_based mean_state (Sc := mean_scaler) /\
  iter_batch2d b12 = map Nd2 [A; B] /\
  stackable (length (rows2 A)) [A; B] /\
  then_fit (Sc := mean_scaler) (ChannellwiseScaler_fit (Sc := mean_scaler) self b1) b2
  = ChannellwiseScaler_fit (Sc := mean_scaler) self b12 /\
  ChannellwiseScaler_fit (Sc := mean_scaler) self b12
  = fit_once (Sc := mean_scaler) self (vstack_all (transpose A) [transpose B]).
Proof.
  intros self A B b1 b2 b12.
  assert (Hnp : batch_concat b1 b2 = Some b12) by reflexivity.
  assert (Hcat : is_concat b1 b2 b12) by (apply batch_concat_is_concat; exact Hnp).
  assert (Hiter : iter_batch2d b12 = map Nd2 [A; B]) by reflexivity.
  assert (Hstack : stackable (length (rows2 A)) [A; B]).
  { apply List.Forall_cons; [|apply List.Forall_cons; [|apply List.Forall_nil]];
      split; [discriminate | reflexivity | discriminate | reflexivity]. }
  destruct (ChannellwiseScaler_fit_accumulates (Sc := mean_scaler) self b1 b2 b12 Hcat)
    as (H1 & _ & _ & H4).
  repeat (split; [first [assumption | exact mean_scaler_accumulator]|]).
  exact (H4 mean_scaler_accumulator A [B] Hiter Hstack).
Defined.

(** The state both ways of fitting reach on those batches: six samples seen,
    and the two channel sums. *)
Example ChannellwiseScaler_fit_example :
  let A := [[1; 2; 3]%Q; [4; 5; 6]%Q] in
  let B := [[0; 1; 0]%Q; [7; 7; 7]%Q] in
  scaler (fst (ChannellwiseScaler_fit (Sc := mean_scaler) {| scaler := None |}
                 (Many {| dtype3 := float64; nrows3 := 2; ncols3 := 3; recs3 := [A; B] |})))
  = Some (6%nat, [7%Q; 36%Q]).
Proof. vm_compute. reflexivity. Qed.

(* ===================================================================== *)
(** * Part 15.  What a call may change                                    *)
(* ===================================================================== *)

Section Frame.

Context {S : SciPySignal} {St : Type} {Sc : Scaler St}.

(** One call: the three stateless objects are kept as they are, and the
    scaler moves only on [ChannellwiseScaler.fit], by the loop of
    [partial_fit] calls. *)
Lemma step_frame (p : pipeline St) (c : call) :
  bf (step p c) = bf p /\ dec (step p c) = dec p /\ mt (step p c) = mt p /\
  scaler (cs (step p c))
  = match c with
    | CallScalerFit b => fst (fit_loop (scaler (cs p)) (iter_batch2d b))
    | _ => scaler (cs p)
    end.
Proof.
  destruct c; simpl; repeat split; try reflexivity.
  unfold ChannellwiseScaler_fit.
  destruct (fit_loop (scaler (cs p)) (iter_batch2d batch)) as [s' r]. reflexivity.
Qed.

Lemma run_frame (calls : list call) :
  forall p : pipeline St,
    bf (run p calls) = bf p /\ dec (run p calls) = dec p /\ mt (run p calls) = mt p /\
    scaler (cs (run p calls)) = scaler_after (scaler (cs p)) (fit_batches calls).
Proof.
  unfold run, scaler_after.
  induction calls as [|c calls IH]; intros p; simpl; [repeat split; reflexivity|].
  destruct (IH (step p c)) as (Hbf & Hdec & Hmt & Hs).
  destruct (step_frame p c) as (Hbf1 & Hdec1 & Hmt1 & Hs1).
  rewrite Hbf, Hdec, Hmt, Hs, Hbf1, Hdec1, Hmt1, Hs1.
  repeat split; try reflexivity.
  destruct c; reflexivity.
Qed.

End Frame.

(** C9.  Over any sequence of [fit] and [transform] calls on the four
    objects: the [ButterFilter], the [Decimator] and the
    [MarkersTransformer] end as they started, field by field, so the
    coefficients a [ButterFilter] works with are the ones [butter] returned
    in its constructor; the wrapped scaler ends in the state the
    [partial_fit] loops of the [ChannellwiseScaler.fit] calls lead to, and is
    untouched when there is no such call. *)
Theorem calls_frame {S : SciPySignal} {St : Type} {Sc : Scaler St}
    (p : pipeline St) (calls : list call) :
  bf (run p calls) = bf p /\
  dec (run p calls) = dec p /\
  mt (run p calls) = mt p /\
  scaler (cs (run p calls)) = scaler_after (scaler (cs p)) (fit_batches calls) /\
  (fit_batches calls = [] -> cs (run p calls) = cs p) /\
  (forall (sampling_rate order : Z) (highpass lowpass : Q),
      ButterFilter_init sampling_rate order highpass lowpass = Ok (bf p) ->
      butter order (highpass / nyquist sampling_rate, lowpass / nyquist sampling_rate)%Q
      = Ok (filter (bf (run p calls)))).
Proof.
  destruct (run_frame calls p) as (Hbf & Hdec & Hmt & Hs).
  repeat split; try assumption.
  - intros Hnone. rewrite Hnone in Hs. simpl in Hs.
    destruct (cs (run p calls)) as [s'], (cs p) as [s]. simpl in Hs. congruence.
  - intros sr ord hp lp Hinit. rewrite Hbf.
    destruct (ButterFilter_init_Ok sr ord hp lp (bf p) Hinit) as (_ & Hb & _). exact Hb.
Qed.

Lemma calls_frame_witness :
  let bf0 := {| sampling_rate := 250; order := 1; highpass := 1; lowpass := 40;
                filter := ([1%Q; 1%Q; 1%Q], [1%Q; 1%Q; 1%Q]) |} in
  let p : pipeline mean_state :=
    {| bf := bf0; dec := Decimator_init 2; cs := {| scaler := None |};
       mt := {| labels_mapping := <[2 := PyInt 10]> ∅; decimation_factor := 1;
                empty_label := 0 |} |} in
  let batch := Batch2D {| dtype2 := float64; ncols2 := 3; rows2 := [[1; 2; 3]%Q] |} in
  let calls := [CallButterTransform batch; CallDecimatorTransform batch;
                CallMarkersTransform [[0; 2; 5]]; CallButterFit batch] in
  ButterFilter_init (S := ref_signal) 250 1 1 40 = Ok (bf p) /\
  fit_batches calls = [] /\
  cs (run (S := ref_signal) (Sc := mean_scaler) p calls) = cs p /\
  butter (SciPySignal := ref_signal) 1 (1 / nyquist 250, 40 / nyquist 250)%Q
  = Ok (filter (bf (run (S := ref_signal) (Sc := mean_scaler) p calls))).
Proof.
  intros bf0 p batch calls.
  assert (Hinit : ButterFilter_init (S := ref_signal) 250 1 1 40 = Ok (bf p))
    by (vm_compute; reflexivity).
  assert (Hnone : fit_batches calls = []) by reflexivity.
  destruct (calls_frame (S := ref_signal) (Sc := mean_scaler) p calls)
    as (_ & _ & _ & _ & Hcs & Hfilter).
  split; [exact Hinit|]. split; [exact Hnone|]. split; [exact (Hcs Hnone)|].
  exact (Hfilter _ _ _ _ Hinit).
Defined.

(* ===================================================================== *)
(** * Part 16.  The dtype of the results                                  *)
(* ===================================================================== *)

Lemma Qtrunc_nonneg (x : Q) : (0 <= x)%Q -> Qtrunc x = Qfloor x.
Proof.
  destruct x as [n d]. unfold Qle, Qtrunc, Qfloor. simpl. intros H.
  apply Z.quot_div_nonneg; lia.
Qed.

Lemma Qtrunc_nonpos (x : Q) : (x <= 0)%Q -> Qtrunc x = Qceiling x.
Proof.
  destruct x as [n d]. unfold Qle, Qtrunc, Qceiling, Qfloor. simpl. intros H.
  rewrite <- (Z.opp_involutive n) at 1. rewrite Z.quot_opp_l by lia.
  f_equal. apply Z.quot_div_nonneg; lia.
Qed.

(** Rounding towards zero, stated on the rationals. *)
Lemma Qtrunc_spec (x : Q) :
  ((0 <= x -> inject_Z (Qtrunc x) <= x /\ x < inject_Z (Qtrunc x + 1)) /\
   (x <= 0 -> x <= inject_Z (Qtrunc x) /\ inject_Z (Qtrunc x - 1) < x))%Q.
Proof.
  split; intros H.
  - rewrite (Qtrunc_nonneg x H). split; [apply Qfloor_le | apply Qlt_floor].
  - rewrite (Qtrunc_nonpos x H). split; [apply Qle_ceiling | apply Qceiling_lt].
Qed.

Lemma cast_stored (d : dtype) (x : Q) : stored d x (cast d x).
Proof.
  unfold stored, cast. destruct (int_range d) as [[lo hi]|] eqn:Hd; [|reflexivity].
  assert (Hle : lo <= hi) by (destruct d; inversion Hd; subst; lia).
  destruct ((lo <=? Qtrunc x) && (Qtrunc x <=? hi)) eqn:E.
  - apply andb_true_iff in E as [E1 E2]. apply Z.leb_le in E1, E2.
    exists (Qtrunc x). repeat split; assumption.
  - exists lo. split; [reflexivity|]. split; [lia|].
    intros [H1 H2]. apply Z.leb_le in H1, H2. rewrite H1, H2 in E. discriminate.
Qed.

Lemma map_cast_stored (d : dtype) (xs : list Q) :
  Forall2 (fun y x => stored d x y) (map (cast d) xs) xs.
Proof.
  apply Forall2_fmap_l, Forall_Forall2_diag, Forall_forall.
  intros x _. apply cast_stored.
Qed.

Lemma rows_cast_stored (d : dtype) (rows : list (list Q)) :
  Forall2 (Forall2 (fun y x => stored d x y)) (map (map (cast d)) rows) rows.
Proof.
  apply Forall2_fmap_l, Forall_Forall2_diag, Forall_forall.
  intros row _. apply map_cast_stored.
Qed.

(** An integer array never holds the rounded value of a number it has no
    room for. *)
Lemma stored_overflow (d : dtype) (lo hi : Z) (x y : Q) :
  int_range d = Some (lo, hi) -> ~ (lo <= Qtrunc x <= hi) ->
  stored d x y -> y <> inject_Z (Qtrunc x).
Proof.
  unfold stored. intros -> Hout (z & -> & Hz & _) Heq.
  apply Hout. unfold inject_Z in Heq. injection Heq as <-. exact Hz.
Qed.

Lemma comprehension_Ok_Forall {A B} (f : A -> result B) (P : B -> Prop)
    (items : list A) (ys : list B) :
  (forall x y, f x = Ok y -> P y) ->
  comprehension f items = Ok ys -> Forall P ys.
Proof.
  intros HP H. apply comprehension_Ok_Forall2 in H.
  induction H as [|y x ys items Hy _ IH]; constructor; eauto.
Qed.

Section ScalerValues.

Context {St : Type} {Sc : Scaler St}.

(** The loop of [transform] over the records of a 3-D array: the values
    stored are the casts of what the scaler returned, transposed back. *)
Lemma many_values (s : St) (d : dtype) (r c : nat) (recs : list (list (list Q))) :
  let mk := fun rec => {| dtype2 := d; ncols2 := c; rows2 := rec |} in
  Forall (rect r c) recs ->
  transforms_in_shape s (map transpose (map mk recs)) ->
  exists ys,
    Forall2 (fun y rec => scaler_transform s (Nd2 (transpose (mk rec))) = Ok y) ys recs /\
    comprehension (fun signals => v ← scaled_value s signals; setitem_2d d r c v)
                  (map Nd2 (map mk recs))
    = Ok (map (fun y => map (map (cast d)) (rows2 (transpose y))) ys).
Proof.
  intros mk Hwf Hshape. unfold transforms_in_shape in Hshape.
  induction Hwf as [|rec recs [Hr Hc] _ IH]; simpl in *.
  - exists []. split; [constructor | reflexivity].
  - inversion Hshape as [|? ? (y & Hy & Hys & Hwfy) Hrest]; subst.
    destruct (IH Hrest) as (ys & Hall & Heq).
    destruct (scaled_record s d (length rec) c (mk rec) y) as [Hval _]; auto.
    exists (y :: ys). split; [constructor; assumption|].
    rewrite Hval. simpl. rewrite Heq. reflexivity.
Qed.

(** One turn of the loop of [transform] over the channels of a single 2-D
    record, for a scaler that takes a 1-D array as one feature column and
    returns it as a matrix with one column. *)
Lemma scaled_row (s : St) (d : dtype) (c : nat) (row : list Q) (y : array2) :
  scaler_transform s (Nd1 {| dtype1 := d; data1 := row |}) = Ok y ->
  ncols2 y = 1%nat -> length (rows2 y) = c ->
  (v ← scaled_value s (Nd1 {| dtype1 := d; data1 := row |}); setitem_1d d c v)
  = Ok (map (cast d) (column 0 (rows2 y))).
Proof.
  intros Hy Hcols Hlen. unfold scaled_value. simpl. rewrite Hy. simpl.
  unfold setitem_1d, transpose. simpl. rewrite Hcols. simpl.
  rewrite bcast_same; [reflexivity|]. rewrite length_column. exact Hlen.
Qed.

Lemma single_values (s : St) (d : dtype) (c : nat) (rows : list (list Q)) :
  Forall (fun row => exists y,
            scaler_transform s (Nd1 {| dtype1 := d; data1 := row |}) = Ok y /\
            ncols2 y = 1%nat /\ length (rows2 y) = c) rows ->
  exists ys,
    Forall2 (fun y row => scaler_transform s (Nd1 {| dtype1 := d; data1 := row |}) = Ok y)
            ys rows /\
    comprehension (fun signals => v ← scaled_value s signals; setitem_1d d c v)
                  (map Nd1 (map (fun row => {| dtype1 := d; data1 := row |}) rows))
    = Ok (map (fun y => map (cast d) (column 0 (rows2 y))) ys).
Proof.
  induction 1 as [|row rows (y & Hy & Hcols & Hlen) _ (ys & Hall & Heq)]; simpl.
  - exists []. split; [constructor | reflexivity].
  - exists (y :: ys). split; [constructor; assumption|].
    rewrite (scaled_row s d c row y Hy Hcols Hlen). simpl. rewrite Heq. reflexivity.
Qed.

End ScalerValues.

(** C10, as stated, fails for the values: a scaled value that is too large
    for the dtype of the batch is not written back truncated.  With a mean of
    [-2^63] the sample [2^62] of an [int64] batch is scaled to [2^62 + 2^63],
    which is its own truncation and no [int64]: whatever the array holds
    afterwards is another number. *)
Lemma ChannellwiseScaler_transform_overflows :
  let fitted : ChannellwiseScaler mean_state :=
    ChannellwiseScaler_init (Some (1%nat, [inject_Z (- 2 ^ 63)])) in
  let t := {| dtype3 := int64; nrows3 := 1; ncols3 := 1;
              recs3 := [[[inject_Z (2 ^ 62)]]] |} in
  scaler_transform (Scaler := mean_scaler) (scaler fitted)
    (Nd2 (transpose {| dtype2 := int64; ncols2 := 1; rows2 := [[inject_Z (2 ^ 62)]] |}))
  = Ok {| dtype2 := float64; ncols2 := 1;
          rows2 := [[(inject_Z (2 ^ 62) - inject_Z (- 2 ^ 63) / 1)%Q]] |} /\
  Qtrunc (inject_Z (2 ^ 62) - inject_Z (- 2 ^ 63) / 1) = 2 ^ 62 + 2 ^ 63 /\
  (exists o,
     snd (ChannellwiseScaler_transform (Sc := mean_scaler) fitted (Many t))
     = Ok (Many {| dtype3 := int64; nrows3 := 1; ncols3 := 1; recs3 := [[[o]]] |}) /\
     o <> inject_Z (2 ^ 62 + 2 ^ 63)) /\
  (forall y : Q,
      stored int64 (inject_Z (2 ^ 62) - inject_Z (- 2 ^ 63) / 1) y ->
      y <> inject_Z (2 ^ 62 + 2 ^ 63)).
Proof.
  intros fitted t.
  assert (Htrunc : Qtrunc (inject_Z (2 ^ 62) - inject_Z (- 2 ^ 63) / 1) = 2 ^ 62 + 2 ^ 63)
    by (vm_compute; reflexivity).
  split; [vm_compute; reflexivity|]. split; [exact Htrunc|]. split.
  - eexists. split; [vm_compute; reflexivity|]. discriminate.
  - intros y Hy. rewrite <- Htrunc.
    apply (stored_overflow int64 _ _ _ _ eq_refl); [|exact Hy].
    rewrite Htrunc. lia.
Qed.

(** C10, amended.  [ButterFilter.transform] and [ChannellwiseScaler.transform]
    return their result in an array of the dtype of the batch: whenever they
    return, the dtype of the result is the dtype of the input (parts 1 and
    3).  The numbers in it are the filtered (scaled) values as an array of
    that dtype stores them, for a 2-D batch of the filter (part 2), for a
    3-D batch of the scaler (part 4) and for a single 2-D record handed to a
    scaler that accepts its 1-D channels (part 5).  Stored in an integer array
    a value becomes an integer of that dtype, which is the value rounded
    towards zero whenever the rounded value is within the range of the dtype;
    stored in a float array it is kept (part 6). *)
Theorem transforms_keep_dtype :
  (forall (S : SciPySignal) (self : ButterFilter) (batch out : batch1d),
      snd (ButterFilter_transform self batch) = Ok out ->
      batch1d_dtype out = batch1d_dtype batch) /\
  (forall (S : SciPySignal) (CB : ButterContract S) (CF : FiltfiltContract S)
          (self : ButterFilter) (N : Z) (Wn : Q * Q) (a : array2),
      butter N Wn = Ok (filter self) -> wf2 a -> rows2 a <> [] ->
      Forall (fun row => 3 * (2 * N + 1) < Z.of_nat (length row)) (rows2 a) ->
      exists values rows,
        Forall2 (fun v row => filtfilt (filter self) row = Ok v) values (rows2 a) /\
        snd (ButterFilter_transform self (Batch2D a))
        = Ok (Batch2D {| dtype2 := dtype2 a; ncols2 := ncols2 a; rows2 := rows |}) /\
        Forall2 (Forall2 (fun y x => stored (dtype2 a) x y)) rows values) /\
  (forall (St : Type) (Sc : Scaler St) (self : ChannellwiseScaler St) (batch out : batch2d),
      snd (ChannellwiseScaler_transform self batch) = Ok out ->
      batch2d_dtype out = batch2d_dtype batch) /\
  (forall (St : Type) (Sc : Scaler St) (self : ChannellwiseScaler St) (a : array3),
      wf3 a ->
      Forall (fun rec =>
                let m := transpose {| dtype2 := dtype3 a; ncols2 := ncols3 a;
                                      rows2 := rec |} in
                exists y, scaler_transform (scaler self) (Nd2 m) = Ok y /\
                          shape2 y = shape2 m /\ wf2 y) (recs3 a) ->
      exists ys recs,
        Forall2 (fun y rec =>
                   scaler_transform (scaler self)
                     (Nd2 (transpose {| dtype2 := dtype3 a; ncols2 := ncols3 a;
                                        rows2 := rec |})) = Ok y)
                ys (recs3 a) /\
        snd (ChannellwiseScaler_transform self (Many a))
        = Ok (Many {| dtype3 := dtype3 a; nrows3 := nrows3 a; ncols3 := ncols3 a;
                      recs3 := recs |}) /\
        Forall2 (fun rec y =>
                   Forall2 (Forall2 (fun o x => stored (dtype3 a) x o))
                           rec (rows2 (transpose y)))
                recs ys) /\
  (forall (St : Type) (Sc : Scaler St) (self : ChannellwiseScaler St) (a : array2),
      Forall (fun row => exists y,
                scaler_transform (scaler self) (Nd1 {| dtype1 := dtype2 a; data1 := row |})
                = Ok y /\
                ncols2 y = 1%nat /\ length (rows2 y) = ncols2 a) (rows2 a) ->
      exists ys rows,
        Forall2 (fun y row =>
                   scaler_transform (scaler self)
                     (Nd1 {| dtype1 := dtype2 a; data1 := row |}) = Ok y)
                ys (rows2 a) /\
        snd (ChannellwiseScaler_transform self (Single a))
        = Ok (Single {| dtype2 := dtype2 a; ncols2 := ncols2 a; rows2 := rows |}) /\
        Forall2 (fun row y => Forall2 (fun o x => stored (dtype2 a) x o)
                                      row (column 0 (rows2 y)))
                rows ys) /\
  ((forall x y : Q, stored float64 x y <-> y = x) /\
   (forall (d : dtype) (lo hi : Z) (x y : Q),
       int_range d = Some (lo, hi) ->
       (stored d x y <->
        exists z : Z, y = inject_Z z /\ lo <= z <= hi /\
                      (lo <= Qtrunc x <= hi -> z = Qtrunc x))) /\
   (forall x : Q,
       (0 <= x -> inject_Z (Qtrunc x) <= x /\ x < inject_Z (Qtrunc x + 1)) /\
       (x <= 0 -> x <= inject_Z (Qtrunc x) /\ inject_Z (Qtrunc x - 1) < x))%Q).
Proof.
  split; [|split; [|split; [|split; [|split]]]].
  - intros S self batch out. unfold ButterFilter_transform. simpl.
    destruct (comprehension _ _) as [values|e]; simpl; [|discriminate].
    destruct batch as [a|items]; simpl.
    + destruct (setitem_all_2d _ _ _) as [rows|e]; simpl; [|discriminate].
      intros [= <-]. reflexivity.
    + intros [= <-]. reflexivity.
  - intros S CB CF self N Wn a Hb Hwf Hne Hlong.
    destruct (ButterFilter_transform_designed CB CF self N Wn (Batch2D a) Hb Hwf)
      as (values & Hvalues & _ & Heq).
    + exact Hne.
    + simpl. unfold iter2. apply Forall_map. exact Hlong.
    + exists values, (map (map (cast (dtype2 a))) values). split; [|split].
      * apply comprehension_Ok_Forall2 in Hvalues. simpl in Hvalues. unfold iter2 in Hvalues.
        apply Forall2_fmap_r in Hvalues. exact Hvalues.
      * rewrite Heq. reflexivity.
      * apply rows_cast_stored.
  - intros St Sc self batch out. unfold ChannellwiseScaler_transform. simpl.
    destruct batch as [a|a|items]; simpl;
      (destruct (comprehension _ _) as [vs|e]; simpl; [|discriminate]);
      intros [= <-]; reflexivity.
  - intros St Sc self a Hwf Hshape.
    destruct (many_values (scaler self) (dtype3 a) (nrows3 a) (ncols3 a) (recs3 a) Hwf)
      as (ys & Hall & Heq).
    { unfold transforms_in_shape. apply Forall_map, Forall_map. exact Hshape. }
    exists ys, (map (fun y => map (map (cast (dtype3 a))) (rows2 (transpose y))) ys).
    split; [exact Hall|]. split.
    + unfold ChannellwiseScaler_transform. simpl. unfold iter3.
      rewrite Heq. reflexivity.
    + apply Forall2_fmap_l, Forall_Forall2_diag, Forall_forall.
      intros y _. apply rows_cast_stored.
  - intros St Sc self a Hrows.
    destruct (single_values (scaler self) (dtype2 a) (ncols2 a) (rows2 a) Hrows)
      as (ys & Hall & Heq).
    exists ys, (map (fun y => map (cast (dtype2 a)) (column 0 (rows2 y))) ys).
    split; [exact Hall|]. split.
    + unfold ChannellwiseScaler_transform. simpl. unfold iter2.
      rewrite Heq. reflexivity.
    + apply Forall2_fmap_l, Forall_Forall2_diag, Forall_forall.
      intros y _. apply map_cast_stored.
  - split; [|split].
    + intros x y. reflexivity.
    + intros d lo hi x y Hd. unfold stored. rewrite Hd. reflexivity.
    + apply Qtrunc_spec.
Qed.

Lemma transforms_keep_dtype_witness :
  let self := {| sampling_rate := 250; order := 1; highpass := 1; lowpass := 40;
                 filter := ([1%Q; 1%Q; 1%Q], [1%Q; 1%Q; 1%Q]) |} in
  let a := {| dtype2 := int16; ncols2 := 10;
              rows2 := [[1; 2; 3; 4; 5; 6; 7; 8; 9; 10]%Q] |} in
  let fitted : ChannellwiseScaler mean_state := {| scaler := Some (2%nat, [1%Q; 1%Q]) |} in
  let t := {| dtype3 := int64; nrows3 := 2; ncols3 := 2;
              recs3 := [[[1; 2]%Q; [3; 4]%Q]] |} in
  let shifted : ChannellwiseScaler Q := {| scaler := (1 # 2)%Q |} in
  let one := {| dtype2 := uint8; ncols2 := 3; rows2 := [[1; 2; 3]%Q; [4; 5; 6]%Q] |} in
  (butter (SciPySignal := ref_signal) 1 (1 / nyquist 250, 40 / nyquist 250)%Q
   = Ok (filter self) /\
   wf2 a /\ rows2 a <> [] /\
   Forall (fun row => 3 * (2 * 1 + 1) < Z.of_nat (length row)) (rows2 a) /\
   exists values rows,
     Forall2 (fun v row => filtfilt (SciPySignal := ref_signal) (filter self) row = Ok v)
             values (rows2 a) /\
     snd (ButterFilter_transform (S := ref_signal) self (Batch2D a))
     = Ok (Batch2D {| dtype2 := int16; ncols2 := 10; rows2 := rows |}) /\
     Forall2 (Forall2 (fun y x => stored int16 x y)) rows values) /\
  (wf3 t /\
   Forall (fun rec =>
             let m := transpose {| dtype2 := int64; ncols2 := 2; rows2 := rec |} in
             exists y, scaler_transform (Scaler := mean_scaler) (scaler fitted) (Nd2 m) = Ok y /\
                       shape2 y = shape2 m /\ wf2 y) (recs3 t) /\
   exists ys recs,
     Forall2 (fun y rec =>
                scaler_transform (Scaler := mean_scaler) (scaler fitted)
                  (Nd2 (transpose {| dtype2 := int64; ncols2 := 2; rows2 := rec |})) = Ok y)
             ys (recs3 t) /\
     snd (ChannellwiseScaler_transform (Sc := mean_scaler) fitted (Many t))
     = Ok (Many {| dtype3 := int64; nrows3 := 2; ncols3 := 2; recs3 := recs |}) /\
     Forall2 (fun rec y =>
                Forall2 (Forall2 (fun o x => stored int64 x o)) rec (rows2 (transpose y)))
             recs ys) /\
  (Forall (fun row => exists y,
             scaler_transform (Scaler := offset_scaler) (scaler shifted)
               (Nd1 {| dtype1 := uint8; data1 := row |}) = Ok y /\
             ncols2 y = 1%nat /\ length (rows2 y) = ncols2 one) (rows2 one) /\
   exists ys rows,
     Forall2 (fun y row =>
                scaler_transform (Scaler := offset_scaler) (scaler shifted)
                  (Nd1 {| dtype1 := uint8; data1 := row |}) = Ok y)
             ys (rows2 one) /\
     snd (ChannellwiseScaler_transform (Sc := offset_scaler) shifted (Single one))
     = Ok (Single {| dtype2 := uint8; ncols2 := 3; rows2 := rows |}) /\
     Forall2 (fun row y => Forall2 (fun o x => stored uint8 x o) row (column 0 (rows2 y)))
             rows ys).
Proof.
  intros self a fitted t shifted one.
  assert (Hb : butter (SciPySignal := ref_signal) 1 (1 / nyquist 250, 40 / nyquist 250)%Q
               = Ok (filter self)) by (vm_compute; reflexivity).
  assert (Hwf : wf2 a) by (apply List.Forall_cons; [reflexivity | apply List.Forall_nil]).
  assert (Hne : rows2 a <> []) by discriminate.
  assert (Hlong : Forall (fun row => 3 * (2 * 1 + 1) < Z.of_nat (length row)) (rows2 a))
    by (apply List.Forall_cons; [simpl; lia | apply List.Forall_nil]).
  assert (Hwf3 : wf3 t).
  { apply List.Forall_cons; [|apply List.Forall_nil]. split; [reflexivity|].
    apply List.Forall_cons; [reflexivity|]. apply List.Forall_cons; [reflexivity|].
    apply List.Forall_nil. }
  assert (Hshape : Forall (fun rec =>
                             let m := transpose {| dtype2 := int64; ncols2 := 2;
                                                   rows2 := rec |} in
                             exists y,
                               scaler_transform (Scaler := mean_scaler) (scaler fitted) (Nd2 m)
                               = Ok y /\
                               shape2 y = shape2 m /\ wf2 y) (recs3 t)).
  { apply List.Forall_cons; [|apply List.Forall_nil].
    assert (Hin : Forall (fun m => ncols2 m = length [1%Q; 1%Q] /\ wf2 m)
                         [transpose {| dtype2 := int64; ncols2 := 2;
                                       rows2 := [[1; 2]%Q; [3; 4]%Q] |}]).
    { apply List.Forall_cons; [|apply List.Forall_nil].
      split; [reflexivity | apply wf2_transpose]. }
    exact (Forall_inv (mean_scaler_in_shape 2 [1%Q; 1%Q] _ Hin)). }
  assert (Hone : Forall (fun row => exists y,
                           scaler_transform (Scaler := offset_scaler) (scaler shifted)
                             (Nd1 {| dtype1 := uint8; data1 := row |}) = Ok y /\
                           ncols2 y = 1%nat /\ length (rows2 y) = ncols2 one) (rows2 one)).
  { apply List.Forall_cons; [|apply List.Forall_cons; [|apply List.Forall_nil]];
      (eexists; split; [reflexivity|]; split; reflexivity). }
  destruct transforms_keep_dtype as (_ & Hbutter & _ & Hscaler & Hsingle & _).
  split; [|split].
  - repeat (split; [assumption|]).
    exact (Hbutter ref_signal ref_butter_contract ref_filtfilt_contract self 1 _ a
             Hb Hwf Hne Hlong).
  - repeat (split; [assumption|]).
    exact (Hscaler mean_state mean_scaler fitted t Hwf3 Hshape).
  - split; [exact Hone|].
    exact (Hsingle Q offset_scaler shifted one Hone).
Defined.

(** On that 3-D batch, with per-channel means of one half: the scaled values
    0.5, 1.5, 2.5 and 3.5 come back as the integers 0, 1, 2 and 3. *)
Example ChannellwiseScaler_transform_int64_example :
  snd (ChannellwiseScaler_transform (Sc := mean_scaler)
         {| scaler := Some (2%nat, [1%Q; 1%Q]) |}
         (Many {| dtype3 := int64; nrows3 := 2; ncols3 := 2;
                  recs3 := [[[1; 2]%Q; [3; 4]%Q]] |}))
  = Ok (Many {| dtype3 := int64; nrows3 := 2; ncols3 := 2;
                recs3 := [[[0; 1]%Q; [2; 3]%Q]] |}).
Proof. vm_compute. reflexivity. Qed.

(** The same batch as floats keeps the fractions. *)
Example ChannellwiseScaler_transform_float64_example :
  snd (ChannellwiseScaler_transform (Sc := mean_scaler)
         {| scaler := Some (2%nat, [1%Q; 1%Q]) |}
         (Many {| dtype3 := float64; nrows3 := 2; ncols3 := 2;
                  recs3 := [[[1; 2]%Q; [3; 4]%Q]] |}))
  = Ok (Many {| dtype3 := float64; nrows3 := 2; ncols3 := 2;
                recs3 := [[[1 # 2; 3 # 2]%Q; [5 # 2; 7 # 2]%Q]] |}).
Proof. vm_compute. reflexivity. Qed.

(** A single record of unsigned bytes and an offset of one half: the scaled
    values 0.5, 1.5, ... come back as the bytes 0, 1, ... *)
Example ChannellwiseScaler_transform_single_example :
  snd (ChannellwiseScaler_transform (Sc := offset_scaler) {| scaler := (1 # 2)%Q |}
         (Single {| dtype2 := uint8; ncols2 := 3;
                    rows2 := [[1; 2; 3]%Q; [4; 5; 6]%Q] |}))
  = Ok (Single {| dtype2 := uint8; ncols2 := 3;
                  rows2 := [[0; 1; 2]%Q; [3; 4; 5]%Q] |}).
Proof. vm_compute. reflexivity. Qed.

(* ===================================================================== *)
(** * Part 17.  MarkersTransformer: what a call returns, and when         *)
(* ===================================================================== *)

Lemma comprehension_app {A B} (f : A -> result B) (l1 l2 : list A) :
  comprehension f (l1 ++ l2)
  = (y1 ← comprehension f l1; y2 ← comprehension f l2; Ok (y1 ++ y2)).
Proof.
  induction l1 as [|x l1 IH]; simpl.
  - destruct (comprehension f l2); reflexivity.
  - destruct (f x) as [y|e]; simpl; [|reflexivity].
    rewrite IH. destruct (comprehension f l1) as [y1|e]; simpl; [|reflexivity].
    destruct (comprehension f l2); reflexivity.
Qed.

Lemma comprehension_Forall2_Ok {A B} (f : A -> result B) (items : list A) (ys : list B) :
  Forall2 (fun y x => f x = Ok y) ys items -> comprehension f items = Ok ys.
Proof.
  induction 1 as [|y x ys items Hy _ IH]; simpl; [reflexivity|].
  rewrite Hy. simpl. rewrite IH. reflexivity.
Qed.

(** A comprehension whose body can only fail with [e] fails with [e] as soon
    as one item fails. *)
Lemma comprehension_raises {A B} (f : A -> result B) (e : exn) (items : list A) :
  Forall (fun x => is_Ok (f x) \/ f x = Raise e) items ->
  Exists (fun x => f x = Raise e) items ->
  comprehension f items = Raise e.
Proof.
  induction 1 as [|x items Hx _ IH]; intros Hex.
  - inversion Hex.
  - simpl. destruct Hx as [[y Hy]|Hx].
    + rewrite Hy. simpl. rewrite IH; [reflexivity|].
      inversion Hex as [? ? H|? ? H]; subst; [congruence | exact H].
    + rewrite Hx. reflexivity.
Qed.

Lemma is_marked_empty (empty i : Z) : is_marked empty (i, empty) = false.
Proof. unfold is_marked. simpl. rewrite Z.eqb_refl. reflexivity. Qed.

Lemma is_marked_other (empty i v : Z) : v <> empty -> is_marked empty (i, v) = true.
Proof. intros H. unfold is_marked. simpl. apply Z.eqb_neq in H. rewrite H. reflexivity. Qed.

Lemma enumerate_from_bounds {A} (k : Z) (xs : list A) :
  Forall (fun p => k <= fst p < k + Z.of_nat (length xs)) (enumerate_from k xs).
Proof.
  revert k. induction xs as [|x xs IH]; intros k; simpl; constructor.
  - simpl. lia.
  - eapply Forall_impl; [apply IH|]. intros p Hp. simpl in Hp. lia.
Qed.

Lemma enumerate_from_sorted {A} (k : Z) (xs : list A) :
  StronglySorted (fun p q => fst p < fst q) (enumerate_from k xs).
Proof.
  revert k. induction xs as [|x xs IH]; intros k; simpl; constructor.
  - apply IH.
  - eapply Forall_impl; [apply (enumerate_from_bounds (k + 1) xs)|].
    intros p Hp. simpl in *. lia.
Qed.

Lemma In_enumerate {A} (xs : list A) (x : A) :
  In x xs -> exists i, In (i, x) (enumerate xs).
Proof.
  unfold enumerate. generalize 0.
  induction xs as [|y ys IH]; intros k Hin; [destruct Hin|].
  destruct Hin as [->|Hin]; [exists k; left; reflexivity|].
  destruct (IH (k + 1) Hin) as [i Hi]. exists i. right. exact Hi.
Qed.

Lemma filter_Forall {A} (p : A -> bool) (P : A -> Prop) (l : list A) :
  Forall P l -> Forall P (List.filter p l).
Proof.
  intros H. apply Forall_forall. intros x Hx. apply list_elem_of_In in Hx.
  apply List.filter_In in Hx as [Hx _]. rewrite Forall_forall in H. apply H.
  apply list_elem_of_In. exact Hx.
Qed.

Lemma filter_StronglySorted {A} (p : A -> bool) (R : A -> A -> Prop) (l : list A) :
  StronglySorted R l -> StronglySorted R (List.filter p l).
Proof.
  induction 1 as [|x l Hl IH Hx]; simpl; [constructor|].
  destruct (p x); [constructor; [exact IH | apply filter_Forall; exact Hx] | exact IH].
Qed.

Lemma Forall2_StronglySorted {A B} (P : A -> B -> Prop) (R1 : A -> A -> Prop)
    (R2 : B -> B -> Prop) (l1 : list A) (l2 : list B) :
  (forall a b c d, P a c -> P b d -> R2 c d -> R1 a b) ->
  Forall2 P l1 l2 -> StronglySorted R2 l2 -> StronglySorted R1 l1.
Proof.
  intros HR. induction 1 as [|a c l1 l2 Hac Hall IH]; intros Hs; [constructor|].
  apply StronglySorted_inv in Hs as [Hs Hc]. constructor; [apply IH; exact Hs|].
  eapply Forall2_Forall_l; [exact Hall|].
  eapply Forall_impl; [exact Hc|]. intros d Hcd b Hbd. eapply HR; eauto.
Qed.

(** The marked samples of a record: positions inside the record, in
    increasing order. *)
Lemma marked_samples_bounds (empty : Z) (markers : list Z) :
  Forall (fun s => 0 <= fst s < Z.of_nat (length markers)) (marked_samples empty markers).
Proof.
  apply filter_Forall. eapply Forall_impl; [apply (enumerate_from_bounds 0 markers)|].
  intros p Hp. simpl in Hp. lia.
Qed.

Lemma marked_samples_sorted (empty : Z) (markers : list Z) :
  StronglySorted (fun p q => fst p < fst q) (marked_samples empty markers).
Proof. apply filter_StronglySorted, enumerate_from_sorted. Qed.

Lemma marked_samples_nil (empty : Z) (markers : list Z) :
  Forall (fun v => v = empty) markers -> marked_samples empty markers = [].
Proof.
  unfold marked_samples, enumerate. generalize 0.
  induction markers as [|v vs IH]; intros k H; [reflexivity|].
  inversion H; subst. simpl. rewrite is_marked_empty. apply IH. assumption.
Qed.

Lemma marked_samples_In (empty : Z) (markers : list Z) (v : Z) :
  In v markers -> v <> empty -> marked_samples empty markers <> [].
Proof.
  intros Hin Hv Hnil. destruct (In_enumerate markers v Hin) as [i Hi].
  assert (H : In (i, v) (marked_samples empty markers)).
  { apply List.filter_In. split; [exact Hi | apply is_marked_other; exact Hv]. }
  rewrite Hnil in H. destruct H.
Qed.

Section MarkersCalls.

Variable self : MarkersTransformer.

Let d := decimation_factor self.
Let mapping := labels_mapping self.
Let empty := empty_label self.

(** What the inner loop has appended when it returns. *)
Lemma markers_loop_inv (items : list (Z * Z)) (acc r : list (Z * pyobj)) :
  markers_loop self items acc = Ok r ->
  exists evs,
    r = acc ++ evs /\
    Forall2 (fun ev s => fst ev = fst s / d /\ mapping !! snd s = Some (snd ev))
            evs (List.filter (is_marked empty) items) /\
    (List.filter (is_marked empty) items = [] \/ d <> 0).
Proof.
  revert acc. induction items as [|[i v] rest IH]; intros acc H; simpl in H.
  - inversion H; subst. exists []. rewrite app_nil_r.
    repeat split; [constructor | left; reflexivity].
  - cbn [List.filter]. fold empty in H.
    destruct (decide (v = empty)) as [->|Hv].
    + rewrite is_marked_empty. apply IH. exact H.
    + rewrite (is_marked_other _ _ _ Hv).
      unfold floordiv in H. fold d in H. destruct (decide (d = 0)) as [|Hd]; [discriminate|].
      simpl in H. unfold getitem in H. fold mapping in H.
      destruct (mapping !! v) as [l|] eqn:Hl; [|discriminate]. simpl in H.
      destruct (IH _ H) as (evs & -> & Hall & _).
      exists ((i / d, l) :: evs). split; [rewrite <- app_assoc; reflexivity|].
      split; [constructor; [split; [reflexivity | exact Hl] | exact Hall] | right; exact Hd].
Qed.

(** The inner loop returns whenever every marked sample has a label and the
    divisor is not zero (or nothing is marked). *)
Lemma markers_loop_complete (items : list (Z * Z)) (acc evs : list (Z * pyobj)) :
  (List.filter (is_marked empty) items = [] \/ d <> 0) ->
  Forall2 (fun ev s => fst ev = fst s / d /\ mapping !! snd s = Some (snd ev))
          evs (List.filter (is_marked empty) items) ->
  markers_loop self items acc = Ok (acc ++ evs).
Proof.
  revert acc evs. induction items as [|[i v] rest IH]; intros acc evs Hd Hall.
  - simpl in Hall. inversion Hall; subst. simpl. rewrite app_nil_r. reflexivity.
  - cbn [List.filter] in Hd, Hall. simpl. fold empty.
    destruct (decide (v = empty)) as [->|Hv].
    + rewrite is_marked_empty in Hd, Hall. apply IH; assumption.
    + rewrite (is_marked_other _ _ _ Hv) in Hd, Hall.
      destruct Hd as [Hd|Hd]; [discriminate|].
      inversion Hall as [|[j l] s evs' ss [Hj Hl] Hrest]; subst. simpl in Hj, Hl.
      unfold floordiv. fold d. destruct (decide (d = 0)) as [|_]; [contradiction|].
      simpl. unfold getitem. fold mapping. rewrite Hl. simpl.
      rewrite (IH (acc ++ [(i / d, l)]) evs'); [|right; exact Hd | exact Hrest].
      rewrite <- app_assoc. subst j. reflexivity.
Qed.

(** With a zero divisor the first marked sample stops the loop, before its
    label is looked up. *)
Lemma markers_loop_zero (items : list (Z * Z)) (acc : list (Z * pyobj)) :
  d = 0 -> List.filter (is_marked empty) items <> [] ->
  markers_loop self items acc = Raise ZeroDivisionError.
Proof.
  intros Hd. induction items as [|[i v] rest IH]; intros Hne; [contradiction|].
  cbn [List.filter] in Hne. simpl. fold empty.
  destruct (decide (v = empty)) as [->|Hv].
  - rewrite is_marked_empty in Hne. apply IH. exact Hne.
  - unfold floordiv. fold d. destruct (decide (d = 0)); [reflexivity | contradiction].
Qed.

Lemma np_array_int_iff (evs : list (Z * pyobj)) (arr : list (Z * Z)) :
  np_array_int evs = Ok arr <->
  Forall2 (fun a ev => fst a = fst ev /\ as_np_int (snd ev) = Ok (snd a)) arr evs.
Proof.
  unfold np_array_int. split.
  - intros H. apply comprehension_Ok_Forall2 in H.
    eapply Forall2_impl; [exact H|]. intros [i l] [j o]. simpl.
    destruct (as_np_int o) as [l'|e]; simpl; [|discriminate]. intros [= <- <-]. auto.
  - intros H. apply comprehension_Forall2_Ok.
    eapply Forall2_impl; [exact H|]. intros [i l] [j o] [Hi Ho]. simpl in *.
    rewrite Ho. simpl. subst. reflexivity.
Qed.

(** One record: the array that comes back, and when one comes back. *)
Lemma markers_record_iff (markers : list Z) (arr : list (Z * Z)) :
  markers_record self markers = Ok arr <->
  Forall2 (converted_from self) arr (marked_samples empty markers) /\
  (marked_samples empty markers = [] \/ d <> 0).
Proof.
  unfold markers_record, marked_samples. split.
  - intros H.
    destruct (markers_loop self (enumerate markers) []) as [evs|e] eqn:Hloop; [|discriminate].
    simpl in H. apply markers_loop_inv in Hloop as (evs' & -> & Hall & Hd). simpl in H.
    apply np_array_int_iff in H. split; [|exact Hd].
    eapply Forall2_trans; [|exact H|exact Hall].
    intros a ev s [Ha Ho] [Hi Hl]. split; [rewrite Ha; exact Hi|].
    exists (snd ev). split; assumption.
  - intros [Hall Hd].
    assert (Hevs : exists evs,
               Forall2 (fun ev s => fst ev = fst s / d /\ mapping !! snd s = Some (snd ev))
                       evs (List.filter (is_marked empty) (enumerate markers)) /\
               Forall2 (fun a ev => fst a = fst ev /\ as_np_int (snd ev) = Ok (snd a)) arr evs).
    { clear Hd. induction Hall as [|a s arr ss [Hi (o & Ho & Hc)] _ (evs & H1 & H2)].
      - exists []. split; constructor.
      - exists ((fst a, o) :: evs). split; constructor; auto. }
    destruct Hevs as (evs & H1 & H2).
    rewrite (markers_loop_complete (enumerate markers) [] evs Hd H1). simpl.
    apply np_array_int_iff. exact H2.
Qed.

Lemma markers_record_zero (markers : list Z) :
  d = 0 -> marked_samples empty markers <> [] ->
  markers_record self markers = Raise ZeroDivisionError.
Proof.
  intros Hd Hne. unfold markers_record.
  rewrite (markers_loop_zero (enumerate markers) [] Hd Hne). reflexivity.
Qed.

(** The outer loop is a comprehension over the records. *)
Lemma markers_batch_loop_comprehension (batch : list (list Z)) (res : list (list (Z * Z))) :
  markers_batch_loop self batch res
  = (out ← comprehension (markers_record self) batch; Ok (res ++ out)).
Proof.
  revert res. induction batch as [|markers rest IH]; intros res; simpl.
  - rewrite app_nil_r. reflexivity.
  - destruct (markers_record self markers) as [arr|e]; simpl; [|reflexivity].
    rewrite IH.
    destruct (comprehension (markers_record self) rest) as [out|e]; simpl; [|reflexivity].
    rewrite <- app_assoc. reflexivity.
Qed.

Lemma MarkersTransformer_transform_comprehension (batch : list (list Z)) :
  MarkersTransformer_transform self batch
  = (self, comprehension (markers_record self) batch).
Proof.
  unfold MarkersTransformer_transform. rewrite markers_batch_loop_comprehension.
  destruct (comprehension (markers_record self) batch); reflexivity.
Qed.

End MarkersCalls.

(** With integer labels, NumPy makes of a label the label itself, when it
    fits. *)
Lemma converted_from_int (self : MarkersTransformer) (ev sample : Z * Z) :
  int_valued (labels_mapping self) ->
  converted_from self ev sample <-> event_of self ev sample /\ in_int64 (snd ev) = true.
Proof.
  intros Hint. unfold converted_from, event_of. split.
  - intros (Hi & o & Ho & Hc). destruct (Hint _ _ Ho) as (l & ->). simpl in Hc.
    destruct (in_int64 l) eqn:Hl; [|discriminate]. injection Hc as <-. auto.
  - intros ((Hi & Ho) & Hl). split; [exact Hi|].
    exists (PyInt (snd ev)). split; [exact Ho|]. simpl. rewrite Hl. reflexivity.
Qed.

Lemma MarkersTransformer_transform_converted (self : MarkersTransformer)
    (batch : list (list Z)) (out : list (list (Z * Z))) :
  MarkersTransformer_transform self batch = (self, Ok out) <->
  Forall2 (fun arr markers =>
             Forall2 (converted_from self) arr (marked_samples (empty_label self) markers) /\
             (marked_samples (empty_label self) markers = [] \/ decimation_factor self <> 0))
          out batch.
Proof.
  rewrite MarkersTransformer_transform_comprehension. split.
  - intros [= H]. apply comprehension_Ok_Forall2 in H.
    eapply Forall2_impl; [exact H|]. intros arr markers Hm.
    apply markers_record_iff. exact Hm.
  - intros H. f_equal. apply comprehension_Forall2_Ok.
    eapply Forall2_impl; [exact H|]. intros arr markers Hm.
    apply markers_record_iff. exact Hm.
Qed.

(** For a mapping whose labels are Python integers, [transform] returns
    exactly when, record by record, every marked sample has an event: its
    index is the floor quotient of the position by the decimation factor, its
    label is the integer the mapping holds for the sample, that integer fits
    NumPy's 64-bit integer, and the factor is not zero unless the record has
    no marked sample.  Nothing else is ever returned: no event is dropped,
    added or moved. *)
Theorem MarkersTransformer_transform_returns_iff (self : MarkersTransformer)
    (batch : list (list Z)) (out : list (list (Z * Z))) :
  int_valued (labels_mapping self) ->
  (MarkersTransformer_transform self batch = (self, Ok out) <->
   Forall2 (fun arr markers =>
              Forall2 (fun ev sample => event_of self ev sample /\ in_int64 (snd ev) = true)
                      arr (marked_samples (empty_label self) markers) /\
              (marked_samples (empty_label self) markers = [] \/ decimation_factor self <> 0))
           out batch).
Proof.
  intros Hint. rewrite MarkersTransformer_transform_converted.
  split; intros H; (eapply Forall2_impl; [exact H|]);
    intros arr markers [Hall Hd]; (split; [|exact Hd]);
    (eapply Forall2_impl; [exact Hall|]); intros ev sample Hev;
    apply (converted_from_int self ev sample Hint); exact Hev.
Qed.

Lemma MarkersTransformer_transform_returns_iff_witness :
  let self := {| labels_mapping := <[2 := PyInt (-3)]> (<[1 := PyInt 7]> ∅);
                 decimation_factor := 2; empty_label := 0 |} in
  let batch := [[0; 0; 0; 2; 1]; []] in
  let out := [[(1, -3); (2, 7)]; []] in
  int_valued (labels_mapping self) /\
  (MarkersTransformer_transform self batch = (self, Ok out) <->
   Forall2 (fun arr markers =>
              Forall2 (fun ev sample => event_of self ev sample /\ in_int64 (snd ev) = true)
                      arr (marked_samples (empty_label self) markers) /\
              (marked_samples (empty_label self) markers = [] \/ decimation_factor self <> 0))
           out batch).
Proof.
  intros self batch out.
  assert (Hint : int_valued (labels_mapping self)).
  { intros key o H. simpl in H.
    apply lookup_insert_Some in H as [[_ <-]|[_ H]]; [eexists; reflexivity|].
    apply lookup_insert_Some in H as [[_ <-]|[_ H]]; [eexists; reflexivity|].
    rewrite lookup_empty in H. discriminate. }
  split; [exact Hint|].
  exact (MarkersTransformer_transform_returns_iff self batch out Hint).
Defined.

(** A label given as the text of a number comes back as that number. *)
Example MarkersTransformer_numeric_text_example :
  snd (MarkersTransformer_transform
         {| labels_mapping := <[2 := PyStr "7"]> (<[1 := PyStr "-3"]> ∅);
            decimation_factor := 2; empty_label := 0 |}
         [[0; 0; 0; 2; 1]; []])
  = Ok [[(1, 7); (2, -3)]; []].
Proof. vm_compute. reflexivity. Qed.

(** The records of a batch are handled one after the other and independently:
    the result for two batches glued together is the two results glued
    together, and the first exception wins. *)
Theorem MarkersTransformer_transform_app (self : MarkersTransformer)
    (b1 b2 : list (list Z)) :
  snd (MarkersTransformer_transform self (b1 ++ b2))
  = (o1 ← snd (MarkersTransformer_transform self b1);
     o2 ← snd (MarkersTransformer_transform self b2);
     Ok (o1 ++ o2)).
Proof.
  rewrite !MarkersTransformer_transform_comprehension. simpl. apply comprehension_app.
Qed.

(** A batch without any marked sample (empty records included, and the
    empty batch) gives one empty array per record, whatever the mapping and
    the decimation factor are: nothing is divided and nothing is looked up. *)
Theorem MarkersTransformer_unmarked_batch (self : MarkersTransformer)
    (batch : list (list Z)) :
  Forall (Forall (fun v => v = empty_label self)) batch ->
  MarkersTransformer_transform self batch = (self, Ok (map (fun _ => []) batch)).
Proof.
  intros H. rewrite MarkersTransformer_transform_comprehension. f_equal.
  apply comprehension_Forall2_Ok.
  induction H as [|markers batch Hm _ IH]; simpl; constructor; [|exact IH].
  apply markers_record_iff. rewrite (marked_samples_nil _ _ Hm).
  split; [constructor | left; reflexivity].
Qed.

Lemma MarkersTransformer_unmarked_batch_witness :
  let self := {| labels_mapping := ∅; decimation_factor := 0; empty_label := 0 |} in
  let batch := [[0; 0; 0]; []] in
  Forall (Forall (fun v => v = empty_label self)) batch /\
  MarkersTransformer_transform self batch = (self, Ok [[]; []]).
Proof.
  intros self batch.
  assert (H : Forall (Forall (fun v => v = empty_label self)) batch).
  { apply List.Forall_cons; [|apply List.Forall_cons; [|apply List.Forall_nil]].
    - repeat (apply List.Forall_cons; [reflexivity|]). apply List.Forall_nil.
    - apply List.Forall_nil. }
  split; [exact H|].
  exact (MarkersTransformer_unmarked_batch self batch H).
Defined.

(** With a decimation factor of zero, a batch that holds a marked sample
    makes [transform] raise [ZeroDivisionError]: the index is divided before
    the label is looked up, so not even a sample without a label gets to
    raise its [KeyError]. *)
Theorem MarkersTransformer_zero_factor (self : MarkersTransformer)
    (batch : list (list Z)) :
  decimation_factor self = 0 ->
  Exists (has_marked self) batch ->
  MarkersTransformer_transform self batch = (self, Raise ZeroDivisionError).
Proof.
  intros Hd Hex. rewrite MarkersTransformer_transform_comprehension. f_equal.
  apply comprehension_raises.
  - apply Forall_forall. intros markers _.
    destruct (marked_samples (empty_label self) markers) as [|s ss] eqn:Hs.
    + left. exists []. apply markers_record_iff. rewrite Hs.
      split; [constructor | left; reflexivity].
    + right. apply markers_record_zero; [exact Hd|]. rewrite Hs. discriminate.
  - eapply Exists_impl; [exact Hex|]. intros markers (v & Hin & Hv).
    apply markers_record_zero; [exact Hd|].
    eapply marked_samples_In; eassumption.
Qed.

Lemma MarkersTransformer_zero_factor_witness :
  let self := {| labels_mapping := ∅; decimation_factor := 0; empty_label := 0 |} in
  let batch := [[0; 0]; [0; 5]] in
  decimation_factor self = 0 /\
  Exists (has_marked self) batch /\
  MarkersTransformer_transform self batch = (self, Raise ZeroDivisionError).
Proof.
  intros self batch.
  assert (Hd : decimation_factor self = 0) by reflexivity.
  assert (Hex : Exists (has_marked self) batch).
  { apply Exists_cons_tl, Exists_cons_hd. exists 5.
    split; [right; left; reflexivity | discriminate]. }
  split; [exact Hd|]. split; [exact Hex|].
  exact (MarkersTransformer_zero_factor self batch Hd Hex).
Defined.

(** For a decimation factor of at least one, the events of every returned
    record are ordered by index (several events may share an index), no index
    is negative, and with a factor of one the indices strictly increase. *)
Theorem MarkersTransformer_indices_sorted (self : MarkersTransformer)
    (batch : list (list Z)) (out : list (list (Z * Z))) :
  1 <= decimation_factor self ->
  MarkersTransformer_transform self batch = (self, Ok out) ->
  Forall (fun arr =>
            StronglySorted (fun ev1 ev2 => fst ev1 <= fst ev2) arr /\
            Forall (fun ev => 0 <= fst ev) arr /\
            (decimation_factor self = 1 ->
             StronglySorted (fun ev1 ev2 => fst ev1 < fst ev2) arr)) out.
Proof.
  intros Hd H. rewrite MarkersTransformer_transform_comprehension in H.
  injection H as H. apply comprehension_Ok_Forall2 in H.
  eapply Forall2_Forall_l; [exact H|]. apply Forall_forall. intros markers _ arr Hrec.
  apply markers_record_iff in Hrec as [Hall _]. split; [|split].
  - eapply Forall2_StronglySorted; [|exact Hall|apply marked_samples_sorted].
    intros a b s t [Ha _] [Hb _] Hst. rewrite Ha, Hb.
    apply Z.div_le_mono; lia.
  - eapply Forall2_Forall_l; [exact Hall|].
    eapply Forall_impl; [apply marked_samples_bounds|].
    intros s Hs a [Ha _]. simpl in Hs. rewrite Ha. apply Z.div_pos; lia.
  - intros H1. eapply Forall2_StronglySorted; [|exact Hall|apply marked_samples_sorted].
    intros a b s t [Ha _] [Hb _] Hst. rewrite Ha, Hb, H1, !Z.div_1_r. exact Hst.
Qed.

Lemma MarkersTransformer_indices_sorted_witness :
  let self := {| labels_mapping := <[2 := PyInt 10]> (<[1 := PyInt 20]> ∅);
                 decimation_factor := 2; empty_label := 0 |} in
  let batch := [[0; 0; 2; 1; 1; 0]] in
  let out := [[(1, 10); (1, 20); (2, 20)]] in
  1 <= decimation_factor self /\
  MarkersTransformer_transform self batch = (self, Ok out) /\
  Forall (fun arr =>
            StronglySorted (fun ev1 ev2 => fst ev1 <= fst ev2) arr /\
            Forall (fun ev => 0 <= fst ev) arr /\
            (decimation_factor self = 1 ->
             StronglySorted (fun ev1 ev2 => fst ev1 < fst ev2) arr)) out.
Proof.
  intros self batch out.
  assert (Hd : 1 <= decimation_factor self) by (simpl; lia).
  assert (H : MarkersTransformer_transform self batch = (self, Ok out))
    by (vm_compute; reflexivity).
  split; [exact Hd|]. split; [exact H|].
  exact (MarkersTransformer_indices_sorted self batch out Hd H).
Defined.

(** A transformer constructed with the defaults ([decimation_factor=1],
    [empty_label=0.0]) reports every event at the position of its sample: the
    indices of a returned record are the positions of the samples that are
    not zero, in order. *)
Theorem MarkersTransformer_default_positions (mapping : gmap Z pyobj)
    (batch : list (list Z)) (out : list (list (Z * Z))) :
  snd (MarkersTransformer_transform (MarkersTransformer_init mapping None None) batch)
  = Ok out ->
  Forall2 (fun arr markers => map fst arr = map fst (marked_samples 0 markers)) out batch.
Proof.
  rewrite MarkersTransformer_transform_comprehension. simpl. intros H.
  apply comprehension_Ok_Forall2 in H.
  eapply Forall2_impl; [exact H|]. intros arr markers Hrec.
  apply markers_record_iff in Hrec as [Hall _]. simpl in Hall.
  induction Hall as [|a s arr ss [Ha _] _ IH]; simpl; [reflexivity|].
  simpl in Ha. rewrite Z.div_1_r in Ha. rewrite Ha, IH. reflexivity.
Qed.

Lemma MarkersTransformer_default_positions_witness :
  let mapping : gmap Z pyobj := <[2 := PyInt 10]> (<[1 := PyInt 20]> ∅) in
  let batch := [[0; 0; 2; 0; 1; 0]; [1]] in
  let out := [[(2, 10); (4, 20)]; [(0, 20)]] in
  snd (MarkersTransformer_transform (MarkersTransformer_init mapping None None) batch)
  = Ok out /\
  Forall2 (fun arr markers => map fst arr = map fst (marked_samples 0 markers)) out batch.
Proof.
  intros mapping batch out.
  assert (H : snd (MarkersTransformer_transform
                     (MarkersTransformer_init mapping None None) batch) = Ok out)
    by (vm_compute; reflexivity).
  split; [exact H|].
  exact (MarkersTransformer_default_positions mapping batch out H).
Defined.

Lemma map_snd_enumerate_from {A} (k : Z) (xs : list A) :
  map snd (enumerate_from k xs) = xs.
Proof.
  revert k. induction xs as [|x xs IH]; intros k; simpl; [reflexivity|].
  rewrite IH. reflexivity.
Qed.

(** With a non-zero divisor the inner loop stops at the first marked sample
    without a label, whatever the labels before it are. *)
Lemma markers_loop_first_unmapped (self : MarkersTransformer) (items : list (Z * Z))
    (acc : list (Z * pyobj)) (k : Z) :
  decimation_factor self <> 0 ->
  first_unmapped self (map snd items) = Some k ->
  markers_loop self items acc = Raise (KeyError k).
Proof.
  intros Hd. revert acc. unfold first_unmapped.
  induction items as [|[i v] rest IH]; intros acc Hk; [discriminate|].
  simpl in Hk. simpl.
  destruct (decide (v = empty_label self)) as [->|Hv].
  - rewrite Z.eqb_refl in Hk. simpl in Hk. apply IH. exact Hk.
  - apply Z.eqb_neq in Hv. rewrite Hv in Hk. simpl in Hk.
    unfold floordiv. destruct (decide (decimation_factor self = 0)); [contradiction|].
    simpl. unfold getitem.
    destruct (labels_mapping self !! v) as [l|]; simpl.
    + apply IH. exact Hk.
    + injection Hk as <-. reflexivity.
Qed.

(** A missing label is reported before any label is converted.  When the
    decimation factor is not zero and the records before are fine, a record
    whose first marked sample without a label is [k] makes [transform] raise
    [KeyError k]: also when earlier samples of that record carry labels that
    NumPy could not have converted, and whatever the later samples and
    records are. *)
Theorem MarkersTransformer_missing_label_first (self : MarkersTransformer)
    (good : list (list Z)) (markers : list Z) (rest : list (list Z)) (k : Z) :
  decimation_factor self <> 0 ->
  is_Ok (snd (MarkersTransformer_transform self good)) ->
  first_unmapped self markers = Some k ->
  MarkersTransformer_transform self (good ++ markers :: rest) = (self, Raise (KeyError k)).
Proof.
  intros Hd [out Hgood] Hk.
  rewrite MarkersTransformer_transform_comprehension in Hgood |- *. simpl in Hgood.
  f_equal. rewrite comprehension_app, Hgood. simpl.
  unfold markers_record, enumerate.
  rewrite (markers_loop_first_unmapped self _ [] k Hd); [reflexivity|].
  rewrite map_snd_enumerate_from. exact Hk.
Qed.

Lemma MarkersTransformer_missing_label_first_witness :
  let self := {| labels_mapping := <[2 := PyStr "A"]> ∅;
                 decimation_factor := 1; empty_label := 0 |} in
  decimation_factor self <> 0 /\
  is_Ok (snd (MarkersTransformer_transform self [[0; 0]])) /\
  first_unmapped self [0; 2; 3; 4] = Some 3 /\
  MarkersTransformer_transform self ([[0; 0]] ++ [0; 2; 3; 4] :: [[2]])
  = (self, Raise (KeyError 3)).
Proof.
  intros self.
  assert (Hd : decimation_factor self <> 0) by discriminate.
  assert (Hgood : is_Ok (snd (MarkersTransformer_transform self [[0; 0]])))
    by (exists [[]]; vm_compute; reflexivity).
  assert (Hk : first_unmapped self [0; 2; 3; 4] = Some 3) by (vm_compute; reflexivity).
  split; [exact Hd|]. split; [exact Hgood|]. split; [exact Hk|].
  exact (MarkersTransformer_missing_label_first self [[0; 0]] [0; 2; 3; 4] [[2]] 3
           Hd Hgood Hk).
Defined.

(* ===================================================================== *)
(** * Part 18.  ButterFilter and Decimator: outcomes of a call            *)
(* ===================================================================== *)

Lemma float_truediv_fits (a n : Q) :
  fits_float a -> float_truediv a n = truediv a n.
Proof.
  unfold fits_float, float_truediv. intros H.
  destruct (Qle_bool _ (Qabs a)) eqn:E; [|reflexivity].
  apply Qle_bool_iff in E. exfalso. exact (Qlt_not_le _ _ H E).
Qed.

Lemma float_truediv_overflow (a n : Q) :
  ~ fits_float a -> float_truediv a n = Raise OverflowError.
Proof.
  unfold fits_float, float_truediv. intros H.
  destruct (Qle_bool _ (Qabs a)) eqn:E; [reflexivity|].
  exfalso. apply H. apply Qnot_le_lt. intros Hle.
  apply Qle_bool_iff in Hle. congruence.
Qed.

Lemma butter_in_range {S : SciPySignal} (CB : ButterContract S)
    (N : Z) (w0 w1 : Q) (ba : coeffs) :
  butter N (w0, w1) = Ok ba -> ((0 < w0 /\ w0 < 1) /\ (0 < w1 /\ w1 < 1))%Q.
Proof.
  intros H.
  destruct (Qlt_le_dec 0 w0) as [A|A], (Qlt_le_dec w0 1) as [B|B],
           (Qlt_le_dec 0 w1) as [C|C], (Qlt_le_dec w1 1) as [D|D];
    try (split; split; assumption);
    (rewrite (butter_range S CB) in H; [discriminate|]);
    intros [[A' B'] [C' D']];
    first [exact (Qlt_not_le _ _ A' A) | exact (Qlt_not_le _ _ B' B)
          | exact (Qlt_not_le _ _ C' C) | exact (Qlt_not_le _ _ D' D)].
Qed.

Lemma normalise_in_unit (x n : Q) :
  (0 < n)%Q -> (0 < x / n /\ x / n < 1)%Q -> (0 < x /\ x < n)%Q.
Proof.
  intros Hn [H0 H1]. split.
  - apply Qnot_le_lt. intros Hx.
    pose proof (Qlt_le_trans _ _ _ H0 (normalise_le x 0 n Hn Hx)) as Habs.
    unfold Qlt, Qdiv, Qmult in Habs. simpl in Habs. lia.
  - apply Qnot_le_lt. intros Hx. apply (Qlt_not_le _ _ H1).
    apply normalise_ge_1; assumption.
Qed.

(** The outcomes of the constructor of [ButterFilter], which checks nothing
    itself.  A sampling rate too large for a float raises [OverflowError],
    and so does a cutoff too large for a float when its turn comes; a
    sampling rate of 0 raises [ZeroDivisionError] at the first division; for
    a positive sampling rate, a cutoff that is not strictly between 0 and
    half the sampling rate makes the design routine raise [ValueError].
    When an object is built, it holds the four arguments and the design
    [butter] returned for the cutoffs divided by half the sampling rate, the
    sampling rate is not 0, and for a positive sampling rate both cutoffs lie
    strictly between 0 and half of it. *)
Theorem ButterFilter_init_outcomes {S : SciPySignal} (CB : ButterContract S)
    (sr ord : Z) (hp lp : Q) :
  let n := nyquist sr in
  let init := ButterFilter_init sr ord hp lp in
  (float_int_limit <= Z.abs sr -> init = Raise OverflowError) /\
  (Z.abs sr < float_int_limit -> ~ fits_float hp ->
   init = Raise OverflowError) /\
  (sr = 0 -> fits_float hp -> init = Raise ZeroDivisionError) /\
  (sr <> 0 -> Z.abs sr < float_int_limit ->
   fits_float hp -> ~ fits_float lp -> init = Raise OverflowError) /\
  (0 < sr < float_int_limit -> fits_float hp -> fits_float lp ->
   ~ ((0 < hp /\ hp < n) /\ (0 < lp /\ lp < n))%Q ->
   init = Raise ValueError) /\
  (forall self, init = Ok self ->
     (sampling_rate self = sr /\ order self = ord /\
      highpass self = hp /\ lowpass self = lp) /\
     butter ord (hp / n, lp / n)%Q = Ok (filter self) /\
     sr <> 0 /\ Z.abs sr < float_int_limit /\
     fits_float hp /\ fits_float lp /\
     (0 < sr ->
      (0 < hp /\ hp < n)%Q /\ (0 < lp /\ lp < n)%Q)).
Proof.
  intros n init. subst n init.
  assert (Hbig : float_int_limit <= Z.abs sr ->
                 half_rate sr = Raise OverflowError).
  { intros H. unfold half_rate.
    destruct (Z.abs sr <? float_int_limit) eqn:E; [|reflexivity].
    apply Z.ltb_lt in E. lia. }
  assert (Hsmall : Z.abs sr < float_int_limit ->
                   half_rate sr = Ok (nyquist sr)).
  { intros H. unfold half_rate.
    destruct (Z.abs sr <? float_int_limit) eqn:E; [reflexivity|].
    apply Z.ltb_ge in E. lia. }
  split; [|split; [|split; [|split; [|split]]]].
  - intros H. unfold ButterFilter_init. rewrite (Hbig H). reflexivity.
  - intros H Hhp. unfold ButterFilter_init. rewrite (Hsmall H). simpl.
    rewrite (float_truediv_overflow _ _ Hhp). reflexivity.
  - intros -> Hhp. unfold ButterFilter_init. simpl.
    rewrite (float_truediv_fits _ _ Hhp). reflexivity.
  - intros Hnz H Hhp Hlp. unfold ButterFilter_init. rewrite (Hsmall H). simpl.
    rewrite (float_truediv_fits _ _ Hhp), (truediv_nyquist _ _ Hnz). simpl.
    rewrite (float_truediv_overflow _ _ Hlp). reflexivity.
  - intros [Hpos H] Hhp Hlp Hbad. unfold ButterFilter_init.
    rewrite (Hsmall ltac:(lia)). simpl.
    rewrite (float_truediv_fits _ _ Hhp), (truediv_nyquist hp sr) by lia.
    simpl.
    rewrite (float_truediv_fits _ _ Hlp), (truediv_nyquist lp sr) by lia.
    simpl. rewrite (butter_range S CB); [reflexivity|].
    intros [H0 H1]. apply Hbad. pose proof (nyquist_pos sr Hpos) as Hn.
    split; apply normalise_in_unit; assumption.
  - intros self Hself.
    destruct (ButterFilter_init_Ok sr ord hp lp self Hself)
      as (Hnz & Hb & Hfields).
    assert (Hlim : Z.abs sr < float_int_limit).
    { destruct (Z_lt_le_dec (Z.abs sr) float_int_limit) as [Hlt|Hge];
        [exact Hlt|].
      unfold ButterFilter_init in Hself. rewrite (Hbig Hge) in Hself. discriminate. }
    assert (Hhp : fits_float hp).
    { apply Qnot_le_lt. intros Hle.
      unfold ButterFilter_init in Hself. rewrite (Hsmall Hlim) in Hself. simpl in Hself.
      rewrite (float_truediv_overflow hp) in Hself; [simpl in Hself; discriminate|].
      intros Hfit. exact (Qlt_not_le _ _ Hfit Hle). }
    assert (Hlp : fits_float lp).
    { apply Qnot_le_lt. intros Hle.
      unfold ButterFilter_init in Hself. rewrite (Hsmall Hlim) in Hself. simpl in Hself.
      rewrite (float_truediv_fits _ _ Hhp), (truediv_nyquist _ _ Hnz) in Hself.
      simpl in Hself.
      rewrite (float_truediv_overflow lp) in Hself; [simpl in Hself; discriminate|].
      intros Hfit. exact (Qlt_not_le _ _ Hfit Hle). }
    split; [tauto|]. split; [exact Hb|]. split; [exact Hnz|]. split; [exact Hlim|].
    split; [exact Hhp|]. split; [exact Hlp|].
    intros Hpos. pose proof (nyquist_pos sr Hpos) as Hn.
    destruct (butter_in_range CB _ _ _ _ Hb) as [H0 H1].
    split; apply normalise_in_unit; assumption.
Qed.

Lemma ButterFilter_init_outcomes_witness :
  ButterContract ref_signal /\
  ButterFilter_init (S := ref_signal) (2 ^ 1024) 4 1 40 = Raise OverflowError /\
  ButterFilter_init (S := ref_signal) 0 4 1 40 = Raise ZeroDivisionError /\
  ButterFilter_init (S := ref_signal) 250 4 1 200 = Raise ValueError /\
  forall self, ButterFilter_init (S := ref_signal) 250 4 1 40 = Ok self ->
    butter (SciPySignal := ref_signal) 4 (1 / nyquist 250, 40 / nyquist 250)%Q
    = Ok (filter self).
Proof.
  assert (Hfit : forall z : Z, Z.abs z < float_int_limit -> fits_float (inject_Z z)).
  { intros z Hz. unfold fits_float, Qlt. simpl. rewrite !Z.mul_1_r. exact Hz. }
  assert (H1 : fits_float 1) by (apply (Hfit 1); vm_compute; reflexivity).
  assert (H200 : fits_float 200) by (apply (Hfit 200); vm_compute; reflexivity).
  split; [exact ref_butter_contract|]. split; [|split; [|split]].
  - pose proof (ButterFilter_init_outcomes ref_butter_contract (2 ^ 1024) 4 1 40) as H.
    cbv zeta in H. destruct H as (H & _). apply H. vm_compute. discriminate.
  - pose proof (ButterFilter_init_outcomes ref_butter_contract 0 4 1 40) as H.
    cbv zeta in H. destruct H as (_ & _ & H & _). exact (H eq_refl H1).
  - pose proof (ButterFilter_init_outcomes ref_butter_contract 250 4 1 200) as H.
    cbv zeta in H. destruct H as (_ & _ & _ & _ & H & _).
    apply H; [split; vm_compute; reflexivity | exact H1 | exact H200 |].
    intros [_ [_ Hlt]]. vm_compute in Hlt. discriminate.
  - intros self Hself.
    pose proof (ButterFilter_init_outcomes ref_butter_contract 250 4 1 40) as H.
    cbv zeta in H. destruct H as (_ & _ & _ & _ & _ & H).
    exact (proj1 (proj2 (H self Hself))).
Defined.

(** Both outcomes of [ButterFilter.transform] for a designed filter of order
    [N]: it returns when every record is longer than [3 * (2 * N + 1)]
    samples and the batch is not a 2-D array without records but with
    columns; in every other case it raises [ValueError], and no partial
    result comes back. *)
Theorem ButterFilter_transform_outcomes {S : SciPySignal}
    (CB : ButterContract S) (CF : FiltfiltContract S)
    (self : ButterFilter) (N : Z) (Wn : Q * Q) (batch : batch1d) :
  butter N Wn = Ok (filter self) -> wf_batch1d batch ->
  (Forall (fun item => 3 * (2 * N + 1) < Z.of_nat (length (data1 item)))
          (iter_batch1d batch) /\ assignable batch ->
   is_Ok (snd (ButterFilter_transform self batch))) /\
  (~ (Forall (fun item => 3 * (2 * N + 1) < Z.of_nat (length (data1 item)))
             (iter_batch1d batch) /\ assignable batch) ->
   snd (ButterFilter_transform self batch) = Raise ValueError).
Proof.
  intros Hb Hwf. split.
  - intros [Hlong Has]. destruct batch as [a|items].
    + destruct (rows2 a) as [|row rows] eqn:Hrows.
      * simpl in Has. rewrite Hrows in Has. destruct Has as [Has|Hc]; [contradiction|].
        unfold ButterFilter_transform. simpl. unfold iter2. rewrite Hrows. simpl.
        rewrite Hc. simpl. eexists. reflexivity.
      * destruct (ButterFilter_transform_designed CB CF self N Wn (Batch2D a) Hb Hwf)
          as (values & _ & _ & Heq); [simpl; rewrite Hrows; discriminate | exact Hlong |].
        rewrite Heq. eexists. reflexivity.
    + destruct (ButterFilter_transform_designed CB CF self N Wn (BatchObj items) Hb Hwf)
        as (values & _ & _ & Heq); [exact I | exact Hlong |].
      rewrite Heq. eexists. reflexivity.
  - intros Hnot.
    destruct (decide (Forall (fun item => 3 * (2 * N + 1) < Z.of_nat (length (data1 item)))
                             (iter_batch1d batch))) as [Hlong|Hshort].
    + destruct batch as [a|items]; [|exfalso; apply Hnot; split; [exact Hlong | exact I]].
      destruct (rows2 a) as [|row rows] eqn:Hrows.
      * unfold ButterFilter_transform. simpl. unfold iter2. rewrite Hrows. simpl.
        destruct (decide (ncols2 a = 0%nat)) as [Hc|Hc]; [|reflexivity].
        exfalso. apply Hnot. split; [exact Hlong | right; exact Hc].
      * exfalso. apply Hnot. split; [exact Hlong|]. left. simpl. rewrite Hrows. discriminate.
    + apply not_Forall_Exists in Hshort; [|apply _].
      pose proof (padlen_designed CB N Wn (filter self) Hb) as Hpad.
      unfold ButterFilter_transform. simpl.
      rewrite (comprehension_raises _ ValueError); [reflexivity | |].
      * apply Forall_forall. intros item _.
        destruct (decide (3 * (2 * N + 1) < Z.of_nat (length (data1 item)))) as [Hl|Hs].
        -- left. apply (filtfilt_long S CF N Wn); [exact Hb | lia].
        -- right. apply (filtfilt_short S CF). lia.
      * eapply Exists_impl; [exact Hshort|]. intros item Hs. simpl in Hs.
        apply (filtfilt_short S CF). lia.
Qed.

Lemma ButterFilter_transform_outcomes_witness :
  let self := {| sampling_rate := 250; order := 1; highpass := 1; lowpass := 40;
                 filter := ([1%Q; 1%Q; 1%Q], [1%Q; 1%Q; 1%Q]) |} in
  let long := BatchObj [{| dtype1 := float64; data1 := repeat 1%Q 10 |}] in
  let short := BatchObj [{| dtype1 := float64; data1 := repeat 1%Q 10 |};
                         {| dtype1 := float64; data1 := repeat 1%Q 9 |}] in
  butter (SciPySignal := ref_signal) 1 (1 / nyquist 250, 40 / nyquist 250)%Q
  = Ok (filter self) /\
  wf_batch1d long /\ wf_batch1d short /\
  is_Ok (snd (ButterFilter_transform (S := ref_signal) self long)) /\
  snd (ButterFilter_transform (S := ref_signal) self short) = Raise ValueError.
Proof.
  intros self long short.
  assert (Hb : butter (SciPySignal := ref_signal) 1 (1 / nyquist 250, 40 / nyquist 250)%Q
               = Ok (filter self)) by (vm_compute; reflexivity).
  destruct (ButterFilter_transform_outcomes ref_butter_contract ref_filtfilt_contract
              self 1 _ long Hb I) as [Hok _].
  destruct (ButterFilter_transform_outcomes ref_butter_contract ref_filtfilt_contract
              self 1 _ short Hb I) as [_ Hraise].
  split; [exact Hb|]. split; [exact I|]. split; [exact I|]. split.
  - apply Hok. split; [|exact I].
    apply List.Forall_cons; [simpl; lia | apply List.Forall_nil].
  - apply Hraise. intros [Hall _].
    apply Forall_inv_tail, Forall_inv in Hall. simpl in Hall. lia.
Defined.

(** What a returned [decimate] says about its input, for a factor of at
    least one. *)
Lemma decimate_Ok_long {S : SciPySignal} (C : DecimateContract S)
    (x y : list Q) (q : Z) :
  1 <= q -> decimate x q = Ok y ->
  (decimate_padlen < length x)%nat /\
  Z.of_nat (length y) = ceil_div (Z.of_nat (length x)) q.
Proof.
  intros Hq Hy. destruct (le_lt_dec (length x) decimate_padlen) as [Hs|Hl].
  - rewrite (decimate_short S C x q Hq Hs) in Hy. discriminate.
  - split; [exact Hl|].
    destruct (decimate_long S C x q Hq Hl) as (y' & Hy' & Hlen). congruence.
Qed.



(** The records of an [object] batch are decimated one after the other and
    independently: the result for two batches glued together is the two
    results glued together, and the first exception wins. *)
Theorem Decimator_transform_app {S : SciPySignal} (self : Decimator)
    (items1 items2 : list array1) :
  snd (Decimator_transform self (BatchObj (items1 ++ items2)))
  = (o1 ← snd (Decimator_transform self (BatchObj items1));
     o2 ← snd (Decimator_transform self (BatchObj items2));
     Ok (o1 ++ o2)).
Proof.
  unfold Decimator_transform. simpl. rewrite comprehension_app.
  destruct (comprehension _ items1) as [v1|e]; simpl; [|reflexivity].
  destruct (comprehension _ items2) as [v2|e]; simpl; [|reflexivity].
  rewrite map_app. reflexivity.
Qed.

(* ===================================================================== *)
(** * Part 19.  Filtering, decimating, and the markers that go with them  *)
(* ===================================================================== *)

(** A position inside a record of [n] samples, divided by the factor, is a
    position inside a record of [ceil(n / q)] samples. *)
Lemma floordiv_inside (i n q : Z) :
  1 <= q -> 0 <= i < n -> 0 <= i / q < ceil_div n q.
Proof.
  intros Hq Hi. split; [apply Z.div_pos; lia|].
  unfold ceil_div. replace (n + q - 1) with (n - 1 + 1 * q) by lia.
  rewrite Z.div_add by lia.
  assert (i / q <= (n - 1) / q) by (apply Z.div_le_mono; lia). lia.
Qed.





(* ===================================================================== *)
(** * Part 20.  ChannellwiseScaler: errors of [fit], and channels          *)
(* ===================================================================== *)

(** [fit] on one record given as a 2-D array iterates over its channels:
    a scaler that expects a matrix refuses the first 1-D row, [fit] raises
    [ValueError], and the scaler has learnt nothing. *)
Theorem ChannellwiseScaler_fit_single_raises {St : Type} {Sc : Scaler St}
    (self : ChannellwiseScaler St) (a : array2) :
  ExpectsMatrix St -> rows2 a <> [] ->
  ChannellwiseScaler_fit self (Single a) = (self, Raise ValueError).
Proof.
  intros H2d Hne. unfold ChannellwiseScaler_fit.
  destruct a as [dt c [|row rows]]; [contradiction|]. simpl.
  rewrite (partial_fit_1d St H2d). simpl. destruct self. reflexivity.
Qed.

Lemma ChannellwiseScaler_fit_single_raises_witness :
  let self : ChannellwiseScaler mean_state := ChannellwiseScaler_init None in
  let a := {| dtype2 := float64; ncols2 := 3;
              rows2 := [[1; 2; 3]%Q; [4; 5; 6]%Q] |} in
  ExpectsMatrix mean_state (Sc := mean_scaler) /\
  rows2 a <> [] /\
  ChannellwiseScaler_fit (Sc := mean_scaler) self (Single a) = (self, Raise ValueError).
Proof.
  intros self a.
  assert (Hne : rows2 a <> []) by discriminate.
  split; [exact mean_scaler_expects_matrix|]. split; [exact Hne|].
  exact (ChannellwiseScaler_fit_single_raises (Sc := mean_scaler) self a
           mean_scaler_expects_matrix Hne).
Defined.

(** [fit] is not all-or-nothing.  When the scaler refuses a record, [fit]
    raises that exception at once: the records before it have been learnt and
    stay learnt, the scaler is left as the failed [partial_fit] left it, and
    the records after it are never looked at. *)
Theorem ChannellwiseScaler_fit_stops_at_error {St : Type} {Sc : Scaler St}
    (self self1 : ChannellwiseScaler St) (seen : list array2) (bad : array2)
    (rest : list array2) (s2 : St) (e : exn) :
  ChannellwiseScaler_fit self (ManyObj seen) = (self1, Ok self1) ->
  partial_fit (scaler self1) (Nd2 (transpose bad)) = (s2, Raise e) ->
  ChannellwiseScaler_fit self (ManyObj (seen ++ bad :: rest))
  = (ChannellwiseScaler_init s2, Raise e).
Proof.
  unfold ChannellwiseScaler_fit. simpl. intros Hseen Hbad.
  rewrite map_app, fit_loop_app.
  destruct (fit_loop (scaler self) (map Nd2 seen)) as [s1 [u|e1]]; simpl in Hseen;
    [|discriminate].
  injection Hseen as <-. simpl in Hbad. simpl. rewrite Hbad. reflexivity.
Qed.

Lemma ChannellwiseScaler_fit_stops_at_error_witness :
  let self : ChannellwiseScaler mean_state := ChannellwiseScaler_init None in
  let self1 : ChannellwiseScaler mean_state :=
    ChannellwiseScaler_init (Some (3%nat, [6%Q; 15%Q])) in
  let seen := [{| dtype2 := float64; ncols2 := 3; rows2 := [[1; 2; 3]%Q; [4; 5; 6]%Q] |}] in
  let bad := {| dtype2 := float64; ncols2 := 2; rows2 := [[1; 2]%Q; [3; 4]%Q; [5; 6]%Q] |} in
  let rest := [{| dtype2 := float64; ncols2 := 1; rows2 := [[7%Q]; [8%Q]] |}] in
  ChannellwiseScaler_fit (Sc := mean_scaler) self (ManyObj seen) = (self1, Ok self1) /\
  partial_fit (Scaler := mean_scaler) (scaler self1) (Nd2 (transpose bad))
  = (scaler self1, Raise ValueError) /\
  ChannellwiseScaler_fit (Sc := mean_scaler) self (ManyObj (seen ++ bad :: rest))
  = (self1, Raise ValueError).
Proof.
  intros self self1 seen bad rest.
  assert (Hseen : ChannellwiseScaler_fit (Sc := mean_scaler) self (ManyObj seen)
                  = (self1, Ok self1)) by (vm_compute; reflexivity).
  assert (Hbad : partial_fit (Scaler := mean_scaler) (scaler self1) (Nd2 (transpose bad))
                 = (scaler self1, Raise ValueError)) by (vm_compute; reflexivity).
  split; [exact Hseen|]. split; [exact Hbad|].
  exact (ChannellwiseScaler_fit_stops_at_error (Sc := mean_scaler) self self1 seen bad rest
           (scaler self1) ValueError Hseen Hbad).
Defined.

Lemma map_nth_seq {A} (d : A) (l : list A) :
  map (fun t => nth t l d) (seq 0 (length l)) = l.
Proof.
  induction l as [|x l IH]; [reflexivity|].
  simpl. f_equal. rewrite <- seq_shift, map_map. exact IH.
Qed.

Lemma map_imap {A B C} (h : B -> C) (f : nat -> A -> B) (l : list A) :
  map h (imap f l) = imap (fun i x => h (f i x)) l.
Proof.
  revert f. induction l as [|x l IH]; intros f; [reflexivity|].
  simpl. f_equal. apply IH.
Qed.

(** Scaling the columns of the transposed record and transposing back is
    scaling the rows of the record. *)
Lemma transpose_scaled (c : nat) (rec : list (list Q)) (g : nat -> Q -> Q) :
  Forall (fun row => length row = c) rec ->
  map (fun j => column j (map (imap g) (map (fun t => column t rec) (seq 0 c))))
      (seq 0 (length rec))
  = imap (fun ch row => map (g ch) row) rec.
Proof.
  intros Hc. revert g. induction Hc as [|x rec Hx _ IH]; intros g; [reflexivity|].
  cbn [length seq map imap]. f_equal.
  - unfold column. rewrite !map_map. simpl.
    etransitivity; [|apply (f_equal (map (g 0%nat)) (map_nth_seq 0%Q x))].
    rewrite Hx, map_map. reflexivity.
  - rewrite <- seq_shift, map_map.
    etransitivity; [|exact (IH (g ∘ S))].
    apply map_ext. intros j. unfold column. rewrite !map_map. reflexivity.
Qed.

(** What transposing back gives, for a result [y] that scaled the columns of
    the transposed record [m]. *)
Lemma transpose_scaled_rows (m y : array2) (g : nat -> Q -> Q) :
  wf2 m ->
  ncols2 y = ncols2 (transpose m) ->
  rows2 y = map (imap g) (rows2 (transpose m)) ->
  ncols2 (transpose y) = ncols2 m /\
  rows2 (transpose y) = imap (fun ch row => map (g ch) row) (rows2 m).
Proof.
  intros Hwf Hyc Hyr. split.
  - simpl. rewrite Hyr. simpl. rewrite !length_map, length_seq. reflexivity.
  - unfold transpose at 1. cbn [rows2]. rewrite Hyr, Hyc. simpl.
    apply transpose_scaled. exact Hwf.
Qed.

Section Channelwise.

Context {St : Type} {Sc : Scaler St}.

(** One turn of the loop of [transform] for a scaler that works feature by
    feature. *)
Lemma scaled_record_channelwise (s : St) (d : dtype) (r c : nat)
    (rec : list (list Q)) (g : nat -> Q -> Q) :
  rect r c rec -> scales_features s r g ->
  (v ← scaled_value s (Nd2 {| dtype2 := d; ncols2 := c; rows2 := rec |});
   setitem_2d d r c v)
  = Ok (imap (fun ch row => map (fun x => cast d (g ch x)) row) rec).
Proof.
  intros [Hr Hc] Hs.
  set (m := {| dtype2 := d; ncols2 := c; rows2 := rec |}).
  destruct (Hs (transpose m) (wf2_transpose m)) as (y & Hy & Hyc & Hyr); [exact Hr|].
  unfold scaled_value. simpl ndT. rewrite Hy. simpl.
  destruct (transpose_scaled_rows m y g Hc Hyc Hyr) as [_ Hrows].
  change (rows2 m) with rec in Hrows.
  rewrite setitem_2d_same.
  - rewrite Hrows, map_imap. f_equal. apply imap_ext. intros i x _. simpl.
    apply map_map.
  - pose proof (rect_transpose y) as Hrect.
    rewrite Hyc, Hyr in Hrect. simpl in Hrect.
    rewrite !length_map, length_seq, Hr in Hrect. exact Hrect.
Qed.

End Channelwise.

(** The reference scaler works feature by feature: it subtracts from column
    [j] the mean it has accumulated for feature [j]. *)
Lemma mean_scaler_scales_features (n : nat) (sums : list Q) :
  scales_features (Sc := mean_scaler) (Some (n, sums)) (length sums)
    (fun j x => (x - nth j sums 0 / inject_Z (Z.of_nat n))%Q).
Proof.
  intros m _ Hk. simpl. destruct (decide (length sums = ncols2 m)) as [_|Hne];
    [|congruence].
  eexists. split; [reflexivity|]. split; reflexivity.
Qed.

(** The transform is channelwise.  For a scaler that works feature by
    feature, with [k] features, and a batch of records with [k] channels,
    every sample of channel [ch] of every record is replaced by [g ch] of it:
    what a sample becomes depends on its channel and its value only, not on
    the other channels, the position in time or the record it is in.  In a
    3-D batch the new values are held as an array of the dtype of the batch
    stores them ([stored]: kept in a float array; in an integer array rounded
    towards zero when the rounded value is within the range of the dtype); in
    an [object] batch, whose records may differ in length, they are kept as
    the scaler returned them. *)
Theorem ChannellwiseScaler_transform_channelwise {St : Type} {Sc : Scaler St}
    (self : ChannellwiseScaler St) (k : nat) (g : nat -> Q -> Q) :
  scales_features (scaler self) k g ->
  (forall a : array3,
      wf3 a -> nrows3 a = k ->
      exists recs,
        ChannellwiseScaler_transform self (Many a)
        = (self,
           Ok (Many {| dtype3 := dtype3 a; nrows3 := nrows3 a; ncols3 := ncols3 a;
                       recs3 := recs |})) /\
        Forall2 (Forall2 (Forall2 (fun y x => stored (dtype3 a) x y)))
                recs (map (imap (fun ch row => map (g ch) row)) (recs3 a))) /\
  (forall items : list array2,
      Forall (fun item => wf2 item /\ length (rows2 item) = k) items ->
      exists out,
        ChannellwiseScaler_transform self (ManyObj items) = (self, Ok (ManyObj out)) /\
        Forall2 (fun o item =>
                   ncols2 o = ncols2 item /\
                   rows2 o = imap (fun ch row => map (g ch) row) (rows2 item))
                out items).
Proof.
  intros Hs. split.
  - intros a Hwf Hk. subst k.
    exists (map (map (map (cast (dtype3 a))))
                (map (imap (fun ch row => map (g ch) row)) (recs3 a))).
    split.
    + unfold ChannellwiseScaler_transform. f_equal.
      rewrite (comprehension_Forall2_Ok _ _
                 (map (imap (fun ch row => map (fun x => cast (dtype3 a) (g ch x)) row))
                      (recs3 a))).
      * simpl. do 3 f_equal. rewrite map_map. apply map_ext. intros rec.
        rewrite map_imap. apply imap_ext. intros i x _. simpl.
        symmetry. apply map_map.
      * simpl. unfold iter3. apply Forall2_fmap_l, Forall2_fmap_r, Forall2_fmap_r.
        apply Forall_Forall2_diag. eapply Forall_impl; [exact Hwf|].
        intros rec Hrec. simpl. apply scaled_record_channelwise; assumption.
    + apply Forall2_fmap_l, Forall_Forall2_diag, Forall_forall.
      intros rec _. apply rows_cast_stored.
  - intros items Hitems. unfold ChannellwiseScaler_transform.
    destruct (comprehension_Forall2
                (scaled_value (scaler self))
                (fun o x => match x with
                            | Nd2 item =>
                                ncols2 o = ncols2 item /\
                                rows2 o = imap (fun ch row => map (g ch) row) (rows2 item)
                            | Nd1 _ => False
                            end)
                (iter_batch2d (ManyObj items))) as (out & Hout & Hall).
    { simpl. apply Forall_map. eapply Forall_impl; [exact Hitems|].
      intros item [Hwf Hk]. simpl.
      destruct (Hs (transpose item) (wf2_transpose item)) as (y & Hy & Hyc & Hyr);
        [exact Hk|].
      exists (transpose y). unfold scaled_value. simpl ndT. rewrite Hy.
      split; [reflexivity|]. exact (transpose_scaled_rows item y g Hwf Hyc Hyr). }
    rewrite Hout. simpl. exists out. split; [reflexivity|].
    simpl in Hall. apply Forall2_fmap_r in Hall. exact Hall.
Qed.

Lemma ChannellwiseScaler_transform_channelwise_witness :
  let fitted : ChannellwiseScaler mean_state :=
    ChannellwiseScaler_init (Some (2%nat, [2%Q; 10%Q])) in
  let t := {| dtype3 := int32; nrows3 := 2; ncols3 := 3;
              recs3 := [[[1; 2; 3]%Q; [4; 5; 6]%Q]; [[0; 0; 1]%Q; [2; 2; 2]%Q]] |} in
  let items := [{| dtype2 := float64; ncols2 := 3; rows2 := [[1; 2; 3]%Q; [4; 5; 6]%Q] |};
                {| dtype2 := float64; ncols2 := 1; rows2 := [[7%Q]; [8%Q]] |}] in
  let g := fun (j : nat) (x : Q) => (x - nth j [2%Q; 10%Q] 0 / inject_Z (Z.of_nat 2))%Q in
  scales_features (Sc := mean_scaler) (scaler fitted) 2 g /\
  wf3 t /\ nrows3 t = 2%nat /\
  Forall (fun item => wf2 item /\ length (rows2 item) = 2%nat) items /\
  (exists recs,
     ChannellwiseScaler_transform (Sc := mean_scaler) fitted (Many t)
     = (fitted, Ok (Many {| dtype3 := int32; nrows3 := 2; ncols3 := 3; recs3 := recs |})) /\
     Forall2 (Forall2 (Forall2 (fun y x => stored int32 x y)))
             recs (map (imap (fun ch row => map (g ch) row)) (recs3 t))) /\
  exists out,
    ChannellwiseScaler_transform (Sc := mean_scaler) fitted (ManyObj items)
    = (fitted, Ok (ManyObj out)) /\
    Forall2 (fun o item =>
               ncols2 o = ncols2 item /\
               rows2 o = imap (fun ch row => map (g ch) row) (rows2 item))
            out items.
Proof.
  intros fitted t items g.
  assert (Hs : scales_features (Sc := mean_scaler) (scaler fitted) 2 g)
    by exact (mean_scaler_scales_features 2 [2%Q; 10%Q]).
  assert (Hwf3 : wf3 t).
  { apply List.Forall_cons; [|apply List.Forall_cons; [|apply List.Forall_nil]];
      (split; [reflexivity|]);
      (apply List.Forall_cons; [reflexivity|]); (apply List.Forall_cons; [reflexivity|]);
      apply List.Forall_nil. }
  assert (Hk : nrows3 t = 2%nat) by reflexivity.
  assert (Hitems : Forall (fun item => wf2 item /\ length (rows2 item) = 2%nat) items).
  { apply List.Forall_cons; [|apply List.Forall_cons; [|apply List.Forall_nil]];
      (split; [|reflexivity]);
      (apply List.Forall_cons; [reflexivity|]); (apply List.Forall_cons; [reflexivity|]);
      apply List.Forall_nil. }
  destruct (ChannellwiseScaler_transform_channelwise (Sc := mean_scaler) fitted 2 g Hs)
    as [Hmany Hobj].
  split; [exact Hs|]. split; [exact Hwf3|]. split; [exact Hk|]. split; [exact Hitems|].
  split; [exact (Hmany t Hwf3 Hk) | exact (Hobj items Hitems)].
Defined.

(** On that batch, with channel means 1 and 5: the first channel of every
    record is lowered by 1, the second by 5. *)
Example ChannellwiseScaler_transform_channelwise_example :
  snd (ChannellwiseScaler_transform (Sc := mean_scaler)
         (ChannellwiseScaler_init (Some (2%nat, [2%Q; 10%Q])))
         (Many {| dtype3 := int64; nrows3 := 2; ncols3 := 3;
                  recs3 := [[[1; 2; 3]%Q; [4; 5; 6]%Q]; [[0; 0; 1]%Q; [2; 2; 2]%Q]] |}))
  = Ok (Many {| dtype3 := int64; nrows3 := 2; ncols3 := 3;
                recs3 := [[[0; 1; 2]%Q; [-1; 0; 1]%Q]; [[-1; -1; 0]%Q; [-3; -3; -3]%Q]] |}).
Proof. vm_compute. reflexivity. Qed.
